(** * Earnings-reaction trading bot: scoring, simulation and risk gates

    A shallow embedding of the numeric core of the bot:
    - [risk_manager.py]   (class [RiskManager]),
    - [backtester.py]     (class [Backtester]),
    - [analyzer.py]       (class [StockAnalyzer]),
    - [backtest_full.py]  (class [FullBacktester]).

    Conventions of the embedding.
    - A Python [float] is an exact rational ([Q]); rounding error, NaN and
      infinities are outside the model.  Equalities between computed numbers
      are therefore stated with [==] ([Qeq]).
    - A calendar [date] is its day number ([Z]); [timedelta(days=n)] is [n].
    - A pandas frame of daily bars is the list of its rows in index order.
    - Exceptions are values of [outcome]; a [try/except] that returns [None]
      is [catch].  Logging is not modelled. *)

From Stdlib Require Import QArith Qround Qabs Lia Lqa List String ZArith Bool.
From Equations Require Import Equations.
Import ListNotations.
Open Scope Q_scope.

(** ** Python numbers and built-ins *)

Definition date := Z.

Definition Qltb (a b : Q) : bool := negb (Qle_bool b a).
Definition Qgeb (a b : Q) : bool := Qle_bool b a.
Definition Qgtb (a b : Q) : bool := Qltb b a.
Definition Qneqb (a b : Q) : bool := negb (Qeq_bool a b).

(** [max(a, b)]: the first argument is kept unless the second is greater. *)
Definition py_max (a b : Q) : Q := if Qgtb b a then b else a.

(** [min(a, b)]: the first argument is kept unless the second is smaller. *)
Definition py_min (a b : Q) : Q := if Qltb b a then b else a.

(** [sum(xs)]: a left fold starting from [0]. *)
Definition py_sum (xs : list Q) : Q := fold_left Qplus xs 0.

(** [len(xs)] used as a number. *)
Definition len {A : Type} (xs : list A) : Q := inject_Z (Z.of_nat (List.length xs)).

(** Nearest integer, ties to the even one (what [round] does). *)
Definition round_half_even (x : Q) : Z :=
  let f := Qfloor x in
  let r := x - inject_Z f in
  if Qltb r (1 # 2) then f
  else if Qltb (1 # 2) r then (f + 1)%Z
  else if Z.even f then f else (f + 1)%Z.

(** [round(x, 2)]. *)
Definition py_round2 (x : Q) : Q := inject_Z (round_half_even (x * 100)) / 100.

(** [xs[:n]] for an [int] n, negative n counting from the end. *)
Definition slice_to {A : Type} (xs : list A) (n : Z) : list A :=
  if (0 <=? n)%Z then firstn (Z.to_nat n) xs
  else firstn (List.length xs - Z.to_nat (- n)) xs.

(** [int(x)]: truncation towards zero. *)
Definition py_int (x : Q) : Z := (Qnum x ÷ Zpos (Qden x))%Z.

(** [round(x, 6)]. *)
Definition py_round6 (x : Q) : Q :=
  inject_Z (round_half_even (x * 1000000)) / 1000000.

(** The truth value of an optional float: [None] and [0.0] are false. *)
Definition truthy (x : option Q) : bool :=
  match x with
  | None => false
  | Some v => negb (Qeq_bool v 0)
  end.

(** [d.weekday()]: Monday is 0 and Sunday is 6.  The day number of a date
    is its proleptic Gregorian ordinal ([d.toordinal()]), of which day 1 is
    a Monday. *)
Definition weekday (d : date) : Z := ((d + 6) mod 7)%Z.

(** [sorted(xs, key=key, reverse=True)] and [xs.sort(key=key, reverse=True)]:
    descending by key, elements with equal keys in their original order.
    [ltb] is [<] on the keys. *)
Fixpoint insert_desc {A K : Type} (ltb : K -> K -> bool) (key : A -> K)
    (x : A) (sorted : list A) : list A :=
  match sorted with
  | [] => [x]
  | y :: rest =>
      if ltb (key x) (key y) then y :: insert_desc ltb key x rest
      else x :: y :: rest
  end.

Definition sorted_desc {A K : Type} (ltb : K -> K -> bool) (key : A -> K)
    (xs : list A) : list A :=
  fold_right (insert_desc ltb key) [] xs.

(** [max(first :: others, key=key)]: the running maximum is replaced only by
    an element with a strictly greater key. *)
Fixpoint max_by {A : Type} (key : A -> Q) (best : A) (others : list A) : A :=
  match others with
  | [] => best
  | x :: rest => max_by key (if Qgtb (key x) (key best) then x else best) rest
  end.

(** ** Exceptions *)

Inductive exn : Type :=
| ZeroDivisionError
| KeyError
| ValueError
| ProviderError.

Inductive outcome (A : Type) : Type :=
| Return (a : A)
| Raise (e : exn).
Arguments Return {A} a.
Arguments Raise {A} e.

Definition obind {A B : Type} (m : outcome A) (k : A -> outcome B) : outcome B :=
  match m with
  | Return a => k a
  | Raise e => Raise e
  end.

(** [try: ... except Exception: return None], for a body that itself may
    return [None]. *)
Definition catch {A : Type} (m : outcome (option A)) : option A :=
  match m with
  | Return r => r
  | Raise _ => None
  end.

(** [a / b] checked the way a division of Python floats is: a zero divisor
    raises.  Where the code divides by a number read from a frame (a numpy
    scalar, whose division by zero does not raise) the embedding uses the
    plain [/] instead. *)
Definition py_div (a b : Q) : outcome Q :=
  if Qeq_bool b 0 then Raise ZeroDivisionError else Return (a / b).

Declare Scope outcome_scope.
Delimit Scope outcome_scope with outcome.
Notation "x <- m ;; k" := (obind m (fun x => k))
  (at level 61, m at next level, right associativity) : outcome_scope.

(** ** Price bars *)

Record Bar : Type := mkBar {
  bar_date : date;
  bar_open : Q;
  bar_high : Q;
  bar_low : Q;
  bar_close : Q;
  bar_volume : Q
}.

(** A frame indexed by date: the rows in index order. *)
Definition DataFrame := list Bar.

Definition index (df : DataFrame) : list date := map bar_date df.

(** [d in df.index]. *)
Definition in_index (d : date) (df : DataFrame) : bool :=
  existsb (Z.eqb d) (index df).

(** [df.loc[d]] where the caller needs one row.  A missing label raises
    [KeyError].  A label that occurs more than once selects several rows, and
    every use below then fails on the truth value of a Series: [ValueError]. *)
Definition loc (df : DataFrame) (d : date) : outcome Bar :=
  match filter (fun b => Z.eqb (bar_date b) d) df with
  | [] => Raise KeyError
  | [b] => Return b
  | _ :: _ :: _ => Raise ValueError
  end.

(** [series.max()] and [series.min()] of a non-empty column. *)
Definition series_max (xs : list Q) : Q :=
  match xs with
  | [] => 0
  | x :: rest => fold_left py_max rest x
  end.

Definition series_min (xs : list Q) : Q :=
  match xs with
  | [] => 0
  | x :: rest => fold_left py_min rest x
  end.

(** ** risk_manager.py *)

Module RiskManager.

Record RiskConfig : Type := mkRiskConfig {
  max_position_size_percent : Q;
  max_daily_loss_percent : Q;
  max_drawdown_percent : Q;
  min_stock_price : Q;
  max_stock_price : Q;
  min_daily_volume : Q
}.

(** The attributes of a [RiskManager] instance ([self]). *)
Record t : Type := mk {
  config : RiskConfig;
  daily_start_balance : option Q;
  max_drawdown_balance : option Q
}.

(** [__init__] *)
Definition init (risk_config : RiskConfig) : t :=
  mk risk_config None None.

(** A method: reads and writes [self], returns a value or raises. *)
Definition M (A : Type) : Type := t -> outcome A * t.

Definition ret {A : Type} (a : A) : M A := fun self => (Return a, self).
Definition raise {A : Type} (e : exn) : M A := fun self => (Raise e, self).
Definition bind {A B : Type} (m : M A) (k : A -> M B) : M B :=
  fun self =>
    match m self with
    | (Return a, self') => k a self'
    | (Raise e, self') => (Raise e, self')
    end.
Definition get : M t := fun self => (Return self, self).
Definition put (self' : t) : M unit := fun _ => (Return tt, self').
Definition lift {A : Type} (o : outcome A) : M A := fun self => (o, self).

Declare Scope risk_scope.
Delimit Scope risk_scope with risk.
Notation "x <- m ;; k" := (bind m (fun x => k))
  (at level 61, m at next level, right associativity) : risk_scope.
Notation "m ;;; k" := (bind m (fun _ => k))
  (at level 61, right associativity) : risk_scope.

Open Scope risk_scope.

Definition set_daily_start_balance (balance : Q) : M unit :=
  self <- get ;;
  put (mk (config self) (Some balance) (max_drawdown_balance self)) ;;;
  self <- get ;;
  match max_drawdown_balance self with
  | None =>
      put (mk (config self) (daily_start_balance self) (Some balance))
  | Some hwm =>
      put (mk (config self) (daily_start_balance self) (Some (py_max hwm balance)))
  end.

(** Returns [(can_trade, loss_percent)]. *)
Definition check_daily_loss_limit (current_balance : Q) : M (bool * Q) :=
  self <- get ;;
  match daily_start_balance self with
  | None => ret (true, 0)
  | Some start =>
      let loss := start - current_balance in
      q <- lift (py_div loss start) ;;
      let loss_percent := q * 100 in
      if Qgeb loss_percent (max_daily_loss_percent (config self))
      then ret (false, loss_percent)
      else ret (true, loss_percent)
  end.

(** Returns [(can_trade, drawdown_percent)]. *)
Definition check_max_drawdown (current_balance : Q) : M (bool * Q) :=
  self <- get ;;
  match max_drawdown_balance self with
  | None => ret (true, 0)
  | Some hwm =>
      let drawdown := hwm - current_balance in
      q <- lift (py_div drawdown hwm) ;;
      let drawdown_percent := q * 100 in
      if Qgeb drawdown_percent (max_drawdown_percent (config self))
      then ret (false, drawdown_percent)
      else ret (true, drawdown_percent)
  end.

(** The reason string of [can_trade]; the two f-strings keep the number
    they format. *)
Inductive reason : Type :=
| DailyLossLimitExceeded (daily_loss : Q)
| MaxDrawdownLimitExceeded (drawdown : Q)
| Plain (text : string).

Definition can_trade (current_balance : Q) : M (bool * reason) :=
  r <- check_daily_loss_limit current_balance ;;
  let '(can_trade_daily, daily_loss) := r in
  if negb can_trade_daily then ret (false, DailyLossLimitExceeded daily_loss)
  else
    r <- check_max_drawdown current_balance ;;
    let '(can_trade_dd, drawdown) := r in
    if negb can_trade_dd then ret (false, MaxDrawdownLimitExceeded drawdown)
    else ret (true, Plain "All risk checks passed").

(** The percentage [calculate_stop_loss] ends up with (its local
    [stop_loss_percent] after both guards). *)
Definition stop_loss_percent (avg_drawdown : Q) : Q :=
  let p := avg_drawdown * 1.1 in
  let p := if Qgtb p (-0.08) then -0.08 else p in
  let p := if Qltb p (-0.20) then -0.20 else p in
  p.

Definition calculate_stop_loss (entry_price avg_drawdown : Q) : Q :=
  let stop_loss_price := entry_price * (1 + stop_loss_percent avg_drawdown) in
  py_round2 stop_loss_price.

Definition calculate_take_profit (entry_price avg_gain : Q) : Q :=
  let adjusted_gain := avg_gain * 0.90 in
  let take_profit_price := entry_price * (1 + adjusted_gain) in
  py_round2 take_profit_price.

(** One call made on the manager during a session. *)
Inductive call : Type :=
| SetDailyStartBalance (balance : Q)
| CheckDailyLossLimit (current_balance : Q)
| CheckMaxDrawdown (current_balance : Q)
| CanTrade (current_balance : Q).

(** The manager after a call (whether the call returned or raised). *)
Definition after (c : call) (self : t) : t :=
  match c with
  | SetDailyStartBalance b => snd (set_daily_start_balance b self)
  | CheckDailyLossLimit b => snd (check_daily_loss_limit b self)
  | CheckMaxDrawdown b => snd (check_max_drawdown b self)
  | CanTrade b => snd (can_trade b self)
  end.

Definition session (calls : list call) (self : t) : t :=
  fold_left (fun s c => after c s) calls self.

(** Returns [(quantity, capital_to_use)].  The log line at the end divides
    by the account balance. *)
Definition calculate_position_size (account_balance buying_power stock_price : Q)
  : M (Q * Q) :=
  self <- get ;;
  let max_capital :=
    account_balance * (max_position_size_percent (config self) / 100) in
  let available_capital := py_min (buying_power * 0.98) max_capital in
  if Qle_bool available_capital 0 then ret (0, 0)
  else
    quantity <- lift (py_div available_capital stock_price) ;;
    let quantity :=
      if Qltb quantity 1 then py_round6 quantity
      else inject_Z (py_int quantity) in
    let actual_capital := quantity * stock_price in
    logged <- lift (py_div actual_capital account_balance) ;;
    ret (quantity, actual_capital).

(** The reason string of [validate_stock]; the f-strings keep the numbers
    they format. *)
Inductive verdict : Type :=
| PriceBelowMinimum (price minimum : Q)
| PriceAboveMaximum (price maximum : Q)
| VolumeBelowMinimum (volume minimum : Q)
| StockValidationPassed.

(** Returns [(is_valid, reason)]. *)
Definition validate_stock (ticker : string) (price : Q) (volume : option Q)
  : M (bool * verdict) :=
  self <- get ;;
  if Qltb price (min_stock_price (config self))
  then ret (false, PriceBelowMinimum price (min_stock_price (config self)))
  else if Qgtb price (max_stock_price (config self))
  then ret (false, PriceAboveMaximum price (max_stock_price (config self)))
  else
    match volume with
    | Some v =>
        if Qltb v (min_daily_volume (config self))
        then ret (false, VolumeBelowMinimum v (min_daily_volume (config self)))
        else ret (true, StockValidationPassed)
    | None => ret (true, StockValidationPassed)
    end.

(** The dictionary of [get_risk_summary]; a key that is not set is [None]. *)
Record RiskSummary : Type := mkRiskSummary {
  daily_pnl : option Q;
  daily_pnl_percent : option Q;
  daily_limit_remaining : option Q;
  current_drawdown_percent : option Q;
  drawdown_limit_remaining : option Q;
  summary_max_position_size_percent : Q;
  summary_can_trade : bool;
  summary_can_trade_reason : reason
}.

Definition get_risk_summary (current_balance : Q) : M RiskSummary :=
  self <- get ;;
  daily <-
    (if truthy (daily_start_balance self)
     then
       match daily_start_balance self with
       | Some start =>
           let daily_pnl := current_balance - start in
           q <- lift (py_div daily_pnl start) ;;
           let daily_pnl_pct := q * 100 in
           ret (Some daily_pnl, Some daily_pnl_pct,
                Some (max_daily_loss_percent (config self) + daily_pnl_pct))
       | None => ret (None, None, None)
       end
     else ret (None, None, None)) ;;
  drawdown <-
    (if truthy (max_drawdown_balance self)
     then
       match max_drawdown_balance self with
       | Some hwm =>
           let drawdown := hwm - current_balance in
           q <- lift (py_div drawdown hwm) ;;
           let drawdown_pct := q * 100 in
           ret (Some drawdown_pct,
                Some (max_drawdown_percent (config self) - drawdown_pct))
       | None => ret (None, None)
       end
     else ret (None, None)) ;;
  verdict <- can_trade current_balance ;;
  let '(pnl, pnl_pct, remaining) := daily in
  let '(dd_pct, dd_remaining) := drawdown in
  ret (mkRiskSummary pnl pnl_pct remaining dd_pct dd_remaining
         (max_position_size_percent (config self))
         (fst verdict) (snd verdict)).

Close Scope risk_scope.

End RiskManager.

(** ** config.py *)

Module Config.

(** [RiskConfig.validate] *)
Definition risk_validate (c : RiskManager.RiskConfig) : bool :=
  if negb (Qltb 0 (RiskManager.max_position_size_percent c)
           && Qle_bool (RiskManager.max_position_size_percent c) 100)
  then false
  else if negb (Qltb 0 (RiskManager.max_daily_loss_percent c)
                && Qle_bool (RiskManager.max_daily_loss_percent c) 100)
  then false
  else if negb (Qltb 0 (RiskManager.max_drawdown_percent c)
                && Qle_bool (RiskManager.max_drawdown_percent c) 100)
  then false
  else if Qle_bool (RiskManager.min_stock_price c) 0 then false
  else if Qle_bool (RiskManager.max_stock_price c) (RiskManager.min_stock_price c)
  then false
  else if Qle_bool (RiskManager.min_daily_volume c) 0 then false
  else true.

Record AnalysisConfig : Type := mkAnalysisConfig {
  history_years : Z;
  max_stocks_to_analyze : Z;
  min_score_threshold : Q;
  min_avg_gain_percent : Q
}.

(** [AnalysisConfig.validate] *)
Definition analysis_validate (c : AnalysisConfig) : bool :=
  if (history_years c <=? 0)%Z then false
  else if (max_stocks_to_analyze c <=? 0)%Z then false
  else true.

End Config.

(** ** The market-data client (alpaca) *)

Record StockBarsRequest : Type := mkStockBarsRequest {
  symbol_or_symbols : list string;
  start : date;
  end_ : date
}.

(** [bars.data]: the rows per symbol; [None] when the symbol is absent. *)
Definition BarSet := string -> option (list Bar).

(** [client.get_stock_bars(request)]; the call may fail. *)
Definition StockHistoricalDataClient := StockBarsRequest -> outcome BarSet.

(** ** backtester.py *)

Module Backtester.

Open Scope outcome_scope.

(** The dictionary [simulate_trade] returns. *)
Record Trade : Type := mkTrade {
  ticker : string;
  entry_date : date;
  exit_date : date;
  entry_price : Q;
  exit_price : Q;
  pnl : Q;
  pnl_percent : Q;
  exit_reason : string;
  take_profit_price : Q;
  stop_loss_price : Q
}.

(** The entry day: [entry_date] when it is a trading day of the frame,
    otherwise the first index entry on or after it. *)
Definition resolve_entry (df : DataFrame) (entry_date : date) : option date :=
  if in_index entry_date df then Some entry_date
  else
    match filter (fun d => (entry_date <=? d)%Z) (index df) with
    | [] => None
    | d :: _ => Some d
    end.

(** [future_dates]: the holding period. *)
Definition future_dates (df : DataFrame) (entry_date : date) (hold_days : Z)
  : list date :=
  slice_to (filter (fun d => (entry_date <? d)%Z) (index df)) hold_days.

(** The [for trade_date in future_dates] loop: the exit it finds, if any,
    as [(exit_date, exit_price, exit_reason)]. *)
Fixpoint scan (df : DataFrame) (take_profit stop_loss : Q) (days : list date)
  : outcome (option (date * Q * string)) :=
  match days with
  | [] => Return None
  | trade_date :: rest =>
      row <- loc df trade_date ;;
      if Qgeb (bar_high row) take_profit
      then Return (Some (trade_date, take_profit, "Take profit hit"%string))
      else if Qle_bool (bar_low row) stop_loss
      then Return (Some (trade_date, stop_loss, "Stop loss hit"%string))
      else scan df take_profit stop_loss rest
  end.

(** The body of [simulate_trade] once the frame is built. *)
Definition simulate_frame (df : DataFrame) (ticker : string) (entry_date : date)
    (take_profit_pct stop_loss_pct : Q) (hold_days : Z)
  : outcome (option Trade) :=
  match resolve_entry df entry_date with
  | None => Return None
  | Some entry_date =>
      entry_row <- loc df entry_date ;;
      let entry_price := bar_close entry_row in
      let take_profit_price := entry_price * (1 + take_profit_pct) in
      let stop_loss_price := entry_price * (1 + stop_loss_pct) in
      let future_dates := future_dates df entry_date hold_days in
      match future_dates with
      | [] => Return None
      | _ :: _ =>
          found <- scan df take_profit_price stop_loss_price future_dates ;;
          exit <-
            match found with
            | Some e => Return e
            | None =>
                let exit_date := last future_dates 0%Z in
                exit_row <- loc df exit_date ;;
                Return (exit_date, bar_close exit_row, "Hold period expired"%string)
            end ;;
          let '(exit_date, exit_price, exit_reason) := exit in
          let pnl := exit_price - entry_price in
          let pnl_pct := (pnl / entry_price) * 100 in
          Return (Some (mkTrade ticker entry_date exit_date entry_price exit_price
                          pnl pnl_pct exit_reason
                          take_profit_price stop_loss_price))
      end
  end.

(** [simulate_trade]; [alpaca_data] is the attribute of that name. *)
Definition simulate_trade (alpaca_data : option StockHistoricalDataClient)
    (ticker : string) (entry_date : date)
    (take_profit_pct stop_loss_pct : Q) (hold_days : Z) : option Trade :=
  match alpaca_data with
  | None => None
  | Some client =>
      catch (
        let start_date := (entry_date - 5)%Z in
        let end_date := (entry_date + (hold_days + 10))%Z in
        bars <- client (mkStockBarsRequest [ticker] start_date end_date) ;;
        match bars ticker with
        | None => Return None
        | Some [] => Return None
        | Some df => simulate_frame df ticker entry_date
                       take_profit_pct stop_loss_pct hold_days
        end)
  end.

(** A trade with the bookkeeping both backtests add to it. *)
Record Executed : Type := mkExecuted {
  result : Trade;
  shares : Q;
  position_size : Q;
  trade_pnl : Q;
  capital_before : Q;
  capital_after : Q
}.

(** Win and loss averages and the profit factor, as both backtests compute
    them from their list of trades: [(wins, losses, avg_win, avg_loss,
    profit_factor)].  Each division is checked the way a float division is. *)
Definition win_loss_statistics (trades : list Executed)
  : outcome (list Executed * list Executed * Q * Q * Q) :=
  let wins := filter (fun t => Qgtb (pnl (result t)) 0) trades in
  let losses := filter (fun t => Qle_bool (pnl (result t)) 0) trades in
  avg_win <-
    match wins with
    | [] => Return 0
    | _ :: _ => py_div (py_sum (map trade_pnl wins)) (len wins)
    end ;;
  avg_loss <-
    match losses with
    | [] => Return 0
    | _ :: _ => py_div (py_sum (map trade_pnl losses)) (len losses)
    end ;;
  profit_factor <-
    (if Qneqb avg_loss 0
     then q <- py_div avg_win avg_loss ;; Return (Qabs q)
     else Return 0) ;;
  Return (wins, losses, avg_win, avg_loss, profit_factor).

(** The report of a backtest. *)
Record Summary : Type := mkSummary {
  initial_capital : Q;
  final_capital : Q;
  total_pnl : Q;
  total_pnl_percent : Q;
  num_trades : nat;
  num_wins : nat;
  num_losses : nat;
  win_rate : Q;
  avg_win : Q;
  avg_loss : Q;
  profit_factor : Q;
  max_drawdown : Q;
  trades : list Executed
}.

Inductive report : Type :=
| NoTradesExecuted
| Results (s : Summary).

(** The running peak-to-trough loop over a ledger of capital values, with
    the division checked the way a division of Python floats is:
    [(max_capital, max_drawdown)]. *)
Fixpoint drawdown_loop (ledger : list Q) (max_capital max_drawdown : Q)
  : outcome (Q * Q) :=
  match ledger with
  | [] => Return (max_capital, max_drawdown)
  | capital :: rest =>
      let max_capital := py_max max_capital capital in
      drawdown <- py_div (max_capital - capital) max_capital ;;
      drawdown_loop rest max_capital (py_max max_drawdown drawdown)
  end.

(** The peak-to-trough loop of [backtest_strategy] over the capital after
    each trade.  [trade['capital_after']] is a numpy scalar (the trade's P&L
    is computed from the prices of the frame), so the dividend is one and
    the division does not raise on a zero divisor. *)
Fixpoint trade_drawdown_loop (ledger : list Q) (max_capital max_drawdown : Q)
  : Q * Q :=
  match ledger with
  | [] => (max_capital, max_drawdown)
  | capital :: rest =>
      let max_capital := py_max max_capital capital in
      let drawdown := (max_capital - capital) / max_capital in
      trade_drawdown_loop rest max_capital (py_max max_drawdown drawdown)
  end.

(** One element of [test_stocks]; the two averages may be missing. *)
Record TestStock : Type := mkTestStock {
  ts_ticker : string;
  ts_entry_date : date;
  ts_avg_gain : option Q;
  ts_avg_drawdown : option Q
}.

Definition dict_get (v : option Q) (default : Q) : Q :=
  match v with
  | Some x => x
  | None => default
  end.

(** The trading loop of [backtest_strategy]: [(capital, trades)]. *)
Fixpoint trade_loop (alpaca_data : option StockHistoricalDataClient)
    (test_stocks : list TestStock) (capital : Q) (trades : list Executed)
  : Q * list Executed :=
  match test_stocks with
  | [] => (capital, trades)
  | stock_data :: rest =>
      let avg_gain := dict_get (ts_avg_gain stock_data) 0.10 in
      let avg_drawdown := dict_get (ts_avg_drawdown stock_data) (-0.08) in
      match simulate_trade alpaca_data (ts_ticker stock_data)
              (ts_entry_date stock_data) avg_gain (avg_drawdown * 1.1) 5 with
      | Some r =>
          let position_size := capital * 0.85 in
          let shares := position_size / entry_price r in
          let trade_pnl := shares * pnl r in
          let capital' := capital + trade_pnl in
          trade_loop alpaca_data rest capital'
            (trades ++ [mkExecuted r shares position_size trade_pnl capital capital'])
      | None => trade_loop alpaca_data rest capital trades
      end
  end.

(** [backtest_strategy].  Once a trade has run, [capital] is a numpy scalar
    (it has a trade's P&L added to it), and so is [total_pnl]: its division
    by [initial_capital] does not raise on a zero divisor. *)
Definition backtest_strategy (alpaca_data : option StockHistoricalDataClient)
    (test_stocks : list TestStock) (initial_capital : Q) : outcome report :=
  let '(capital, trades) := trade_loop alpaca_data test_stocks initial_capital [] in
  match trades with
  | [] => Return NoTradesExecuted
  | _ :: _ =>
      let total_pnl := capital - initial_capital in
      let total_pnl_pct := (total_pnl / initial_capital) * 100 in
      w <- py_div (len (filter (fun t => Qgtb (pnl (result t)) 0) trades)) (len trades) ;;
      let win_rate := w * 100 in
      st <- win_loss_statistics trades ;;
      let '(wins, losses, avg_win, avg_loss, profit_factor) := st in
      let '(_, max_drawdown) :=
        trade_drawdown_loop (map capital_after trades) initial_capital 0 in
      Return (Results (mkSummary initial_capital capital total_pnl total_pnl_pct
                         (List.length trades) (List.length wins) (List.length losses)
                         win_rate avg_win avg_loss profit_factor
                         (max_drawdown * 100) trades))
  end.

Close Scope outcome_scope.

End Backtester.

(** ** Scoring shared by analyzer.py and backtest_full.py

    [analyze_stock_earnings] and [analyze_stock_history] end with the same
    lines: the statistics of the collected samples and the fundamental
    score.  They are embedded once. *)

Module Scoring.

Open Scope outcome_scope.

(** The dictionary returned by [get_fundamental_metrics]. *)
Record Fundamentals : Type := mkFundamentals {
  eps_beat_rate : Q;
  avg_eps_surprise_pct : Q;
  revenue_growth_trend : Q;
  analyst_score : Q
}.

(** The neutral defaults [get_fundamental_metrics] starts from. *)
Definition default_metrics : Fundamentals := mkFundamentals 0.5 0 0.5 0.5.

(** The provider side of [get_fundamental_metrics]: the metrics it derives
    for a ticker from the provider's answers. *)
Definition FinnhubClient := string -> Fundamentals.

Definition get_fundamental_metrics (finnhub_client : option FinnhubClient)
    (ticker : string) : Fundamentals :=
  match finnhub_client with
  | None => default_metrics
  | Some client => client ticker
  end.

(** The statistics of the collected samples. *)
Record PriceStatistics : Type := mkPriceStatistics {
  frequency : Q;
  avg_gain : Q;
  avg_drawdown : Q;
  price_score : Q
}.

Definition price_statistics (all_gains all_drawdowns : list Q)
  : outcome PriceStatistics :=
  let positive_gains := filter (fun g => Qgtb g 0.01) all_gains in
  let negative_drawdowns := filter (fun d => Qltb d 0) all_drawdowns in
  frequency <-
    match all_gains with
    | [] => Return 0
    | _ :: _ => py_div (len positive_gains) (len all_gains)
    end ;;
  avg_gain <-
    match positive_gains with
    | [] => Return 0
    | _ :: _ => py_div (py_sum positive_gains) (len positive_gains)
    end ;;
  avg_drawdown <-
    match negative_drawdowns with
    | [] => Return (-0.05)
    | _ :: _ => py_div (py_sum negative_drawdowns) (len negative_drawdowns)
    end ;;
  let price_score := frequency * avg_gain in
  Return (mkPriceStatistics frequency avg_gain avg_drawdown price_score).

Definition normalized_eps_surprise (fundamentals : Fundamentals) : Q :=
  py_min (py_max (avg_eps_surprise_pct fundamentals / 40.0 + 0.5) 0.0) 1.0.

Definition fundamental_score (fundamentals : Fundamentals) : Q :=
  eps_beat_rate fundamentals * 0.5 +
  normalized_eps_surprise fundamentals * 0.3 +
  analyst_score fundamentals * 0.15 +
  revenue_growth_trend fundamentals * 0.05.

Definition final_score (price_score fundamental_score : Q) : Q :=
  price_score * 0.7 + fundamental_score * 0.3.

(** The dictionary an analysis returns ([revenue_growth] only in
    analyzer.py). *)
Record Analysis : Type := mkAnalysis {
  a_ticker : string;
  a_score : Q;
  a_price_score : Q;
  a_fundamental_score : Q;
  a_avg_gain : Q;
  a_avg_drawdown : Q;
  a_frequency : Q;
  a_eps_beat_rate : Q;
  a_avg_eps_surprise : Q;
  a_analyst_rating : Q;
  a_revenue_growth : option Q
}.

(** One reaction sample: [(perc_gain, perc_drawdown)] of a window against
    the close of the earnings day.  The operands are numpy scalars, whose
    division does not raise. *)
Definition reaction (window : list Bar) (t_close : Q) : Q * Q :=
  let perc_gain := (series_max (map bar_high window) - t_close) / t_close in
  let perc_drawdown := (series_min (map bar_low window) - t_close) / t_close in
  (perc_gain, perc_drawdown).

Close Scope outcome_scope.

End Scoring.

(** ** analyzer.py: the provider side of [get_fundamental_metrics]

    The three answers of the Finnhub client and what
    [StockAnalyzer.get_fundamental_metrics] derives from them. *)

Module FundamentalMetrics.

Import Scoring.

(** One element of [company_earnings]: [earning.get('actual')] and
    [earning.get('estimate')]. *)
Record Earning : Type := mkEarning {
  actual : option Q;
  estimate : option Q
}.

(** One element of [revenuePerShare]; a key that is missing is [None]. *)
Record RevenuePoint : Type := mkRevenuePoint {
  period : option string;
  v : option Q
}.

(** One element of [recommendation_trends]; a key that is missing is
    [None]. *)
Record Recommendation : Type := mkRecommendation {
  strongBuy : option Q;
  buy : option Q;
  hold : option Q;
  sell : option Q;
  strongSell : option Q
}.

(** The three provider calls; each may fail.  The answer of
    [company_basic_financials] is reduced to the list under
    [series/quarterly/revenuePerShare], [None] when a key on that path is
    missing. *)
Record Client : Type := mkClient {
  company_earnings : string -> outcome (list Earning);
  company_basic_financials : string -> outcome (option (list RevenuePoint));
  recommendation_trends : string -> outcome (list Recommendation)
}.

(** A block that reads and updates the [metrics] dictionary, and may raise
    after having updated it. *)
Definition M (A : Type) : Type := Fundamentals -> outcome A * Fundamentals.

Definition ret {A : Type} (a : A) : M A := fun metrics => (Return a, metrics).
Definition bind {A B : Type} (m : M A) (k : A -> M B) : M B :=
  fun metrics =>
    match m metrics with
    | (Return a, metrics') => k a metrics'
    | (Raise e, metrics') => (Raise e, metrics')
    end.
Definition lift {A : Type} (o : outcome A) : M A := fun metrics => (o, metrics).
Definition modify (f : Fundamentals -> Fundamentals) : M unit :=
  fun metrics => (Return tt, f metrics).

(** [try: ... except Exception: logger.debug(...)] *)
Definition try_ (m : M unit) : M unit :=
  fun metrics => (Return tt, snd (m metrics)).

Declare Scope metrics_scope.
Delimit Scope metrics_scope with metrics.
Notation "x <- m ;; k" := (bind m (fun x => k))
  (at level 61, m at next level, right associativity) : metrics_scope.
Notation "m ;;; k" := (bind m (fun _ => k))
  (at level 61, right associativity) : metrics_scope.

Definition set_eps_beat_rate (x : Q) (m : Fundamentals) : Fundamentals :=
  mkFundamentals x (avg_eps_surprise_pct m) (revenue_growth_trend m) (analyst_score m).
Definition set_avg_eps_surprise_pct (x : Q) (m : Fundamentals) : Fundamentals :=
  mkFundamentals (eps_beat_rate m) x (revenue_growth_trend m) (analyst_score m).
Definition set_revenue_growth_trend (x : Q) (m : Fundamentals) : Fundamentals :=
  mkFundamentals (eps_beat_rate m) (avg_eps_surprise_pct m) x (analyst_score m).
Definition set_analyst_score (x : Q) (m : Fundamentals) : Fundamentals :=
  mkFundamentals (eps_beat_rate m) (avg_eps_surprise_pct m) (revenue_growth_trend m) x.

(** The [for earning in earnings] loop: [(beats, surprises)]. *)
Fixpoint earnings_loop (earnings : list Earning) (beats : Z) (surprises : list Q)
  : outcome (Z * list Q) :=
  match earnings with
  | [] => Return (beats, surprises)
  | earning :: rest =>
      match actual earning, estimate earning with
      | Some actual, Some estimate =>
          if Qneqb estimate 0 then
            let beats := if Qgtb actual estimate then (beats + 1)%Z else beats in
            obind (py_div (actual - estimate) (Qabs estimate)) (fun q =>
            let surprise_pct := q * 100 in
            earnings_loop rest beats (surprises ++ [surprise_pct]))
          else earnings_loop rest beats surprises
      | _, _ => earnings_loop rest beats surprises
      end
  end.

(** The [for i in range(len(revenues) - 1)] loop over consecutive
    quarters, the more recent one first. *)
Fixpoint growth_loop (revenues : list Q) (growth_rates : list Q)
  : outcome (list Q) :=
  match revenues with
  | current :: rest =>
      match rest with
      | previous :: _ =>
          if Qneqb previous 0 then
            obind (py_div (current - previous) (Qabs previous)) (fun growth =>
            growth_loop rest (growth_rates ++ [growth]))
          else growth_loop rest growth_rates
      | [] => Return growth_rates
      end
  | [] => Return growth_rates
  end.

(** The keys [sorted] computes before it sorts: [x['period']] of every
    element. *)
Fixpoint period_keys (revenue_data : list RevenuePoint)
  : outcome (list (string * RevenuePoint)) :=
  match revenue_data with
  | [] => Return []
  | r :: rest =>
      match period r with
      | None => Raise KeyError
      | Some p => obind (period_keys rest) (fun keyed => Return ((p, r) :: keyed))
      end
  end.

(** [[r['v'] for r in revenue_data if 'v' in r]] *)
Definition values (revenue_data : list RevenuePoint) : list Q :=
  flat_map (fun r => match v r with Some x => [x] | None => [] end) revenue_data.

(** [recent.get(key, 0)] *)
Definition count (x : option Q) : Q :=
  match x with
  | Some n => n
  | None => 0
  end.

Open Scope metrics_scope.

(** 1. Company earnings (EPS data). *)
Definition eps_block (client : Client) (ticker : string) : M unit :=
  earnings <- lift (company_earnings client ticker) ;;
  match earnings with
  | [] => ret tt
  | _ :: _ =>
      r <- lift (earnings_loop earnings 0%Z []) ;;
      let '(beats, surprises) := r in
      rate <- lift (py_div (inject_Z beats) (len earnings)) ;;
      modify (set_eps_beat_rate rate) ;;;
      match surprises with
      | [] => ret tt
      | _ :: _ =>
          avg <- lift (py_div (py_sum surprises) (len surprises)) ;;
          modify (set_avg_eps_surprise_pct avg)
      end
  end.

(** 2. Company financials (revenue). *)
Definition revenue_block (client : Client) (ticker : string) : M unit :=
  financials <- lift (company_basic_financials client ticker) ;;
  match financials with
  | None => ret tt
  | Some revenue_data =>
      if (2 <=? List.length revenue_data)%nat then
        keyed <- lift (period_keys revenue_data) ;;
        let revenue_data := map snd (sorted_desc String.ltb fst keyed) in
        let revenues := values (slice_to revenue_data 4) in
        if (2 <=? List.length revenues)%nat then
          growth_rates <- lift (growth_loop revenues []) ;;
          match growth_rates with
          | [] => ret tt
          | _ :: _ =>
              avg_growth <- lift (py_div (py_sum growth_rates) (len growth_rates)) ;;
              if Qgtb avg_growth 0
              then modify (set_revenue_growth_trend (py_min (0.5 + avg_growth * 2.5) 1.0))
              else modify (set_revenue_growth_trend (py_max (0.5 + avg_growth * 2.5) 0.0))
          end
        else ret tt
      else ret tt
  end.

(** 3. Recommendation trends. *)
Definition recommendation_block (client : Client) (ticker : string) : M unit :=
  recommendations <- lift (recommendation_trends client ticker) ;;
  match recommendations with
  | [] => ret tt
  | recent :: _ =>
      let strong_buy := count (strongBuy recent) in
      let buy := count (buy recent) in
      let hold := count (hold recent) in
      let sell := count (sell recent) in
      let strong_sell := count (strongSell recent) in
      let total := strong_buy + buy + hold + sell + strong_sell in
      if Qgtb total 0 then
        score <- lift (py_div
                         (strong_buy * 1.0 + buy * 0.75 + hold * 0.5
                          + sell * 0.25 + strong_sell * 0.0) total) ;;
        modify (set_analyst_score score)
      else ret tt
  end.

(** [get_fundamental_metrics]; [finnhub_client] is the attribute of that
    name. *)
Definition get_fundamental_metrics (finnhub_client : option Client)
    (ticker : string) : Fundamentals :=
  let metrics := default_metrics in
  match finnhub_client with
  | None => metrics
  | Some client =>
      snd ((try_ (eps_block client ticker) ;;;
            try_ (revenue_block client ticker) ;;;
            try_ (recommendation_block client ticker)) metrics)
  end.

Close Scope metrics_scope.

(** The client as the scoring code sees it: the metrics per ticker. *)
Definition metrics_of (client : Client) : FinnhubClient :=
  fun ticker => get_fundamental_metrics (Some client) ticker.

End FundamentalMetrics.

(** ** analyzer.py *)

Module StockAnalyzer.

Import Scoring.
Open Scope outcome_scope.

(** [index.get_loc(key, method='ffill')] on an increasing index: the
    position of the last label not after [key]; [KeyError] when every label
    is after it. *)
Definition get_loc_ffill (idx : list date) (key : date) : outcome nat :=
  match List.length (filter (fun d => (d <=? key)%Z) idx) with
  | O => Raise KeyError
  | S n => Return n
  end.

(** [hist.iloc[t_idx + 1 : t_idx + 6]]: the next five trading days. *)
Definition window_after (hist : DataFrame) (t_idx : nat) : list Bar :=
  firstn 5 (skipn (t_idx + 1) hist).

(** The body of the loop over [relevant_dates] for one earnings date: the
    sample it appends, or [None] when it continues. *)
Definition sample (hist : DataFrame) (earnings_date : date) : option (Q * Q) :=
  catch (
    t_idx <- get_loc_ffill (index hist) earnings_date ;;
    match nth_error hist t_idx with
    | None => Raise KeyError
    | Some row =>
        let t_close := bar_close row in
        let window := window_after hist t_idx in
        match window with
        | [] => Return None
        | _ :: _ => Return (Some (reaction window t_close))
        end
    end).

(** The lists [all_gains] and [all_drawdowns] after the loop. *)
Fixpoint collect (hist : DataFrame) (dates : list date) : list Q * list Q :=
  match dates with
  | [] => ([], [])
  | d :: rest =>
      let '(gains, drawdowns) := collect hist rest in
      match sample hist d with
      | Some (g, dd) => (g :: gains, dd :: drawdowns)
      | None => (gains, drawdowns)
      end
  end.

(** [relevant_dates]: the earnings dates not before the cutoff.  The cutoff
    is today minus [history_years] calendar years, computed by the caller. *)
Definition relevant_dates (earnings_dates : list date) (cutoff_date : date)
  : list date :=
  filter (fun d => (cutoff_date <=? d)%Z) earnings_dates.

(** [analyze_stock_earnings].  [earnings_dates] is [stock.earnings_dates]
    ([None] when the provider has none), [hist] is [stock.history]. *)
Definition analyze_stock_earnings (finnhub_client : option FinnhubClient)
    (ticker : string) (earnings_dates : option (list date)) (cutoff_date : date)
    (hist : DataFrame) : option Analysis :=
  catch (
    match earnings_dates with
    | None => Return None
    | Some [] => Return None
    | Some earnings_dates =>
        let relevant_dates := relevant_dates earnings_dates cutoff_date in
        if (List.length relevant_dates <? 4)%nat then Return None
        else
          match hist with
          | [] => Return None
          | _ :: _ =>
              let '(all_gains, all_drawdowns) := collect hist relevant_dates in
              match all_gains with
              | [] => Return None
              | _ :: _ =>
                  st <- price_statistics all_gains all_drawdowns ;;
                  let fundamentals := get_fundamental_metrics finnhub_client ticker in
                  let fundamental_score := fundamental_score fundamentals in
                  let final_score := final_score (price_score st) fundamental_score in
                  Return (Some (mkAnalysis ticker final_score (price_score st)
                                  fundamental_score (avg_gain st) (avg_drawdown st)
                                  (frequency st)
                                  (eps_beat_rate fundamentals)
                                  (avg_eps_surprise_pct fundamentals)
                                  (analyst_score fundamentals)
                                  (Some (revenue_growth_trend fundamentals))))
              end
          end
    end).

Close Scope outcome_scope.

End StockAnalyzer.

(** ** analyzer.py: the selection pipeline of [StockAnalyzer] *)

Module StockSelection.

Import Scoring.

(** [filter_tradable_assets]; [TRADABLE_STOCKS] is the set loaded from
    stocks.txt. *)
Definition filter_tradable_assets (TRADABLE_STOCKS : list string)
    (tickers : list string) : list string :=
  filter (fun ticker => existsb (String.eqb ticker) TRADABLE_STOCKS) tickers.

(** Step 3 of [find_best_stock]: the analyses that were produced, in the
    order of the tickers. *)
Fixpoint analyze_each (analyze : string -> option Analysis)
    (tradable : list string) : list Analysis :=
  match tradable with
  | [] => []
  | ticker :: rest =>
      match analyze ticker with
      | Some analysis => analysis :: analyze_each analyze rest
      | None => analyze_each analyze rest
      end
  end.

(** [find_best_stock].  [tickers] is what [get_tomorrows_earnings] returned
    and [analyze] is [self.analyze_stock_earnings]. *)
Definition find_best_stock (config : Config.AnalysisConfig)
    (TRADABLE_STOCKS : list string) (tickers : list string)
    (analyze : string -> option Analysis) : option Analysis :=
  match tickers with
  | [] => None
  | _ :: _ =>
      let tradable := filter_tradable_assets TRADABLE_STOCKS tickers in
      match tradable with
      | [] => None
      | _ :: _ =>
          let tradable :=
            if (Config.max_stocks_to_analyze config <? Z.of_nat (List.length tradable))%Z
            then slice_to tradable (Config.max_stocks_to_analyze config)
            else tradable in
          let results := analyze_each analyze tradable in
          match results with
          | [] => None
          | _ :: _ =>
              let quality_results :=
                filter (fun result => Qgeb (a_eps_beat_rate result) 0.3) results in
              match quality_results with
              | [] => None
              | _ :: _ =>
                  (* [quality_results.sort(...)]; [best = quality_results[0]] *)
                  match sorted_desc Qltb a_score quality_results with
                  | [] => None
                  | best :: _ =>
                      if Qltb (a_score best) (Config.min_score_threshold config)
                      then None
                      else if Qltb (a_avg_gain best)
                                (Config.min_avg_gain_percent config / 100)
                      then None
                      else Some best
                  end
              end
          end
      end
  end.

End StockSelection.

(** ** backtest_full.py *)

Module FullBacktester.

Import Scoring.
Open Scope outcome_scope.

#[local] Unset Equations With Funext.

(** The [while current_est >= cutoff] loop that estimates the past
    quarterly earnings dates, ninety days apart.  Each turn moves
    [current_est] ninety days towards the cutoff, which bounds the loop. *)
Equations? estimate_loop (current_est cutoff : date) : list date
  by wf (Z.to_nat (current_est - cutoff + 1)) lt :=
  estimate_loop current_est cutoff with Z_le_dec cutoff current_est := {
    | left _ => current_est :: estimate_loop (current_est - 90)%Z cutoff
    | right _ => []
  }.
Proof. lia. Qed.

Definition past_earnings_dates (upcoming_earnings_date : date) : list date :=
  let current_est := (upcoming_earnings_date - 90)%Z in
  let cutoff := (upcoming_earnings_date - 730)%Z in
  estimate_loop current_est cutoff.

(** The trading day an estimated date is analysed on: the date itself when
    it is in the index, otherwise the first index entry on or after it. *)
Definition nearest_trading_day (df : DataFrame) (earnings_est_date : date)
  : option date :=
  if in_index earnings_est_date df then Some earnings_est_date
  else
    match filter (fun d => (earnings_est_date <=? d)%Z) (index df) with
    | [] => None
    | d :: _ => Some d
    end.

(** [[d for d in df.index if d > earnings_est_date][:5]] *)
Definition future_dates (df : DataFrame) (earnings_est_date : date) : list date :=
  firstn 5 (filter (fun d => (earnings_est_date <? d)%Z) (index df)).

(** [df.loc[future_dates]]: the rows of the listed days. *)
Definition rows_at (df : DataFrame) (dates : list date) : list Bar :=
  flat_map (fun d => filter (fun b => Z.eqb (bar_date b) d) df) dates.

(** The body of the loop over [past_earnings_dates] for one estimated
    date: the sample it appends, or [None] when it continues. *)
Definition sample (df : DataFrame) (earnings_est_date : date) : option (Q * Q) :=
  catch (
    match nearest_trading_day df earnings_est_date with
    | None => Return None
    | Some earnings_est_date =>
        row <- loc df earnings_est_date ;;
        let t_close := bar_close row in
        let future_dates := future_dates df earnings_est_date in
        if (List.length future_dates <? 3)%nat then Return None
        else
          let window := rows_at df future_dates in
          Return (Some (reaction window t_close))
    end).

(** The lists [all_gains] and [all_drawdowns] after the loop. *)
Fixpoint collect (df : DataFrame) (dates : list date) : list Q * list Q :=
  match dates with
  | [] => ([], [])
  | d :: rest =>
      let '(gains, drawdowns) := collect df rest in
      match sample df d with
      | Some (g, dd) => (g :: gains, dd :: drawdowns)
      | None => (gains, drawdowns)
      end
  end.

(** [analyze_stock_history].  [finnhub_client] is the client of
    [self.analyzer], which [__init__] creates without one. *)
Definition analyze_stock_history (alpaca_data : StockHistoricalDataClient)
    (finnhub_client : option FinnhubClient)
    (ticker : string) (upcoming_earnings_date : date) : option Analysis :=
  catch (
    let past_earnings_dates := past_earnings_dates upcoming_earnings_date in
    let cutoff := (upcoming_earnings_date - 730)%Z in
    if (List.length past_earnings_dates <? 3)%nat then Return None
    else
      let start_date := (cutoff - 10)%Z in
      let end_date := (upcoming_earnings_date - 1)%Z in
      bars <- alpaca_data (mkStockBarsRequest [ticker] start_date end_date) ;;
      match bars ticker with
      | None => Return None
      | Some [] => Return None
      | Some df =>
          let '(all_gains, all_drawdowns) := collect df past_earnings_dates in
          if (List.length all_gains <? 3)%nat then Return None
          else
            st <- price_statistics all_gains all_drawdowns ;;
            let fundamentals := get_fundamental_metrics finnhub_client ticker in
            let fundamental_score := fundamental_score fundamentals in
            let final_score := final_score (price_score st) fundamental_score in
            if Qltb (eps_beat_rate fundamentals) 0.3 then Return None
            else
              Return (Some (mkAnalysis ticker final_score (price_score st)
                              fundamental_score (avg_gain st) (avg_drawdown st)
                              (frequency st)
                              (eps_beat_rate fundamentals)
                              (avg_eps_surprise_pct fundamentals)
                              (analyst_score fundamentals)
                              None))
      end).

(** The attributes of a [FullBacktester] the statistics read. *)
Record t : Type := mk {
  capital : Q;
  initial_capital : Q;
  trades : list Backtester.Executed;
  daily_log : list (date * Q)
}.

(** [__init__] *)
Definition init : t := mk 10000 10000 [] [].

Inductive report : Type :=
| NoTradesExecuted (initial_capital final_capital : Q)
| Results (s : Backtester.Summary) (daily_log : list (date * Q)).

Definition calculate_statistics (self : t) : outcome report :=
  match trades self with
  | [] => Return (NoTradesExecuted (initial_capital self) (capital self))
  | _ :: _ =>
      let total_pnl := capital self - initial_capital self in
      q <- py_div total_pnl (initial_capital self) ;;
      let total_pnl_pct := q * 100 in
      w <- py_div
             (len (filter (fun t => Qgtb (Backtester.pnl (Backtester.result t)) 0)
                     (trades self)))
             (len (trades self)) ;;
      let win_rate := w * 100 in
      st <- Backtester.win_loss_statistics (trades self) ;;
      let '(wins, losses, avg_win, avg_loss, profit_factor) := st in
      dd <- Backtester.drawdown_loop (map snd (daily_log self))
              (initial_capital self) 0 ;;
      let '(_, max_drawdown) := dd in
      Return (Results
                (Backtester.mkSummary (initial_capital self) (capital self)
                   total_pnl total_pnl_pct
                   (List.length (trades self)) (List.length wins) (List.length losses)
                   win_rate avg_win avg_loss profit_factor
                   (max_drawdown * 100) (trades self))
                (daily_log self))
  end.

(** What a [FullBacktester] works with besides its ledger:
    [get_historical_earnings_calendar] (a provider call that answers with a
    list and never raises), its own market-data client, the client of
    [self.backtester], and [self.config.max_stocks_to_analyze]. *)
Record Env : Type := mkEnv {
  earnings_calendar : date -> list string;
  alpaca_data : StockHistoricalDataClient;
  backtester_alpaca_data : option StockHistoricalDataClient;
  max_stocks_to_analyze : Z
}.

(** The [for ticker in earnings_stocks[:max_analyze]] loop of
    [simulate_day]; [self.analyzer] has no Finnhub client. *)
Fixpoint analyze_each (env : Env) (tickers : list string) (next_day : date)
  : list Analysis :=
  match tickers with
  | [] => []
  | ticker :: rest =>
      match analyze_stock_history (alpaca_data env) None ticker next_day with
      | Some analysis => analysis :: analyze_each env rest next_day
      | None => analyze_each env rest next_day
      end
  end.

(** [simulate_day]: the trade it returns, if any, and the backtester
    afterwards.  Of the keys it adds to the trade only the bookkeeping ones
    are kept. *)
Definition simulate_day (env : Env) (current_date : date) (day_num total_days : Z)
    (self : t) : outcome (option Backtester.Executed) * t :=
  match py_div (inject_Z day_num) (inject_Z total_days) with
  | Raise e => (Raise e, self)
  | Return _ =>
      if (5 <=? weekday current_date)%Z then (Return None, self)
      else
        let next_day := (current_date + 1)%Z in
        let earnings_stocks := earnings_calendar env next_day in
        match earnings_stocks with
        | [] => (Return None, self)
        | _ :: _ =>
            let max_analyze :=
              Z.min (Z.of_nat (List.length earnings_stocks))
                (max_stocks_to_analyze env) in
            let analyzed_stocks :=
              analyze_each env (slice_to earnings_stocks max_analyze) next_day in
            match analyzed_stocks with
            | [] => (Return None, self)
            | first :: others =>
                let best_stock := max_by a_score first others in
                if Qltb (a_frequency best_stock) 0.4
                   || Qltb (a_avg_gain best_stock) 0.01
                then (Return None, self)
                else
                  match Backtester.simulate_trade (backtester_alpaca_data env)
                          (a_ticker best_stock) next_day
                          (a_avg_gain best_stock)
                          (a_avg_drawdown best_stock * 1.5) 5 with
                  | Some trade_result =>
                      let position_size := capital self * 0.85 in
                      let shares :=
                        position_size / Backtester.entry_price trade_result in
                      let trade_pnl := shares * Backtester.pnl trade_result in
                      let old_capital := capital self in
                      let new_capital := capital self + trade_pnl in
                      let trade :=
                        Backtester.mkExecuted trade_result shares position_size
                          trade_pnl old_capital new_capital in
                      (Return (Some trade),
                       mk new_capital (initial_capital self)
                          (trades self ++ [trade]) (daily_log self))
                  | None => (Return None, self)
                  end
            end
        end
  end.

(** The [while current_date <= end_date] loop of [run_full_backtest], which
    runs [remaining] more times, one calendar day at a time. *)
Fixpoint day_loop (env : Env) (remaining : nat) (current_date : date)
    (day_num total_days : Z) (self : t) : outcome unit * t :=
  match remaining with
  | O => (Return tt, self)
  | S remaining =>
      let self :=
        mk (capital self) (initial_capital self) (trades self)
           (daily_log self ++ [(current_date, capital self)]) in
      match simulate_day env current_date day_num total_days self with
      | (Return _, self) =>
          day_loop env remaining (current_date + 1)%Z (day_num + 1)%Z total_days self
      | (Raise e, self) => (Raise e, self)
      end
  end.

(** [run_full_backtest]; [today] is [date.today()]. *)
Definition run_full_backtest (env : Env) (today : date) (weeks : Z) (self : t)
  : outcome report * t :=
  let end_date := today in
  let start_date := (end_date - 7 * weeks)%Z in
  let total_days := (end_date - start_date + 1)%Z in
  match day_loop env (Z.to_nat (end_date - start_date + 1)) start_date 1
          total_days self with
  | (Return _, self) => (calculate_statistics self, self)
  | (Raise e, self) => (Raise e, self)
  end.

Close Scope outcome_scope.

End FullBacktester.

(** ** trader.py: the order [place_bracket_order] submits *)

Module Trader.

Import RiskManager.

(** The two numbers [place_bracket_order] reads from [get_account_info]. *)
Record AccountInfo : Type := mkAccountInfo {
  equity : Q;
  buying_power : Q
}.

(** The arguments of [api.submit_order]. *)
Record BracketOrder : Type := mkBracketOrder {
  symbol : string;
  qty : Q;
  take_profit_limit_price : Q;
  stop_loss_stop_price : Q
}.

Open Scope risk_scope.

(** [place_bracket_order] up to the call of [api.submit_order]: the order it
    submits together with the capital used, or [None] where the method
    returns [None] before.  [account_info] is the answer of
    [get_account_info], [current_price] the answer of [get_current_price];
    [risk] is the manager the method runs on. *)
Definition bracket_order (account_info : option AccountInfo)
    (current_price : option Q) (stock_data : Scoring.Analysis)
  : M (option (BracketOrder * Q)) :=
  match account_info with
  | None => ret None
  | Some account_info =>
      let current_balance := equity account_info in
      r <- can_trade current_balance ;;
      let '(can_trade, reason) := r in
      if negb can_trade then ret None
      else if negb (truthy current_price) then ret None
      else
        match current_price with
        | None => ret None
        | Some current_price =>
            r <- validate_stock (Scoring.a_ticker stock_data) current_price None ;;
            let '(is_valid, validation_reason) := r in
            if negb is_valid then ret None
            else
              r <- calculate_position_size current_balance
                     (buying_power account_info) current_price ;;
              let '(quantity, capital_used) := r in
              if Qeq_bool quantity 0 then ret None
              else
                let stop_loss_price :=
                  calculate_stop_loss current_price
                    (Scoring.a_avg_drawdown stock_data) in
                let take_profit_price :=
                  calculate_take_profit current_price
                    (Scoring.a_avg_gain stock_data) in
                ret (Some (mkBracketOrder (Scoring.a_ticker stock_data) quantity
                             take_profit_price stop_loss_price,
                           capital_used))
        end
  end.

(** The [try/except] around the body: an exception gives [None]. *)
Definition place_bracket_order (account_info : option AccountInfo)
    (current_price : option Q) (stock_data : Scoring.Analysis) (risk : t)
  : option (BracketOrder * Q) :=
  catch (fst (bracket_order account_info current_price stock_data risk)).

Close Scope risk_scope.

End Trader.

(** * Specification-side definitions and sample data *)

(** ** Risk sizing *)

(** The clamp as the specification words it: above -0.08 use -0.08, below
    -0.20 use -0.20. *)
Definition clamp_stop_pct (pct : Q) : Q :=
  if Qlt_le_dec (-0.08) pct then -0.08
  else if Qlt_le_dec pct (-0.20) then -0.20
  else pct.

(** [r] is [x] rounded to 2 decimals: a whole number of hundredths, at
    most half a hundredth away. *)
Definition rounded_to_2_decimals (x r : Q) : Prop :=
  (exists n : Z, r == inject_Z n / 100) /\ Qabs (r - x) <= 0.005.

(** The order in which a high-water mark may evolve: an unset mark may
    become anything, a set mark stays set and does not decrease. *)
Definition hwm_le (a b : option Q) : Prop :=
  match a, b with
  | None, _ => True
  | Some x, Some y => x <= y
  | Some _, None => False
  end.

(** The limits of a test configuration: 60% position, 5% daily loss, 10%
    drawdown. *)
Definition sample_risk_config : RiskManager.RiskConfig :=
  RiskManager.mkRiskConfig 60 5 10 5 500 1000000.

(** ** Reaction samples *)

(** One reaction sample of the data model; the analyses keep the two
    numbers in the parallel lists [all_gains] and [all_drawdowns]. *)
Record ReactionSample : Type := mkReactionSample {
  gain_pct : Q;
  drawdown_pct : Q
}.

(** Specification-side counting and averaging. *)
Fixpoint count_if {A : Type} (p : A -> bool) (xs : list A) : nat :=
  match xs with
  | [] => O
  | x :: rest => if p x then S (count_if p rest) else count_if p rest
  end.

Fixpoint total (xs : list Q) : Q :=
  match xs with
  | [] => 0
  | x :: rest => x + total rest
  end.

Definition mean (xs : list Q) : Q :=
  total xs / inject_Z (Z.of_nat (List.length xs)).

Definition is_gain (s : ReactionSample) : bool := Qltb 0.01 (gain_pct s).
Definition is_drawdown (s : ReactionSample) : bool := Qltb (drawdown_pct s) 0.

Definition spec_frequency (samples : list ReactionSample) : Q :=
  inject_Z (Z.of_nat (count_if is_gain samples))
  / inject_Z (Z.of_nat (List.length samples)).

Definition spec_avg_gain (samples : list ReactionSample) : Q :=
  match count_if is_gain samples with
  | O => 0
  | S _ => mean (map gain_pct (filter is_gain samples))
  end.

Definition spec_avg_drawdown (samples : list ReactionSample) : Q :=
  match count_if is_drawdown samples with
  | O => -0.05
  | S _ => mean (map drawdown_pct (filter is_drawdown samples))
  end.

(** The gains of scenario 1 of the specification. *)
Definition scenario_samples : list ReactionSample :=
  [ mkReactionSample 0.05 (-0.02); mkReactionSample (-0.02) (-0.06);
    mkReactionSample 0.03 (-0.01); mkReactionSample 0.015 (-0.03) ].

(** The dictionary both analyses build from the statistics and the
    fundamentals. *)
Definition analysis_of (ticker : string) (st : Scoring.PriceStatistics)
    (fundamentals : Scoring.Fundamentals) (revenue_growth : option Q)
  : Scoring.Analysis :=
  Scoring.mkAnalysis ticker
    (Scoring.final_score (Scoring.price_score st)
       (Scoring.fundamental_score fundamentals))
    (Scoring.price_score st) (Scoring.fundamental_score fundamentals)
    (Scoring.avg_gain st) (Scoring.avg_drawdown st) (Scoring.frequency st)
    (Scoring.eps_beat_rate fundamentals)
    (Scoring.avg_eps_surprise_pct fundamentals)
    (Scoring.analyst_score fundamentals) revenue_growth.

(** What an analysis reports about its samples. *)
Definition reports (a : Scoring.Analysis) (samples : list ReactionSample) : Prop :=
  samples <> [] /\
  Scoring.a_frequency a == spec_frequency samples /\
  Scoring.a_avg_gain a == spec_avg_gain samples /\
  Scoring.a_avg_drawdown a == spec_avg_drawdown samples /\
  Scoring.a_price_score a = Scoring.a_frequency a * Scoring.a_avg_gain a.

(** ** Sample market data *)

(** A bar with close 100, high 103 and low 98. *)
Definition flat_bar (d : date) : Bar := mkBar d 100 103 98 100 1000.

(** Trading days [first], [first + 1], ..., [first + n - 1]. *)
Definition trading_days (first : date) (n : nat) : list date :=
  map (fun k => (first + Z.of_nat k)%Z) (seq 0 n).

Definition sample_hist : DataFrame := map flat_bar (trading_days 1%Z 30).

Definition sample_earnings_dates : list date := [5; 10; 15; 20]%Z.

(** Bars for the two years before day 1000. *)
Definition sample_frame : DataFrame := map flat_bar (trading_days 260%Z 740).

Definition sample_client : StockHistoricalDataClient :=
  fun _ => Return (fun _ => Some sample_frame).




(** ** Scores and statistics *)

(** [clamp(lo, hi, x)] of the specification. *)
Definition clamp (lo hi x : Q) : Q :=
  if Qlt_le_dec x lo then lo
  else if Qlt_le_dec hi x then hi
  else x.

(** The mean of a list of numbers, 0 for the empty list. *)
Definition mean_or_zero (xs : list Q) : Q :=
  match xs with
  | [] => 0
  | _ :: _ => mean xs
  end.

Definition is_win (t : Backtester.Executed) : bool :=
  Qltb 0 (Backtester.pnl (Backtester.result t)).

Definition is_loss (t : Backtester.Executed) : bool :=
  Qle_bool (Backtester.pnl (Backtester.result t)) 0.

(** The profit factor as the specification defines it. *)
Definition spec_profit_factor (avg_win avg_loss : Q) : Q :=
  if Qeq_dec avg_loss 0 then 0 else Qabs (avg_win / avg_loss).

(** Two trades, one won and one lost, for a book that started at 10000. *)
Definition won_trade : Backtester.Executed :=
  Backtester.mkExecuted
    (Backtester.mkTrade "ACME" 1%Z 3%Z 100 110 10 10 "Take profit hit" 110 92)
    85 8500 850 10000 10850.

Definition lost_trade : Backtester.Executed :=
  Backtester.mkExecuted
    (Backtester.mkTrade "EMCA" 5%Z 6%Z 50 46 (-4) (-8) "Stop loss hit" 55 46)
    184.45 9222.5 (-737.8) 10850 10112.2.

Definition sample_book : FullBacktester.t :=
  FullBacktester.mk 10112.2 10000 [won_trade; lost_trade]
    [(1%Z, 10000); (3%Z, 10850); (6%Z, 10112.2)].

(** A report carries the statistics of its own trades. *)
Definition summary_consistent (s : Backtester.Summary) : Prop :=
  Backtester.win_loss_statistics (Backtester.trades s)
  = Return (filter is_win (Backtester.trades s),
            filter is_loss (Backtester.trades s),
            Backtester.avg_win s, Backtester.avg_loss s,
            Backtester.profit_factor s).

(** ** Simulated days *)

(** Three days: the entry day closes at 100; the next day only reaches the
    stop; the day after spans both the target (110) and the stop (92). *)
Definition stop_then_both : DataFrame :=
  [ mkBar 0%Z 100 101 99 100 1000;
    mkBar 1%Z 100 105 90 95 1000;
    mkBar 2%Z 95 112 90 100 1000 ].

Definition stop_then_both_client : StockHistoricalDataClient :=
  fun _ => Return (fun _ => Some stop_then_both).

(** Two days: the entry day closes at 100, the next day spans both the
    target and the stop. *)
Definition both_at_once : DataFrame :=
  [ mkBar 0%Z 100 101 99 100 1000;
    mkBar 1%Z 100 112 90 100 1000 ].

Definition both_at_once_client : StockHistoricalDataClient :=
  fun _ => Return (fun _ => Some both_at_once).

(** Scenario 2 of the specification: entry at 100, a quiet day, then a
    day that reaches 112. *)
Definition scenario_two : DataFrame :=
  [ mkBar 0%Z 100 101 99 100 1000;
    mkBar 1%Z 100 105 97 101 1000;
    mkBar 2%Z 101 112 98 111 1000 ].

(** Scenario 3 of the specification: five quiet days, the last closing at
    103. *)
Definition scenario_three : DataFrame :=
  [ mkBar 0%Z 100 101 99 100 1000;
    mkBar 1%Z 100 105 97 101 1000;
    mkBar 2%Z 101 104 98 102 1000;
    mkBar 3%Z 102 105 99 101 1000;
    mkBar 4%Z 101 106 97 102 1000;
    mkBar 5%Z 102 104 99 103 1000;
    mkBar 6%Z 103 120 80 110 1000 ].

(** No trigger fires on any day of [days] that has a row. *)
Definition quiet (df : DataFrame) (take_profit stop_loss : Q) (days : list date)
  : Prop :=
  forall d row, In d days -> loc df d = Return row ->
                bar_high row < take_profit /\ stop_loss < bar_low row.

(** ** Forward windows *)

(** The forward window of an earnings date on the real-calendar path: the
    rows [analyze_stock_earnings] looks at after the earnings day (none when
    the day cannot be located). *)
Definition real_window (hist : DataFrame) (earnings_date : date) : list Bar :=
  match StockAnalyzer.get_loc_ffill (index hist) earnings_date with
  | Return t_idx => StockAnalyzer.window_after hist t_idx
  | Raise _ => []
  end.

(** The forward window of an estimated date on the estimated-earnings
    path: the days [analyze_stock_history] looks at after the trading day it
    resolved (none when no trading day is found). *)
Definition estimated_window (df : DataFrame) (earnings_est_date : date)
  : list date :=
  match FullBacktester.nearest_trading_day df earnings_est_date with
  | Some d => FullBacktester.future_dates df d
  | None => []
  end.

(** Three trading days: an earnings day followed by two more. *)
Definition short_hist : DataFrame := map flat_bar (trading_days 1%Z 3).

(** ** Position sizing and orders *)

(** The capital [calculate_position_size] places: 98% of the buying power,
    capped by the position limit. *)
Definition available_capital (self : RiskManager.t)
    (account_balance buying_power : Q) : Q :=
  py_min (buying_power * 0.98)
    (account_balance
     * (RiskManager.max_position_size_percent (RiskManager.config self) / 100)).

(** A manager with the sample limits whose day started at [start] and whose
    high-water mark is [hwm]. *)
Definition sample_manager (start hwm : Q) : RiskManager.t :=
  RiskManager.mk sample_risk_config (Some start) (Some hwm).

(** An analysis with an average gain of 10% and an average drawdown of
    -5%. *)
Definition sample_analysis : Scoring.Analysis :=
  Scoring.mkAnalysis "ACME" 0.2 0.07 0.5 0.10 (-0.05) 0.7 0.5 0 0.5 None.

(** The risk numbers are the ones [RiskConfig.validate] accepts. *)
Definition valid_risk_config (c : RiskManager.RiskConfig) : Prop :=
  0 < RiskManager.max_position_size_percent c <= 100 /\
  0 < RiskManager.max_daily_loss_percent c <= 100 /\
  0 < RiskManager.max_drawdown_percent c <= 100 /\
  0 < RiskManager.min_stock_price c /\
  RiskManager.min_stock_price c < RiskManager.max_stock_price c /\
  0 < RiskManager.min_daily_volume c.

(** ** Simulated trades and ledgers *)

(** How a scan of the hold window ends on [found]: a first trigger day, all
    days before it quiet, with the take-profit tested first; or no trigger
    at all. *)
Definition scan_outcome (df : DataFrame) (take_profit stop_loss : Q)
    (days : list date) (found : option (date * Q * string)) : Prop :=
  match found with
  | Some (d, price, why) =>
      exists before after row,
        days = before ++ d :: after /\
        quiet df take_profit stop_loss before /\
        loc df d = Return row /\
        ((take_profit <= bar_high row /\
          price = take_profit /\ why = "Take profit hit"%string) \/
         (bar_high row < take_profit /\ bar_low row <= stop_loss /\
          price = stop_loss /\ why = "Stop loss hit"%string))
  | None => quiet df take_profit stop_loss days
  end.

(** The client that answers every request with the rows [df]. *)
Definition client_of (df : DataFrame) : StockHistoricalDataClient :=
  fun _ => Return (fun _ => Some df).

(** Three days: the entry day closes at 100, the next day is quiet, the day
    after only reaches the stop (92). *)
Definition quiet_then_stop : DataFrame :=
  [ mkBar 0%Z 100 101 99 100 1000;
    mkBar 1%Z 100 105 97 101 1000;
    mkBar 2%Z 101 104 90 95 1000 ].

(** A ledger of executed trades that starts from the capital [start]: every
    trade stakes 85% of the capital before it and hands its capital on to
    the next. *)
Fixpoint ledger_chain (start : Q) (es : list Backtester.Executed) : Prop :=
  match es with
  | [] => True
  | e :: rest =>
      Backtester.capital_before e = start /\
      Backtester.position_size e = start * 0.85 /\
      Backtester.shares e
      = Backtester.position_size e / Backtester.entry_price (Backtester.result e) /\
      Backtester.trade_pnl e
      = Backtester.shares e * Backtester.pnl (Backtester.result e) /\
      Backtester.capital_after e = start + Backtester.trade_pnl e /\
      ledger_chain (Backtester.capital_after e) rest
  end.

(** The capital a ledger ends with. *)
Definition closing_capital (start : Q) (es : list Backtester.Executed) : Q :=
  last (map Backtester.capital_after es) start.

(** Two stocks to backtest on the rows of scenario 2. *)
Definition sample_stocks : list Backtester.TestStock :=
  [ Backtester.mkTestStock "ACME" 0%Z (Some 0.10) (Some (-0.05));
    Backtester.mkTestStock "EMCA" 1%Z None None ].

(** The counters of a report agree with its list of trades. *)
Definition counters_consistent (s : Backtester.Summary) : Prop :=
  Backtester.num_trades s = List.length (Backtester.trades s) /\
  (0 < Backtester.num_trades s)%nat /\
  (Backtester.num_wins s + Backtester.num_losses s = Backtester.num_trades s)%nat /\
  Backtester.num_wins s = count_if is_win (Backtester.trades s) /\
  Backtester.win_rate s
  == inject_Z (Z.of_nat (Backtester.num_wins s))
     / inject_Z (Z.of_nat (Backtester.num_trades s)) * 100 /\
  0 <= Backtester.win_rate s <= 100.

(** ** Fundamental metrics *)

(** A report counts as a beat when both numbers are there, the estimate is
    not 0 and the actual value is above it. *)
Definition is_beat (e : FundamentalMetrics.Earning) : bool :=
  match FundamentalMetrics.actual e, FundamentalMetrics.estimate e with
  | Some actual, Some estimate => Qneqb estimate 0 && Qgtb actual estimate
  | _, _ => false
  end.

(** The counts of a recommendation are not negative. *)
Definition counts_nonneg (r : FundamentalMetrics.Recommendation) : Prop :=
  0 <= FundamentalMetrics.count (FundamentalMetrics.strongBuy r) /\
  0 <= FundamentalMetrics.count (FundamentalMetrics.buy r) /\
  0 <= FundamentalMetrics.count (FundamentalMetrics.hold r) /\
  0 <= FundamentalMetrics.count (FundamentalMetrics.sell r) /\
  0 <= FundamentalMetrics.count (FundamentalMetrics.strongSell r).

(** A provider with four reports, of which two beat, one has no estimate
    and one misses; four quarters of revenue; and one recommendation. *)
Definition sample_provider : FundamentalMetrics.Client :=
  FundamentalMetrics.mkClient
    (fun _ => Return
       [ FundamentalMetrics.mkEarning (Some 1.2) (Some 1.0);
         FundamentalMetrics.mkEarning (Some 0.9) (Some 1.0);
         FundamentalMetrics.mkEarning (Some 1.1) None;
         FundamentalMetrics.mkEarning (Some 2.0) (Some 1.5) ])
    (fun _ => Return (Some
       [ FundamentalMetrics.mkRevenuePoint (Some "2023-03-31"%string) (Some 10);
         FundamentalMetrics.mkRevenuePoint (Some "2023-12-31"%string) (Some 13);
         FundamentalMetrics.mkRevenuePoint (Some "2023-06-30"%string) (Some 11);
         FundamentalMetrics.mkRevenuePoint (Some "2023-09-30"%string) (Some 12) ]))
    (fun _ => Return
       [ FundamentalMetrics.mkRecommendation (Some 10) (Some 5) (Some 4) (Some 1) None ]).

(** A provider whose reports carry no estimate. *)
Definition no_estimates_provider : FundamentalMetrics.Client :=
  FundamentalMetrics.mkClient
    (fun _ => Return
       [ FundamentalMetrics.mkEarning (Some 1.2) None;
         FundamentalMetrics.mkEarning (Some 0.9) None ])
    (fun _ => Raise ProviderError)
    (fun _ => Raise ProviderError).

(** ** Selection *)

(** [best] is the first element of [xs] with the greatest key: everything
    before it has a smaller key, nothing after it a greater one. *)
Definition first_maximum {A : Type} (key : A -> Q) (xs : list A) (best : A)
  : Prop :=
  exists before after,
    xs = before ++ best :: after /\
    Forall (fun x => key x < key best) before /\
    Forall (fun x => key x <= key best) after.

(** The tickers [find_best_stock] analyzes: the tradable ones, cut to the
    configured maximum. *)
Definition analyzed_tickers (config : Config.AnalysisConfig)
    (TRADABLE_STOCKS tickers : list string) : list string :=
  let tradable := StockSelection.filter_tradable_assets TRADABLE_STOCKS tickers in
  if (Config.max_stocks_to_analyze config <? Z.of_nat (List.length tradable))%Z
  then slice_to tradable (Config.max_stocks_to_analyze config)
  else tradable.

(** The analyses that pass the quality filter of [find_best_stock]. *)
Definition quality_results (analyze : string -> option Scoring.Analysis)
    (tickers : list string) : list Scoring.Analysis :=
  filter (fun result => Qgeb (Scoring.a_eps_beat_rate result) 0.3)
    (StockSelection.analyze_each analyze tickers).

(** Three analyses: two with the same score, one with poor fundamentals. *)
Definition analysis_scored (ticker : string) (score beat_rate : Q)
  : Scoring.Analysis :=
  Scoring.mkAnalysis ticker score 0.05 0.5 0.04 (-0.03) 0.75 beat_rate 0 0.5
    (Some 0.5).

Definition sample_analyze (ticker : string) : option Scoring.Analysis :=
  if String.eqb ticker "AAA" then Some (analysis_scored "AAA" 0.2 0.5)
  else if String.eqb ticker "BBB" then Some (analysis_scored "BBB" 0.9 0.1)
  else if String.eqb ticker "CCC" then Some (analysis_scored "CCC" 0.2 0.6)
  else None.

Definition sample_analysis_config : Config.AnalysisConfig :=
  Config.mkAnalysisConfig 4 100 0 1.

(** ** The full backtest *)

(** The calendar days [first], [first + 1], ... ([n] of them). *)
Definition calendar_days (first : date) (n : nat) : list date :=
  map (fun k => (first + Z.of_nat k)%Z) (seq 0 n).

(** A day on which [simulate_day] makes no trade and leaves the backtester
    as it was. *)
Definition simulate_day_unchanged (env : FullBacktester.Env) (current_date : date)
    (day_num total_days : Z) (self : FullBacktester.t) : Prop :=
  FullBacktester.simulate_day env current_date day_num total_days self
  = (Return None, self).

(** An environment for the full backtest: "ACME" reports on day 1003 (a
    Tuesday), and the provider answers every request with two years of flat
    bars followed by three rows of a rally. *)
Definition rally_frame : DataFrame :=
  map flat_bar (trading_days 260%Z 743)
  ++ [ mkBar 1003%Z 100 101 99 100 1000;
       mkBar 1004%Z 100 102 99 101 1000;
       mkBar 1005%Z 101 104 100 103 1000 ].

Definition sample_env : FullBacktester.Env :=
  FullBacktester.mkEnv
    (fun d => if (d =? 1003)%Z then ["ACME"%string] else [])
    (fun _ => Return (fun _ => Some rally_frame))
    (Some (fun _ => Return (fun _ => Some rally_frame)))
    100.

(** * Properties *)

(** ** Comparisons and built-ins *)

Lemma Qltb_lt (a b : Q) : Qltb a b = true <-> a < b.
Proof.
  unfold Qltb. rewrite negb_true_iff.
  destruct (Qle_bool b a) eqn:E.
  - apply Qle_bool_iff in E. split; [discriminate | intro H; exfalso; lra].
  - split; [intros _ | reflexivity].
    destruct (Qlt_le_dec a b) as [H | H]; [exact H |].
    apply Qle_bool_iff in H. congruence.
Qed.

Lemma Qltb_ge (a b : Q) : Qltb a b = false <-> b <= a.
Proof.
  unfold Qltb. rewrite negb_false_iff. apply Qle_bool_iff.
Qed.

Lemma Qle_bool_gt (a b : Q) : Qle_bool a b = false <-> b < a.
Proof.
  rewrite <- Qltb_lt. unfold Qltb. rewrite negb_true_iff. reflexivity.
Qed.

Lemma some_eq {A : Type} (x y : A) : Some x = Some y -> x = y.
Proof. intro H. now inversion H. Qed.

Lemma py_max_cases (a b : Q) :
  (a < b /\ py_max a b = b) \/ (b <= a /\ py_max a b = a).
Proof.
  unfold py_max, Qgtb. destruct (Qltb a b) eqn:E.
  - left. apply Qltb_lt in E. auto.
  - right. apply Qltb_ge in E. auto.
Qed.

Lemma py_min_cases (a b : Q) :
  (b < a /\ py_min a b = b) \/ (a <= b /\ py_min a b = a).
Proof.
  unfold py_min. destruct (Qltb b a) eqn:E.
  - left. apply Qltb_lt in E. auto.
  - right. apply Qltb_ge in E. auto.
Qed.

Lemma py_max_ge_l (a b : Q) : a <= py_max a b.
Proof. destruct (py_max_cases a b) as [[H ->] | [H ->]]; lra. Qed.

Lemma py_max_ge_r (a b : Q) : b <= py_max a b.
Proof. destruct (py_max_cases a b) as [[H ->] | [H ->]]; lra. Qed.

Lemma len_cons_pos {A : Type} (x : A) (xs : list A) : 0 < len (x :: xs).
Proof.
  unfold len. replace 0 with (inject_Z 0) by reflexivity.
  rewrite <- Zlt_Qlt. simpl List.length. lia.
Qed.

Lemma len_nonneg {A : Type} (xs : list A) : 0 <= len xs.
Proof.
  unfold len. replace 0 with (inject_Z 0) by reflexivity.
  rewrite <- Zle_Qle. lia.
Qed.

Lemma py_div_nonzero (a b : Q) : ~ b == 0 -> py_div a b = Return (a / b).
Proof.
  intro H. unfold py_div. destruct (Qeq_bool b 0) eqn:E; [| reflexivity].
  apply Qeq_bool_iff in E. contradiction.
Qed.

Lemma py_div_len {A : Type} (a : Q) (x : A) (xs : list A) :
  py_div a (len (x :: xs)) = Return (a / len (x :: xs)).
Proof.
  apply py_div_nonzero. pose proof (len_cons_pos x xs). lra.
Qed.

(** The nearest integer is within one half. *)
Lemma round_half_even_near (x : Q) :
  Qabs (inject_Z (round_half_even x) - x) <= 1 # 2.
Proof.
  unfold round_half_even.
  pose proof (Qfloor_le x) as Hlo.
  pose proof (Qlt_floor x) as Hhi.
  rewrite inject_Z_plus in Hhi. change (inject_Z 1) with 1 in Hhi.
  set (f := Qfloor x) in *.
  apply Qabs_Qle_condition.
  destruct (Qltb (x - inject_Z f) (1 # 2)) eqn:E1.
  - apply Qltb_lt in E1. lra.
  - apply Qltb_ge in E1.
    destruct (Qltb (1 # 2) (x - inject_Z f)) eqn:E2.
    + rewrite inject_Z_plus. change (inject_Z 1) with 1. lra.
    + apply Qltb_ge in E2.
      destruct (Z.even f).
      * lra.
      * rewrite inject_Z_plus. change (inject_Z 1) with 1. lra.
Qed.

(** ** The stop-loss price *)

Lemma py_round2_rounds (x : Q) : rounded_to_2_decimals x (py_round2 x).
Proof.
  unfold rounded_to_2_decimals, py_round2. split.
  - eexists. reflexivity.
  - pose proof (round_half_even_near (x * 100)) as H.
    apply Qabs_Qle_condition in H. apply Qabs_Qle_condition.
    set (n := inject_Z (round_half_even (x * 100))) in *.
    split.
    + assert (E : n / 100 - x == (n - x * 100) / 100) by field.
      rewrite E. apply Qle_shift_div_l; lra.
    + assert (E : n / 100 - x == (n - x * 100) / 100) by field.
      rewrite E. apply Qle_shift_div_r; lra.
Qed.

Lemma stop_loss_percent_clamps (avg_drawdown : Q) :
  RiskManager.stop_loss_percent avg_drawdown == clamp_stop_pct (avg_drawdown * 1.1).
Proof.
  unfold RiskManager.stop_loss_percent, clamp_stop_pct, Qgtb.
  set (p := avg_drawdown * 1.1).
  destruct (Qltb (-0.08) p) eqn:E1.
  - apply Qltb_lt in E1.
    destruct (Qlt_le_dec (-0.08) p) as [_ | H]; [| lra].
    destruct (Qltb (-0.08) (-0.20)) eqn:E2; [| reflexivity].
    apply Qltb_lt in E2. lra.
  - apply Qltb_ge in E1.
    destruct (Qlt_le_dec (-0.08) p) as [H | _]; [lra |].
    destruct (Qltb p (-0.20)) eqn:E2.
    + apply Qltb_lt in E2.
      destruct (Qlt_le_dec p (-0.20)) as [_ | H]; [reflexivity | lra].
    + apply Qltb_ge in E2.
      destruct (Qlt_le_dec p (-0.20)) as [H | _]; [lra | reflexivity].
Qed.

Lemma stop_loss_percent_band (avg_drawdown : Q) :
  -0.20 <= RiskManager.stop_loss_percent avg_drawdown <= -0.08.
Proof.
  unfold RiskManager.stop_loss_percent, Qgtb.
  set (p := avg_drawdown * 1.1).
  destruct (Qltb (-0.08) p) eqn:E1.
  - destruct (Qltb (-0.08) (-0.20)) eqn:E2; lra.
  - apply Qltb_ge in E1.
    destruct (Qltb p (-0.20)) eqn:E2; [lra |].
    apply Qltb_ge in E2. lra.
Qed.

(** Scenario 4 of the specification: a shallow drawdown is floored. *)
Example stop_loss_scenario_four :
  RiskManager.calculate_stop_loss 100 (-0.03) == 92.00.
Proof. vm_compute. reflexivity. Qed.

(** [C3] The stop-loss price is [entry_price * (1 + pct)] rounded to two
    decimals, where [pct] is [avg_drawdown * 1.1] clamped as the
    specification says (above -0.08 becomes -0.08, below -0.20 becomes
    -0.20); the effective percentage always lies in [-0.20, -0.08]; and an
    entry of 100 with an average drawdown of -0.25 gives 80.00. *)
Theorem C3_stop_loss_price (entry_price avg_drawdown : Q) :
  let pct := clamp_stop_pct (avg_drawdown * 1.1) in
  RiskManager.stop_loss_percent avg_drawdown == pct /\
  RiskManager.calculate_stop_loss entry_price avg_drawdown
    = py_round2 (entry_price * (1 + RiskManager.stop_loss_percent avg_drawdown)) /\
  rounded_to_2_decimals (entry_price * (1 + pct))
    (RiskManager.calculate_stop_loss entry_price avg_drawdown) /\
  -0.20 <= RiskManager.stop_loss_percent avg_drawdown <= -0.08 /\
  RiskManager.calculate_stop_loss 100 (-0.25) == 80.00.
Proof.
  intro pct. pose proof (stop_loss_percent_clamps avg_drawdown) as Hc.
  fold pct in Hc.
  split; [exact Hc |]. split; [reflexivity |]. split.
  - unfold RiskManager.calculate_stop_loss.
    pose proof (py_round2_rounds
                  (entry_price * (1 + RiskManager.stop_loss_percent avg_drawdown))) as [Hn Hd].
    split; [exact Hn |].
    rewrite <- Hc. exact Hd.
  - split; [apply stop_loss_percent_band |].
    vm_compute. reflexivity.
Qed.

(** ** The risk gate *)

Section RiskGate.

Import RiskManager.

Lemma hwm_le_refl (a : option Q) : hwm_le a a.
Proof. destruct a; simpl; [lra | exact I]. Qed.

Lemma hwm_le_trans (a b c : option Q) : hwm_le a b -> hwm_le b c -> hwm_le a c.
Proof.
  destruct a as [x |], b as [y |], c as [z |]; simpl; try tauto. lra.
Qed.

(** The checks only read the manager. *)
Lemma check_daily_loss_limit_reads (b : Q) (self : t) :
  snd (check_daily_loss_limit b self) = self.
Proof.
  unfold check_daily_loss_limit, bind, get, lift, ret.
  destruct (daily_start_balance self) as [s |]; [| reflexivity].
  destruct (py_div (s - b) s) as [q | e]; [| reflexivity].
  destruct (Qgeb _ _); reflexivity.
Qed.

Lemma check_max_drawdown_reads (b : Q) (self : t) :
  snd (check_max_drawdown b self) = self.
Proof.
  unfold check_max_drawdown, bind, get, lift, ret.
  destruct (max_drawdown_balance self) as [s |]; [| reflexivity].
  destruct (py_div (s - b) s) as [q | e]; [| reflexivity].
  destruct (Qgeb _ _); reflexivity.
Qed.

Lemma can_trade_reads (b : Q) (self : t) : snd (can_trade b self) = self.
Proof.
  unfold can_trade, bind.
  pose proof (check_daily_loss_limit_reads b self) as H1.
  destruct (check_daily_loss_limit b self) as [[[ok1 l1] | e1] s1];
    simpl in H1; subst s1; [| reflexivity].
  destruct ok1; simpl; [| reflexivity].
  pose proof (check_max_drawdown_reads b self) as H2.
  destruct (check_max_drawdown b self) as [[[ok2 l2] | e2] s2];
    simpl in H2; subst s2; [| reflexivity].
  destruct ok2; reflexivity.
Qed.

(** What a call leaves in [max_drawdown_balance]. *)
Lemma after_high_water_mark (c : call) (self : t) :
  max_drawdown_balance (after c self) =
  match c with
  | SetDailyStartBalance balance =>
      match max_drawdown_balance self with
      | None => Some balance
      | Some hwm => Some (py_max hwm balance)
      end
  | _ => max_drawdown_balance self
  end.
Proof.
  destruct c as [b | b | b | b]; simpl.
  - unfold set_daily_start_balance, bind, get, put. simpl.
    destruct (max_drawdown_balance self); reflexivity.
  - now rewrite check_daily_loss_limit_reads.
  - now rewrite check_max_drawdown_reads.
  - now rewrite can_trade_reads.
Qed.

Lemma after_monotone (c : call) (self : t) :
  hwm_le (max_drawdown_balance self) (max_drawdown_balance (after c self)).
Proof.
  rewrite after_high_water_mark.
  destruct c; try apply hwm_le_refl.
  destruct (max_drawdown_balance self) as [h |]; simpl; [| exact I].
  apply py_max_ge_l.
Qed.

(** [C9] Across any sequence of daily-balance updates and checks the
    high-water mark never decreases and is never reset: a check leaves it as
    it is, and a new day replaces a set mark by the maximum of the previous
    mark and the new daily start balance. *)
Theorem C9_high_water_mark_monotone (calls : list call) (self : t) :
  hwm_le (max_drawdown_balance self) (max_drawdown_balance (session calls self)) /\
  (forall (c : call) (s : t),
      max_drawdown_balance (after c s) =
      match c with
      | SetDailyStartBalance balance =>
          match max_drawdown_balance s with
          | None => Some balance
          | Some hwm => Some (py_max hwm balance)
          end
      | _ => max_drawdown_balance s
      end) /\
  (forall hwm balance : Q,
      hwm <= py_max hwm balance /\ balance <= py_max hwm balance /\
      (py_max hwm balance = hwm \/ py_max hwm balance = balance)).
Proof.
  split; [| split].
  - revert self. induction calls as [| c calls IH]; intro self.
    + apply hwm_le_refl.
    + simpl. eapply hwm_le_trans; [apply after_monotone | apply IH].
  - exact after_high_water_mark.
  - intros h b. split; [apply py_max_ge_l |]. split; [apply py_max_ge_r |].
    destruct (py_max_cases h b) as [[_ ->] | [_ ->]]; auto.
Qed.

(** [C10] Before [set_daily_start_balance] has been called (both balances
    unset) both checks report a loss of 0 and allow trading, and [can_trade]
    answers [(True, "All risk checks passed")], whatever the balance; the
    manager is left as it was. *)
Theorem C10_can_trade_before_first_day (self : t) (current_balance : Q) :
  daily_start_balance self = None ->
  max_drawdown_balance self = None ->
  check_daily_loss_limit current_balance self = (Return (true, 0), self) /\
  check_max_drawdown current_balance self = (Return (true, 0), self) /\
  can_trade current_balance self
    = (Return (true, Plain "All risk checks passed"), self).
Proof.
  intros Hd Hm.
  assert (H1 : check_daily_loss_limit current_balance self = (Return (true, 0), self)).
  { unfold check_daily_loss_limit, bind, get, ret. now rewrite Hd. }
  assert (H2 : check_max_drawdown current_balance self = (Return (true, 0), self)).
  { unfold check_max_drawdown, bind, get, ret. now rewrite Hm. }
  split; [exact H1 |]. split; [exact H2 |].
  unfold can_trade, bind. rewrite H1. simpl. rewrite H2. reflexivity.
Qed.

Lemma C10_witness :
  can_trade (-1) (init sample_risk_config)
  = (Return (true, Plain "All risk checks passed"), init sample_risk_config).
Proof.
  apply (C10_can_trade_before_first_day (init sample_risk_config) (-1));
    reflexivity.
Defined.

End RiskGate.

(** ** Sample statistics and scores *)

Section SampleStatistics.

Import Scoring.

Lemma fold_left_Qplus (xs : list Q) (a : Q) :
  fold_left Qplus xs a == a + total xs.
Proof.
  revert a. induction xs as [| x xs IH]; intro a; simpl.
  - lra.
  - rewrite IH. lra.
Qed.

Lemma py_sum_total (xs : list Q) : py_sum xs == total xs.
Proof. unfold py_sum. rewrite fold_left_Qplus. lra. Qed.

Lemma count_if_filter {A : Type} (p : A -> bool) (xs : list A) :
  count_if p xs = List.length (filter p xs).
Proof.
  induction xs as [| x xs IH]; simpl; [reflexivity |].
  destruct (p x); simpl; congruence.
Qed.

Lemma filter_map_comm {A B : Type} (f : A -> B) (p : B -> bool) (xs : list A) :
  filter p (map f xs) = map f (filter (fun x => p (f x)) xs).
Proof.
  induction xs as [| x xs IH]; simpl; [reflexivity |].
  destruct (p (f x)); simpl; congruence.
Qed.

Lemma filter_length_le {A : Type} (p : A -> bool) (xs : list A) :
  (List.length (filter p xs) <= List.length xs)%nat.
Proof.
  induction xs as [| x xs IH]; simpl; [lia |].
  destruct (p x); simpl; lia.
Qed.

(** The sum of numbers that are all above a bound. *)
Lemma total_filter_above (b : Q) (xs : list Q) :
  b * len (filter (fun g => Qgtb g b) xs) <= total (filter (fun g => Qgtb g b) xs).
Proof.
  induction xs as [| x xs IH]; simpl.
  - change (len (@nil Q)) with 0. lra.
  - destruct (Qgtb x b) eqn:E; [| exact IH].
    apply Qltb_lt in E. simpl.
    set (ys := filter _ xs) in *.
    assert (Hl : len (x :: ys) == len ys + 1).
    { unfold len. simpl List.length.
      rewrite Nat2Z.inj_succ. unfold Z.succ. rewrite inject_Z_plus.
      reflexivity. }
    rewrite Hl. lra.
Qed.

(** What [price_statistics] returns: it never raises. *)
Lemma price_statistics_returns (all_gains all_drawdowns : list Q) :
  let positive_gains := filter (fun g => Qgtb g 0.01) all_gains in
  let negative_drawdowns := filter (fun d => Qltb d 0) all_drawdowns in
  let f := match all_gains with
           | [] => 0
           | _ :: _ => len positive_gains / len all_gains
           end in
  let g := match positive_gains with
           | [] => 0
           | _ :: _ => py_sum positive_gains / len positive_gains
           end in
  let d := match negative_drawdowns with
           | [] => -0.05
           | _ :: _ => py_sum negative_drawdowns / len negative_drawdowns
           end in
  price_statistics all_gains all_drawdowns
  = Return (mkPriceStatistics f g d (f * g)).
Proof.
  intros pg nd f g d. unfold price_statistics.
  fold pg. fold nd.
  assert (Hf : match all_gains with
               | [] => Return 0
               | _ :: _ => py_div (len pg) (len all_gains)
               end = Return f).
  { subst f. destruct all_gains; [reflexivity | apply py_div_len]. }
  assert (Hg : match pg with
               | [] => Return 0
               | _ :: _ => py_div (py_sum pg) (len pg)
               end = Return g).
  { subst g. destruct pg; [reflexivity | apply py_div_len]. }
  assert (Hd : match nd with
               | [] => Return (-0.05)
               | _ :: _ => py_div (py_sum nd) (len nd)
               end = Return d).
  { subst d. destruct nd; [reflexivity | apply py_div_len]. }
  rewrite Hf. simpl. rewrite Hg. simpl. rewrite Hd. reflexivity.
Qed.

Lemma frequency_bounds (all_gains all_drawdowns : list Q) (st : PriceStatistics) :
  price_statistics all_gains all_drawdowns = Return st ->
  0 <= frequency st <= 1.
Proof.
  rewrite price_statistics_returns. intro H. injection H as <-. simpl.
  destruct all_gains as [| x xs]; [lra |].
  set (pg := filter _ (x :: xs)).
  pose proof (len_cons_pos x xs) as Hpos.
  pose proof (len_nonneg pg) as Hnn.
  assert (Hle : len pg <= len (x :: xs)).
  { unfold len. rewrite <- Zle_Qle. apply inj_le. apply filter_length_le. }
  split.
  - apply Qle_shift_div_l; lra.
  - apply Qle_shift_div_r; lra.
Qed.

Lemma avg_gain_nonneg (all_gains all_drawdowns : list Q) (st : PriceStatistics) :
  price_statistics all_gains all_drawdowns = Return st ->
  0 <= avg_gain st.
Proof.
  rewrite price_statistics_returns. intro H. injection H as <-. simpl.
  pose proof (total_filter_above 0.01 all_gains) as Hsum.
  set (pg := filter _ all_gains) in *.
  destruct pg as [| y ys] eqn:E; [lra |].
  pose proof (len_cons_pos y ys) as Hpos.
  rewrite py_sum_total.
  apply Qle_shift_div_l; lra.
Qed.

End SampleStatistics.

Section SampleClaims.

Import Scoring.

Lemma gains_filter (samples : list ReactionSample) :
  filter (fun g => Qgtb g 0.01) (map gain_pct samples)
  = map gain_pct (filter is_gain samples).
Proof. exact (filter_map_comm gain_pct (fun g => Qgtb g 0.01) samples). Qed.

Lemma drawdowns_filter (samples : list ReactionSample) :
  filter (fun d => Qltb d 0) (map drawdown_pct samples)
  = map drawdown_pct (filter is_drawdown samples).
Proof. exact (filter_map_comm drawdown_pct (fun d => Qltb d 0) samples). Qed.

Lemma mean_of_sum (xs : list Q) : py_sum xs / len xs == mean xs.
Proof. unfold mean, len. rewrite py_sum_total. reflexivity. Qed.

(** The statistics of a non-empty list of samples are the ones the
    specification defines. *)
Lemma price_statistics_spec (samples : list ReactionSample) :
  samples <> [] ->
  exists st,
    price_statistics (map gain_pct samples) (map drawdown_pct samples)
    = Return st /\
    frequency st == spec_frequency samples /\
    avg_gain st == spec_avg_gain samples /\
    avg_drawdown st == spec_avg_drawdown samples /\
    price_score st = frequency st * avg_gain st.
Proof.
  intro Hne.
  eexists. split; [apply price_statistics_returns |]. cbn [frequency avg_gain avg_drawdown price_score].
  split; [| split; [| split; [| reflexivity]]].
  - destruct samples as [| s ss]; [contradiction |].
    unfold spec_frequency. rewrite count_if_filter.
    set (all := s :: ss).
    change (map gain_pct all) with (gain_pct s :: map gain_pct ss).
    change (gain_pct s :: map gain_pct ss) with (map gain_pct all).
    rewrite gains_filter. unfold len. rewrite !length_map. reflexivity.
  - unfold spec_avg_gain. rewrite count_if_filter, gains_filter.
    destruct (filter is_gain samples) as [| y ys]; [reflexivity |].
    change (map gain_pct (y :: ys)) with (gain_pct y :: map gain_pct ys).
    simpl List.length.
    change (gain_pct y :: map gain_pct ys) with (map gain_pct (y :: ys)).
    apply mean_of_sum.
  - unfold spec_avg_drawdown. rewrite count_if_filter, drawdowns_filter.
    destruct (filter is_drawdown samples) as [| y ys]; [reflexivity |].
    change (map drawdown_pct (y :: ys)) with (drawdown_pct y :: map drawdown_pct ys).
    simpl List.length.
    change (drawdown_pct y :: map drawdown_pct ys) with (map drawdown_pct (y :: ys)).
    apply mean_of_sum.
Qed.

End SampleClaims.

(** ** The two analyses *)

Section Analyses.

Import Scoring.

(** When [analyze_stock_earnings] returns an analysis, every guard was
    passed and the analysis is the one of the collected samples. *)
Lemma analyze_stock_earnings_inv (finnhub_client : option FinnhubClient)
    (ticker : string) (earnings_dates : option (list date)) (cutoff_date : date)
    (hist : DataFrame) (a : Analysis) :
  StockAnalyzer.analyze_stock_earnings finnhub_client ticker earnings_dates
    cutoff_date hist = Some a ->
  exists dates st,
    earnings_dates = Some dates /\
    (4 <= List.length (StockAnalyzer.relevant_dates dates cutoff_date))%nat /\
    fst (StockAnalyzer.collect hist (StockAnalyzer.relevant_dates dates cutoff_date)) <> [] /\
    price_statistics
      (fst (StockAnalyzer.collect hist (StockAnalyzer.relevant_dates dates cutoff_date)))
      (snd (StockAnalyzer.collect hist (StockAnalyzer.relevant_dates dates cutoff_date)))
    = Return st /\
    a = analysis_of ticker st (get_fundamental_metrics finnhub_client ticker)
          (Some (revenue_growth_trend (get_fundamental_metrics finnhub_client ticker))).
Proof.
  unfold StockAnalyzer.analyze_stock_earnings.
  destruct earnings_dates as [[| d ds] |]; cbn [catch]; try discriminate.
  set (dates := d :: ds).
  destruct (Nat.ltb_spec (List.length (StockAnalyzer.relevant_dates dates cutoff_date)) 4)
    as [Hlt | Hge]; cbn [catch]; [discriminate |].
  destruct hist as [| b bs]; cbn [catch]; [discriminate |].
  set (hist := b :: bs).
  destruct (StockAnalyzer.collect hist (StockAnalyzer.relevant_dates dates cutoff_date))
    as [gains drawdowns] eqn:Ec.
  destruct gains as [| g gs]; cbn [catch]; [discriminate |].
  rewrite price_statistics_returns. cbn [catch obind fst snd].
  intro H. apply some_eq in H. subst a.
  exists dates. eexists. split; [reflexivity |]. split; [exact Hge |].
  rewrite Ec. cbn [fst snd].
  split; [discriminate |]. split; [apply price_statistics_returns |].
  reflexivity.
Qed.

Lemma estimate_loop_step (current_est cutoff : date) :
  FullBacktester.estimate_loop current_est cutoff =
  if Z_le_dec cutoff current_est
  then current_est :: FullBacktester.estimate_loop (current_est - 90)%Z cutoff
  else [].
Proof.
  rewrite FullBacktester.estimate_loop_equation_1.
  destruct (Z_le_dec cutoff current_est); reflexivity.
Qed.

(** The estimate loop always yields the eight quarters before the upcoming
    date. *)
Lemma past_earnings_dates_eq (upcoming : date) :
  FullBacktester.past_earnings_dates upcoming
  = [upcoming - 90; upcoming - 180; upcoming - 270; upcoming - 360;
     upcoming - 450; upcoming - 540; upcoming - 630; upcoming - 720]%Z.
Proof.
  unfold FullBacktester.past_earnings_dates.
  do 8 (rewrite estimate_loop_step; destruct (Z_le_dec _ _); [| lia];
        match goal with
        | |- (?a :: _ = ?b :: _) => replace a with b by lia; f_equal
        end).
  rewrite estimate_loop_step. destruct (Z_le_dec _ _); [lia | reflexivity].
Qed.

(** When [analyze_stock_history] returns an analysis, every guard was
    passed and the analysis is the one of the collected samples. *)
Lemma analyze_stock_history_inv (alpaca_data : StockHistoricalDataClient)
    (finnhub_client : option FinnhubClient) (ticker : string)
    (upcoming : date) (a : Analysis) :
  FullBacktester.analyze_stock_history alpaca_data finnhub_client ticker upcoming
  = Some a ->
  exists bars df st,
    alpaca_data (mkStockBarsRequest [ticker] (upcoming - 730 - 10) (upcoming - 1))%Z
    = Return bars /\
    bars ticker = Some df /\
    (3 <= List.length
            (fst (FullBacktester.collect df (FullBacktester.past_earnings_dates upcoming))))%nat /\
    price_statistics
      (fst (FullBacktester.collect df (FullBacktester.past_earnings_dates upcoming)))
      (snd (FullBacktester.collect df (FullBacktester.past_earnings_dates upcoming)))
    = Return st /\
    a = analysis_of ticker st (get_fundamental_metrics finnhub_client ticker) None.
Proof.
  unfold FullBacktester.analyze_stock_history.
  destruct (Nat.ltb_spec
              (List.length (FullBacktester.past_earnings_dates upcoming)) 3)
    as [Hlt | Hge]; cbn [catch]; [discriminate |].
  destruct (alpaca_data _) as [bars | e] eqn:Eb; cbn [catch obind];
    [| discriminate].
  destruct (bars ticker) as [[| b bs] |] eqn:Et; cbn [catch]; try discriminate.
  set (df := b :: bs) in *.
  destruct (FullBacktester.collect df (FullBacktester.past_earnings_dates upcoming))
    as [gains drawdowns] eqn:Ec.
  destruct (Nat.ltb_spec (List.length gains) 3) as [Hlt | Hge3]; cbn [catch];
    [discriminate |].
  rewrite price_statistics_returns. cbn [catch obind fst snd].
  destruct (Qltb _ 0.3); cbn [catch]; [discriminate |].
  intro H. apply some_eq in H. subst a.
  exists bars, df. eexists. split; [reflexivity |]. split; [exact Et |].
  rewrite Ec. cbn [fst snd].
  split; [exact Hge3 |]. split; [apply price_statistics_returns |].
  reflexivity.
Qed.

(** The two lists an analysis collects are the gains and the drawdowns of
    one list of samples. *)
Lemma real_collect_samples (hist : DataFrame) (dates : list date) :
  exists samples,
    StockAnalyzer.collect hist dates
    = (map gain_pct samples, map drawdown_pct samples).
Proof.
  induction dates as [| d dates [samples IH]]; simpl.
  - exists []. reflexivity.
  - rewrite IH. destruct (StockAnalyzer.sample hist d) as [[g dd] |].
    + exists (mkReactionSample g dd :: samples). reflexivity.
    + exists samples. reflexivity.
Qed.

Lemma estimated_collect_samples (df : DataFrame) (dates : list date) :
  exists samples,
    FullBacktester.collect df dates
    = (map gain_pct samples, map drawdown_pct samples).
Proof.
  induction dates as [| d dates [samples IH]]; simpl.
  - exists []. reflexivity.
  - rewrite IH. destruct (FullBacktester.sample df d) as [[g dd] |].
    + exists (mkReactionSample g dd :: samples). reflexivity.
    + exists samples. reflexivity.
Qed.

Lemma analysis_reports (ticker : string) (st : PriceStatistics)
    (f : Fundamentals) (growth : option Q) (samples : list ReactionSample) :
  map gain_pct samples <> [] ->
  price_statistics (map gain_pct samples) (map drawdown_pct samples) = Return st ->
  reports (analysis_of ticker st f growth) samples.
Proof.
  intros Hne Hst.
  assert (Hs : samples <> []) by (intros ->; apply Hne; reflexivity).
  destruct (price_statistics_spec samples Hs) as (st' & Hst' & Hf & Hg & Hd & Hp).
  rewrite Hst in Hst'. injection Hst' as <-.
  unfold reports. cbn. repeat split; assumption.
Qed.

(** [C2] For a non-empty list of samples the analyzer's statistics are:
    frequency = (number of samples with gain above 0.01) / (number of
    samples); avg_gain = the mean of the gains above 0.01, and 0 when there
    is none; avg_drawdown = the mean of the drawdowns below 0, and -0.05
    when there is none; price_score = frequency * avg_gain.  Both analyses
    report these numbers for the samples they collected.  On the four
    samples of scenario 1 they are 3/4, 0.095/3 and 0.02375. *)
Theorem C2_sample_statistics :
  (forall samples : list ReactionSample,
      samples <> [] ->
      exists st,
        price_statistics (map gain_pct samples) (map drawdown_pct samples)
        = Return st /\
        frequency st == spec_frequency samples /\
        avg_gain st == spec_avg_gain samples /\
        avg_drawdown st == spec_avg_drawdown samples /\
        price_score st = frequency st * avg_gain st) /\
  (forall finnhub_client ticker dates cutoff_date hist a,
      StockAnalyzer.analyze_stock_earnings finnhub_client ticker (Some dates)
        cutoff_date hist = Some a ->
      exists samples,
        StockAnalyzer.collect hist (StockAnalyzer.relevant_dates dates cutoff_date)
        = (map gain_pct samples, map drawdown_pct samples) /\
        reports a samples) /\
  (forall alpaca_data finnhub_client ticker upcoming bars df a,
      alpaca_data (mkStockBarsRequest [ticker] (upcoming - 730 - 10) (upcoming - 1))%Z
      = Return bars ->
      bars ticker = Some df ->
      FullBacktester.analyze_stock_history alpaca_data finnhub_client ticker
        upcoming = Some a ->
      exists samples,
        FullBacktester.collect df (FullBacktester.past_earnings_dates upcoming)
        = (map gain_pct samples, map drawdown_pct samples) /\
        reports a samples) /\
  (exists st,
      price_statistics (map gain_pct scenario_samples)
        (map drawdown_pct scenario_samples) = Return st /\
      frequency st == 0.75 /\ avg_gain st == 0.095 / 3 /\
      price_score st == 0.02375).
Proof.
  split; [exact price_statistics_spec |]. split; [| split].
  - intros fc ticker dates cutoff hist a H.
    apply analyze_stock_earnings_inv in H.
    destruct H as (dates' & st & Hd & _ & Hne & Hst & ->).
    injection Hd as <-.
    destruct (real_collect_samples hist (StockAnalyzer.relevant_dates dates cutoff))
      as [samples Hc].
    rewrite Hc in Hne, Hst. cbn [fst snd] in Hne, Hst.
    exists samples. split; [exact Hc |].
    apply analysis_reports; assumption.
  - intros client fc ticker upcoming bars df a Hb Ht H.
    apply analyze_stock_history_inv in H.
    destruct H as (bars' & df' & st & Hb' & Ht' & Hlen & Hst & ->).
    rewrite Hb in Hb'. injection Hb' as <-.
    rewrite Ht in Ht'. injection Ht' as <-.
    destruct (estimated_collect_samples df (FullBacktester.past_earnings_dates upcoming))
      as [samples Hc].
    rewrite Hc in Hlen, Hst. cbn [fst snd] in Hlen, Hst.
    exists samples. split; [exact Hc |].
    apply analysis_reports; [| exact Hst].
    intro E. rewrite E in Hlen. simpl in Hlen. lia.
  - eexists. split; [apply price_statistics_returns |].
    split; [| split]; vm_compute; reflexivity.
Qed.

Lemma C2_witness :
  (exists st,
      price_statistics (map gain_pct scenario_samples)
        (map drawdown_pct scenario_samples) = Return st /\
      frequency st == spec_frequency scenario_samples /\
      avg_gain st == spec_avg_gain scenario_samples /\
      avg_drawdown st == spec_avg_drawdown scenario_samples /\
      price_score st = frequency st * avg_gain st) /\
  match StockAnalyzer.analyze_stock_earnings None "ACME"
          (Some sample_earnings_dates) 0%Z sample_hist with
  | Some a =>
      exists samples,
        StockAnalyzer.collect sample_hist
          (StockAnalyzer.relevant_dates sample_earnings_dates 0%Z)
        = (map gain_pct samples, map drawdown_pct samples) /\
        reports a samples
  | None => False
  end /\
  match FullBacktester.analyze_stock_history sample_client None "ACME" 1000%Z with
  | Some a =>
      exists samples,
        FullBacktester.collect sample_frame
          (FullBacktester.past_earnings_dates 1000%Z)
        = (map gain_pct samples, map drawdown_pct samples) /\
        reports a samples
  | None => False
  end.
Proof.
  destruct C2_sample_statistics as (H1 & H2 & H3 & _).
  split; [| split].
  - apply (H1 scenario_samples). discriminate.
  - destruct (StockAnalyzer.analyze_stock_earnings None "ACME"
                (Some sample_earnings_dates) 0%Z sample_hist) as [a |] eqn:E.
    + exact (H2 _ _ _ _ _ _ E).
    + vm_compute in E. discriminate.
  - destruct (FullBacktester.analyze_stock_history sample_client None "ACME" 1000%Z)
      as [a |] eqn:E.
    + exact (H3 sample_client None "ACME"%string 1000%Z
               (fun _ => Some sample_frame) sample_frame a eq_refl eq_refl E).
    + unfold FullBacktester.analyze_stock_history in E.
      rewrite past_earnings_dates_eq in E.
      vm_compute in E. discriminate.
Defined.

End Analyses.

(** ** Insufficient history *)

Section AnalysisClaims.

Import Scoring.







End AnalysisClaims.

(** ** Scores *)

Section ScoreClaims.

Import Scoring.

Lemma normalized_eps_surprise_clamp (f : Fundamentals) :
  normalized_eps_surprise f == clamp 0 1 (avg_eps_surprise_pct f / 40 + 0.5).
Proof.
  unfold normalized_eps_surprise, clamp.
  assert (E : avg_eps_surprise_pct f / 40.0 + 0.5
              == avg_eps_surprise_pct f / 40 + 0.5) by (field; lra).
  set (x := avg_eps_surprise_pct f / 40.0 + 0.5) in *.
  set (y := avg_eps_surprise_pct f / 40 + 0.5) in *.
  destruct (py_max_cases x 0.0) as [[H1 ->] | [H1 ->]];
    destruct (Qlt_le_dec y 0) as [H2 | H2]; try lra.
  - destruct (py_min_cases 0.0 1.0) as [[H3 ->] | [H3 ->]]; lra.
  - destruct (py_min_cases x 1.0) as [[H3 ->] | [H3 ->]];
      destruct (Qlt_le_dec 1 y) as [H4 | H4]; lra.
Qed.

Lemma normalized_eps_surprise_bounds (f : Fundamentals) :
  0 <= normalized_eps_surprise f <= 1.
Proof.
  rewrite normalized_eps_surprise_clamp. unfold clamp.
  destruct (Qlt_le_dec _ 0); [lra |].
  destruct (Qlt_le_dec 1 _); lra.
Qed.

(** [C6] When eps_beat_rate, revenue_growth_trend and analyst_score lie in
    [0,1], the fundamental score
    0.5*eps_beat_rate + 0.3*normalized_surprise + 0.15*analyst_score
    + 0.05*revenue_growth_trend, with normalized_surprise =
    clamp(0, 1, avg_eps_surprise_pct/40 + 0.5), lies in [0,1], whatever
    avg_eps_surprise_pct is; and it is the score both analyses report. *)
Theorem C6_fundamental_score_bounded :
  (forall f : Fundamentals,
      0 <= eps_beat_rate f <= 1 ->
      0 <= revenue_growth_trend f <= 1 ->
      0 <= analyst_score f <= 1 ->
      let normalized_surprise := clamp 0 1 (avg_eps_surprise_pct f / 40 + 0.5) in
      fundamental_score f ==
        0.5 * eps_beat_rate f + 0.3 * normalized_surprise
        + 0.15 * analyst_score f + 0.05 * revenue_growth_trend f /\
      0 <= fundamental_score f <= 1) /\
  (forall finnhub_client ticker earnings_dates cutoff_date hist a,
      StockAnalyzer.analyze_stock_earnings finnhub_client ticker earnings_dates
        cutoff_date hist = Some a ->
      a_fundamental_score a
      = fundamental_score (get_fundamental_metrics finnhub_client ticker)) /\
  (forall alpaca_data finnhub_client ticker upcoming a,
      FullBacktester.analyze_stock_history alpaca_data finnhub_client ticker
        upcoming = Some a ->
      a_fundamental_score a
      = fundamental_score (get_fundamental_metrics finnhub_client ticker)).
Proof.
  split; [| split].
  - intros f He Hr Ha normalized_surprise.
    pose proof (normalized_eps_surprise_clamp f) as Hn.
    pose proof (normalized_eps_surprise_bounds f) as Hb.
    fold normalized_surprise in Hn.
    unfold fundamental_score.
    set (n := normalized_eps_surprise f) in *.
    split; [rewrite <- Hn |]; lra.
  - intros fc ticker eds cutoff hist a H.
    apply analyze_stock_earnings_inv in H.
    destruct H as (dates & st & _ & _ & _ & _ & ->). reflexivity.
  - intros client fc ticker upcoming a H.
    apply analyze_stock_history_inv in H.
    destruct H as (bars & df & st & _ & _ & _ & _ & ->). reflexivity.
Qed.

Lemma C6_witness :
  0 <= fundamental_score default_metrics <= 1 /\
  match StockAnalyzer.analyze_stock_earnings None "ACME"
          (Some sample_earnings_dates) 0%Z sample_hist with
  | Some a => a_fundamental_score a
              = fundamental_score (get_fundamental_metrics None "ACME")
  | None => False
  end /\
  match FullBacktester.analyze_stock_history sample_client None "ACME" 1000%Z with
  | Some a => a_fundamental_score a
              = fundamental_score (get_fundamental_metrics None "ACME")
  | None => False
  end.
Proof.
  destruct C6_fundamental_score_bounded as (H1 & H2 & H3).
  split; [| split].
  - apply (H1 default_metrics); vm_compute; split; discriminate.
  - destruct (StockAnalyzer.analyze_stock_earnings None "ACME"
                (Some sample_earnings_dates) 0%Z sample_hist) as [a |] eqn:E.
    + exact (H2 _ _ _ _ _ _ E).
    + vm_compute in E. discriminate.
  - destruct (FullBacktester.analyze_stock_history sample_client None "ACME" 1000%Z)
      as [a |] eqn:E.
    + exact (H3 _ _ _ _ _ E).
    + unfold FullBacktester.analyze_stock_history in E.
      rewrite past_earnings_dates_eq in E.
      vm_compute in E. discriminate.
Defined.

(** [C7] The frequency of any list of samples lies in [0,1] and the price
    score, frequency * avg_gain, is never negative: avg_gain is 0 or above
    0.01, because only gains above 0.01 are averaged.  The same holds of
    what both analyses report. *)
Theorem C7_frequency_and_price_score_bounds :
  (forall all_gains all_drawdowns : list Q,
      exists st,
        price_statistics all_gains all_drawdowns = Return st /\
        0 <= frequency st <= 1 /\
        0 <= avg_gain st /\
        price_score st = frequency st * avg_gain st /\
        0 <= price_score st) /\
  (forall finnhub_client ticker earnings_dates cutoff_date hist a,
      StockAnalyzer.analyze_stock_earnings finnhub_client ticker earnings_dates
        cutoff_date hist = Some a ->
      0 <= a_frequency a <= 1 /\
      a_price_score a = a_frequency a * a_avg_gain a /\
      0 <= a_price_score a) /\
  (forall alpaca_data finnhub_client ticker upcoming a,
      FullBacktester.analyze_stock_history alpaca_data finnhub_client ticker
        upcoming = Some a ->
      0 <= a_frequency a <= 1 /\
      a_price_score a = a_frequency a * a_avg_gain a /\
      0 <= a_price_score a).
Proof.
  assert (Hst : forall g d st,
             price_statistics g d = Return st ->
             0 <= frequency st <= 1 /\ 0 <= avg_gain st /\
             price_score st = frequency st * avg_gain st /\
             0 <= price_score st).
  { intros g d st H.
    pose proof (frequency_bounds g d st H) as Hf.
    pose proof (avg_gain_nonneg g d st H) as Hg.
    assert (Hp : price_score st = frequency st * avg_gain st).
    { rewrite price_statistics_returns in H. injection H as <-. reflexivity. }
    split; [exact Hf |]. split; [exact Hg |]. split; [exact Hp |].
    rewrite Hp. apply Qmult_le_0_compat; lra. }
  split; [| split].
  - intros g d. eexists. split; [apply price_statistics_returns |].
    apply (Hst g d). apply price_statistics_returns.
  - intros fc ticker eds cutoff hist a H.
    apply analyze_stock_earnings_inv in H.
    destruct H as (dates & st & _ & _ & _ & Hs & ->).
    apply Hst in Hs. simpl. tauto.
  - intros client fc ticker upcoming a H.
    apply analyze_stock_history_inv in H.
    destruct H as (bars & df & st & _ & _ & _ & Hs & ->).
    apply Hst in Hs. simpl. tauto.
Qed.

Lemma C7_witness :
  match StockAnalyzer.analyze_stock_earnings None "ACME"
          (Some sample_earnings_dates) 0%Z sample_hist with
  | Some a => 0 <= a_frequency a <= 1 /\
              a_price_score a = a_frequency a * a_avg_gain a /\
              0 <= a_price_score a
  | None => False
  end /\
  match FullBacktester.analyze_stock_history sample_client None "ACME" 1000%Z with
  | Some a => 0 <= a_frequency a <= 1 /\
              a_price_score a = a_frequency a * a_avg_gain a /\
              0 <= a_price_score a
  | None => False
  end.
Proof.
  destruct C7_frequency_and_price_score_bounds as (_ & H2 & H3).
  split.
  - destruct (StockAnalyzer.analyze_stock_earnings None "ACME"
                (Some sample_earnings_dates) 0%Z sample_hist) as [a |] eqn:E.
    + exact (H2 _ _ _ _ _ _ E).
    + vm_compute in E. discriminate.
  - destruct (FullBacktester.analyze_stock_history sample_client None "ACME" 1000%Z)
      as [a |] eqn:E.
    + exact (H3 _ _ _ _ _ E).
    + unfold FullBacktester.analyze_stock_history in E.
      rewrite past_earnings_dates_eq in E.
      vm_compute in E. discriminate.
Defined.

End ScoreClaims.

(** ** Backtest statistics *)

Section StatisticsClaims.

Import Backtester.

Lemma win_loss_statistics_returns (trades : list Executed) :
  let wins := filter is_win trades in
  let losses := filter is_loss trades in
  let avg_win := match wins with
                 | [] => 0
                 | _ :: _ => py_sum (map trade_pnl wins) / len wins
                 end in
  let avg_loss := match losses with
                  | [] => 0
                  | _ :: _ => py_sum (map trade_pnl losses) / len losses
                  end in
  let profit_factor := if Qneqb avg_loss 0 then Qabs (avg_win / avg_loss) else 0 in
  win_loss_statistics trades
  = Return (wins, losses, avg_win, avg_loss, profit_factor).
Proof.
  intros wins losses avg_win avg_loss profit_factor.
  unfold win_loss_statistics.
  change (filter (fun t => Qgtb (pnl (result t)) 0) trades) with wins.
  change (filter (fun t => Qle_bool (pnl (result t)) 0) trades) with losses.
  assert (Hw : match wins with
               | [] => Return 0
               | _ :: _ => py_div (py_sum (map trade_pnl wins)) (len wins)
               end = Return avg_win).
  { subst avg_win. destruct wins; [reflexivity | apply py_div_len]. }
  assert (Hl : match losses with
               | [] => Return 0
               | _ :: _ => py_div (py_sum (map trade_pnl losses)) (len losses)
               end = Return avg_loss).
  { subst avg_loss. destruct losses; [reflexivity | apply py_div_len]. }
  rewrite Hw. cbn [obind]. rewrite Hl. cbn [obind].
  subst profit_factor. unfold Qneqb.
  destruct (Qeq_bool avg_loss 0) eqn:E; cbn [negb obind]; [reflexivity |].
  rewrite py_div_nonzero; [reflexivity |].
  intro H. apply Qeq_bool_iff in H. congruence.
Qed.

Lemma mean_or_zero_of_sum (xs : list Q) :
  match xs with
  | [] => 0
  | _ :: _ => py_sum xs / len xs
  end == mean_or_zero xs.
Proof.
  destruct xs as [| x xs]; [reflexivity |].
  unfold mean_or_zero. apply mean_of_sum.
Qed.

Lemma mean_or_zero_of_mapped {A : Type} (f : A -> Q) (ts : list A) :
  match ts with
  | [] => 0
  | _ :: _ => py_sum (map f ts) / len ts
  end == mean_or_zero (map f ts).
Proof.
  destruct ts as [| t ts]; [reflexivity |].
  rewrite <- (mean_or_zero_of_sum (map f (t :: ts))).
  unfold len. rewrite length_map. reflexivity.
Qed.

(** The drawdown loop does not raise once the running maximum is
    positive. *)
Lemma drawdown_loop_returns (ledger : list Q) (max_capital max_drawdown : Q) :
  0 < max_capital ->
  exists r, drawdown_loop ledger max_capital max_drawdown = Return r.
Proof.
  revert max_capital max_drawdown.
  induction ledger as [| capital rest IH]; intros mc md Hpos; simpl.
  - eexists. reflexivity.
  - pose proof (py_max_ge_l mc capital) as Hge.
    rewrite py_div_nonzero by lra. cbn [obind].
    apply IH. lra.
Qed.

(** [C8] The profit factor of a summary is |avg_win / avg_loss|, where
    avg_win is the mean trade P&L of the trades with pnl > 0 and avg_loss
    the mean trade P&L of the trades with pnl <= 0 (0 when there is no such
    trade); when avg_loss is 0, as it is without losing trades, the profit
    factor is 0.  Computing them never raises, and with a positive initial
    capital neither backtest raises while it builds its summary. *)
Theorem C8_profit_factor :
  (forall trades : list Executed,
      exists avg_win avg_loss profit_factor,
        win_loss_statistics trades
        = Return (filter is_win trades, filter is_loss trades,
                  avg_win, avg_loss, profit_factor) /\
        avg_win == mean_or_zero (map trade_pnl (filter is_win trades)) /\
        avg_loss == mean_or_zero (map trade_pnl (filter is_loss trades)) /\
        profit_factor = spec_profit_factor avg_win avg_loss /\
        (filter is_loss trades = [] -> avg_loss = 0 /\ profit_factor = 0)) /\
  (forall self : FullBacktester.t,
      0 < FullBacktester.initial_capital self ->
      match FullBacktester.calculate_statistics self with
      | Return (FullBacktester.Results s _) =>
          trades s = FullBacktester.trades self /\ summary_consistent s
      | Return (FullBacktester.NoTradesExecuted _ _) =>
          FullBacktester.trades self = []
      | Raise _ => False
      end) /\
  (forall alpaca_data test_stocks initial_capital,
      0 < initial_capital ->
      match backtest_strategy alpaca_data test_stocks initial_capital with
      | Return (Results s) => summary_consistent s
      | Return NoTradesExecuted => True
      | Raise _ => False
      end).
Proof.
  split; [| split].
  - intro trades. do 3 eexists.
    split; [apply win_loss_statistics_returns |].
    cbv zeta.
    split; [apply (mean_or_zero_of_mapped trade_pnl (filter is_win trades)) |].
    split; [apply (mean_or_zero_of_mapped trade_pnl (filter is_loss trades)) |].
    split.
    + unfold spec_profit_factor, Qneqb.
      destruct (Qeq_bool _ 0) eqn:E; cbn [negb].
      * apply Qeq_bool_iff in E. destruct (Qeq_dec _ 0); [reflexivity | contradiction].
      * destruct (Qeq_dec _ 0) as [H | H]; [| reflexivity].
        apply Qeq_bool_iff in H. congruence.
    + intros ->. split; reflexivity.
  - intros self Hpos. unfold FullBacktester.calculate_statistics.
    destruct (FullBacktester.trades self) as [| t ts] eqn:Et; [reflexivity |].
    rewrite py_div_nonzero by lra. cbn [obind].
    rewrite py_div_len. cbn [obind].
    rewrite win_loss_statistics_returns. cbn [obind].
    destruct (drawdown_loop_returns (map snd (FullBacktester.daily_log self))
                (FullBacktester.initial_capital self) 0 Hpos) as [[mc md] ->].
    cbn [obind]. split; [reflexivity |].
    unfold summary_consistent. cbn [trades avg_win avg_loss profit_factor].
    apply win_loss_statistics_returns.
  - intros client stocks initial Hpos. unfold backtest_strategy.
    destruct (trade_loop client stocks initial []) as [capital trades].
    destruct trades as [| t ts]; [exact I |].
    rewrite py_div_len. cbn [obind].
    rewrite win_loss_statistics_returns. cbn [obind].
    destruct (trade_drawdown_loop (map capital_after (t :: ts)) initial 0)
      as [mc md].
    unfold summary_consistent. cbn [trades avg_win avg_loss profit_factor].
    apply win_loss_statistics_returns.
Qed.

Lemma C8_witness :
  match FullBacktester.calculate_statistics sample_book with
  | Return (FullBacktester.Results s _) =>
      trades s = FullBacktester.trades sample_book /\ summary_consistent s
  | Return (FullBacktester.NoTradesExecuted _ _) =>
      FullBacktester.trades sample_book = []
  | Raise _ => False
  end /\
  match backtest_strategy None [] 10000 with
  | Return (Results s) => summary_consistent s
  | Return NoTradesExecuted => True
  | Raise _ => False
  end.
Proof.
  split.
  - apply (proj1 (proj2 C8_profit_factor) sample_book). reflexivity.
  - apply (proj2 (proj2 C8_profit_factor) None [] 10000). reflexivity.
Defined.

End StatisticsClaims.

(** ** The trade simulator *)

Section SimulatorClaims.

Import Backtester.

Lemma scan_first_trigger (df : DataFrame) (take_profit stop_loss : Q)
    (before : list date) (d : date) (after : list date) (row : Bar) :
  quiet df take_profit stop_loss before ->
  loc df d = Return row ->
  take_profit <= bar_high row ->
  (exists e, scan df take_profit stop_loss (before ++ d :: after) = Raise e) \/
  scan df take_profit stop_loss (before ++ d :: after)
  = Return (Some (d, take_profit, "Take profit hit"%string)).
Proof.
  intros Hq Hrow Hhigh.
  induction before as [| d0 before IH]; simpl.
  - right. rewrite Hrow. cbn [obind]. unfold Qgeb.
    apply Qle_bool_iff in Hhigh. rewrite Hhigh. reflexivity.
  - destruct (loc df d0) as [row0 | e] eqn:E0; cbn [obind].
    + destruct (Hq d0 row0 (or_introl eq_refl) E0) as [Hh Hl].
      unfold Qgeb.
      apply Qle_bool_gt in Hh. rewrite Hh.
      apply Qle_bool_gt in Hl. rewrite Hl.
      apply IH. intros d' row' Hin. apply Hq. right. exact Hin.
    + left. eexists. reflexivity.
Qed.

(** What a returned trade says about the run that produced it. *)
Lemma simulate_frame_inv (df : DataFrame) (ticker : string) (entry : date)
    (take_profit_pct stop_loss_pct : Q) (hold_days : Z) (t : Trade) :
  simulate_frame df ticker entry take_profit_pct stop_loss_pct hold_days
  = Return (Some t) ->
  exists entry_row found,
    resolve_entry df entry = Some (entry_date t) /\
    loc df (entry_date t) = Return entry_row /\
    entry_price t = bar_close entry_row /\
    take_profit_price t = bar_close entry_row * (1 + take_profit_pct) /\
    stop_loss_price t = bar_close entry_row * (1 + stop_loss_pct) /\
    future_dates df (entry_date t) hold_days <> [] /\
    scan df (take_profit_price t) (stop_loss_price t)
      (future_dates df (entry_date t) hold_days) = Return found /\
    match found with
    | Some e => e = (exit_date t, exit_price t, exit_reason t)
    | None => exit_reason t = "Hold period expired"%string
    end.
Proof.
  unfold simulate_frame.
  destruct (resolve_entry df entry) as [e |]; [| discriminate].
  destruct (loc df e) as [entry_row | x] eqn:Er; cbn [obind]; [| discriminate].
  destruct (future_dates df e hold_days) as [| d ds] eqn:Ef; [discriminate |].
  destruct (scan df _ _ (d :: ds)) as [found | x] eqn:Es; cbn [obind];
    [| discriminate].
  destruct found as [[[xd xp] xr] |]; cbn [obind].
  - intro H. injection H as H. subst t. cbn.
    exists entry_row, (Some (xd, xp, xr)).
    rewrite Ef. repeat split; try assumption; try discriminate.
  - destruct (loc df (last (d :: ds) 0%Z)) as [exit_row | x] eqn:El;
      cbn [obind]; [| discriminate].
    intro H. injection H as H. subst t. cbn.
    exists entry_row, None.
    rewrite Ef. repeat split; try assumption; try discriminate.
Qed.

Lemma simulate_trade_inv (client : StockHistoricalDataClient) (ticker : string)
    (entry : date) (take_profit_pct stop_loss_pct : Q) (hold_days : Z) (t : Trade) :
  simulate_trade (Some client) ticker entry take_profit_pct stop_loss_pct hold_days
  = Some t ->
  exists bars df,
    client (mkStockBarsRequest [ticker] (entry - 5) (entry + (hold_days + 10)))%Z
    = Return bars /\
    bars ticker = Some df /\
    simulate_frame df ticker entry take_profit_pct stop_loss_pct hold_days
    = Return (Some t).
Proof.
  unfold simulate_trade.
  destruct (client _) as [bars | x]; cbn [obind catch]; [| discriminate].
  destruct (bars ticker) as [[| b bs] |] eqn:Et; cbn [catch]; try discriminate.
  destruct (simulate_frame (b :: bs) ticker entry take_profit_pct stop_loss_pct
              hold_days) as [[t' |] | x] eqn:Es; cbn [catch]; try discriminate.
  intro H. injection H as ->.
  exists bars, (b :: bs). repeat split; assumption.
Qed.

(** Scenarios 2 and 3 of the specification. *)
Example simulate_scenario_two :
  exists t,
    simulate_frame scenario_two "ACME" 0%Z 0.10 (-0.08) 5 = Return (Some t) /\
    exit_date t = 2%Z /\ exit_reason t = "Take profit hit"%string /\
    exit_price t == 110 /\ pnl t == 10 /\ pnl_percent t == 10.
Proof.
  eexists. split; [reflexivity |].
  repeat split; vm_compute; reflexivity.
Qed.

Example simulate_scenario_three :
  exists t,
    simulate_frame scenario_three "ACME" 0%Z 0.10 (-0.08) 5 = Return (Some t) /\
    exit_date t = 5%Z /\ exit_reason t = "Hold period expired"%string /\
    exit_price t == 103.
Proof.
  eexists. split; [reflexivity |].
  repeat split; vm_compute; reflexivity.
Qed.

(** Read over every day of the hold window the tie-break property fails: a
    day that spans both levels may come after the day on which the stop
    alone was reached, and the trade has then already been closed with a
    stop loss. *)
Lemma C1_counterexample :
  exists t row,
    simulate_trade (Some stop_then_both_client) "ACME" 0%Z 0.10 (-0.08) 5
    = Some t /\
    In 2%Z (future_dates stop_then_both (entry_date t) 5) /\
    loc stop_then_both 2%Z = Return row /\
    take_profit_price t <= bar_high row /\
    bar_low row <= stop_loss_price t /\
    exit_date t = 1%Z /\
    exit_reason t = "Stop loss hit"%string.
Proof.
  eexists. eexists.
  split; [reflexivity |].
  split; [vm_compute; auto |].
  split; [reflexivity |].
  repeat split; vm_compute; discriminate.
Qed.

(** [C1] (amended) On the first day of the hold window on which a trigger
    fires (no earlier day of the window reached the target or the stop), if
    that day's high is at least the take-profit price and its low at most
    the stop-loss price, the simulator exits on that day at exactly the
    take-profit price with reason take profit, not stop loss. *)
Theorem C1_take_profit_before_stop_loss
    (client : StockHistoricalDataClient) (ticker : string) (entry : date)
    (take_profit_pct stop_loss_pct : Q) (hold_days : Z)
    (bars : BarSet) (df : DataFrame) (t : Trade)
    (before : list date) (d : date) (after : list date) (row : Bar) :
  client (mkStockBarsRequest [ticker] (entry - 5) (entry + (hold_days + 10)))%Z
  = Return bars ->
  bars ticker = Some df ->
  simulate_trade (Some client) ticker entry take_profit_pct stop_loss_pct hold_days
  = Some t ->
  future_dates df (entry_date t) hold_days = before ++ d :: after ->
  quiet df (take_profit_price t) (stop_loss_price t) before ->
  loc df d = Return row ->
  take_profit_price t <= bar_high row ->
  bar_low row <= stop_loss_price t ->
  exit_date t = d /\
  exit_price t = take_profit_price t /\
  take_profit_price t = entry_price t * (1 + take_profit_pct) /\
  exit_reason t = "Take profit hit"%string /\
  exit_reason t <> "Stop loss hit"%string.
Proof.
  intros Hc Hb Hs Hf Hq Hrow Hhigh _.
  apply simulate_trade_inv in Hs.
  destruct Hs as (bars' & df' & Hc' & Hb' & Hs).
  rewrite Hc in Hc'. injection Hc' as <-.
  rewrite Hb in Hb'. injection Hb' as <-.
  apply simulate_frame_inv in Hs.
  destruct Hs as (entry_row & found & _ & _ & Hp & Htp & _ & _ & Hscan & Hfound).
  rewrite Hf in Hscan.
  destruct (scan_first_trigger df _ _ before d after row Hq Hrow Hhigh)
    as [[e He] | Hhit].
  - rewrite He in Hscan. discriminate.
  - rewrite Hhit in Hscan. injection Hscan as <-.
    injection Hfound as Hd Hx Hr.
    rewrite <- Hd, <- Hx, <- Hr, Hp.
    repeat split; try assumption. discriminate.
Qed.

Lemma C1_witness :
  match simulate_trade (Some both_at_once_client) "ACME" 0%Z 0.10 (-0.08) 5 with
  | Some t => exit_date t = 1%Z /\
              exit_price t = take_profit_price t /\
              take_profit_price t = entry_price t * (1 + 0.10) /\
              exit_reason t = "Take profit hit"%string /\
              exit_reason t <> "Stop loss hit"%string
  | None => False
  end.
Proof.
  destruct (simulate_trade (Some both_at_once_client) "ACME" 0%Z 0.10 (-0.08) 5)
    as [t |] eqn:E.
  - assert (Et : Some t = simulate_trade (Some both_at_once_client) "ACME" 0%Z
                            0.10 (-0.08) 5) by (symmetry; exact E).
    vm_compute in Et. injection Et as Et.
    apply (C1_take_profit_before_stop_loss both_at_once_client "ACME" 0%Z 0.10
             (-0.08) 5 (fun _ => Some both_at_once) both_at_once t
             [] 1%Z [] (mkBar 1%Z 100 112 90 100 1000)).
    + reflexivity.
    + reflexivity.
    + exact E.
    + rewrite Et. reflexivity.
    + intros d' row' [].
    + reflexivity.
    + rewrite Et. vm_compute. discriminate.
    + rewrite Et. vm_compute. discriminate.
  - vm_compute in E. discriminate.
Defined.

End SimulatorClaims.

(** ** Forward windows *)

Section WindowClaims.

Import Scoring.

Lemma get_loc_ffill_in_range (hist : DataFrame) (key : date) (t_idx : nat) :
  StockAnalyzer.get_loc_ffill (index hist) key = Return t_idx ->
  (t_idx < List.length hist)%nat.
Proof.
  unfold StockAnalyzer.get_loc_ffill.
  pose proof (filter_length_le (fun d => (d <=? key)%Z) (index hist)) as Hle.
  unfold index in *. rewrite length_map in Hle.
  destruct (List.length (filter (fun d => (d <=? key)%Z) (map bar_date hist)))
    as [| n]; [discriminate |].
  intro H. injection H as <-. lia.
Qed.

(** On the real-calendar path an event is skipped exactly when its forward
    window is empty. *)
Lemma real_sample_none_iff (hist : DataFrame) (earnings_date : date) :
  StockAnalyzer.sample hist earnings_date = None <->
  real_window hist earnings_date = [].
Proof.
  unfold StockAnalyzer.sample, real_window.
  destruct (StockAnalyzer.get_loc_ffill (index hist) earnings_date)
    as [t_idx | e] eqn:E; cbn [obind catch]; [| tauto].
  apply get_loc_ffill_in_range in E.
  destruct (nth_error hist t_idx) as [row |] eqn:En.
  - destruct (StockAnalyzer.window_after hist t_idx) as [| b bs]; cbn [catch].
    + tauto.
    + split; discriminate.
  - apply nth_error_None in En. lia.
Qed.

Lemma estimated_sample_short (df : DataFrame) (earnings_est_date : date) :
  (List.length (estimated_window df earnings_est_date) < 3)%nat ->
  FullBacktester.sample df earnings_est_date = None.
Proof.
  unfold FullBacktester.sample, estimated_window.
  destruct (FullBacktester.nearest_trading_day df earnings_est_date) as [d |];
    [| reflexivity].
  intro Hlt.
  destruct (loc df d) as [row | e]; cbn [obind catch]; [| reflexivity].
  apply Nat.ltb_lt in Hlt. rewrite Hlt. reflexivity.
Qed.

Lemma real_collect_skips (hist : DataFrame) (d : date) (before after : list date) :
  StockAnalyzer.sample hist d = None ->
  StockAnalyzer.collect hist (before ++ d :: after)
  = StockAnalyzer.collect hist (before ++ after).
Proof.
  intro Hs. induction before as [| d0 before IH]; simpl.
  - rewrite Hs. destruct (StockAnalyzer.collect hist after). reflexivity.
  - rewrite IH. reflexivity.
Qed.

Lemma estimated_collect_skips (df : DataFrame) (d : date) (before after : list date) :
  FullBacktester.sample df d = None ->
  FullBacktester.collect df (before ++ d :: after)
  = FullBacktester.collect df (before ++ after).
Proof.
  intro Hs. induction before as [| d0 before IH]; simpl.
  - rewrite Hs. destruct (FullBacktester.collect df after). reflexivity.
  - rewrite IH. reflexivity.
Qed.

(** On the real-calendar path an event with only two following trading
    days is not skipped: it yields a sample, which enters the lists the
    statistics are computed from. *)
Lemma C4_counterexample :
  List.length (real_window short_hist 1%Z) = 2%nat /\
  exists s,
    StockAnalyzer.sample short_hist 1%Z = Some s /\
    StockAnalyzer.collect short_hist [1%Z] = ([fst s], [snd s]).
Proof.
  split; [reflexivity |].
  eexists. split; reflexivity.
Qed.

(** [C4] (amended) On the estimated-earnings path an event whose forward
    window has fewer than 3 trading days produces no sample.  On the
    real-calendar path an event produces no sample exactly when its forward
    window is empty.  An event that produces no sample adds nothing to the
    lists from which frequency, avg_gain and avg_drawdown are computed. *)
Theorem C4_short_windows_skipped :
  (forall df earnings_est_date before after,
      (List.length (estimated_window df earnings_est_date) < 3)%nat ->
      FullBacktester.sample df earnings_est_date = None /\
      FullBacktester.collect df (before ++ earnings_est_date :: after)
      = FullBacktester.collect df (before ++ after)) /\
  (forall hist earnings_date,
      StockAnalyzer.sample hist earnings_date = None <->
      real_window hist earnings_date = []) /\
  (forall hist earnings_date before after,
      real_window hist earnings_date = [] ->
      StockAnalyzer.collect hist (before ++ earnings_date :: after)
      = StockAnalyzer.collect hist (before ++ after)).
Proof.
  split; [| split].
  - intros df d before after Hlt.
    pose proof (estimated_sample_short df d Hlt) as Hs.
    split; [exact Hs | apply estimated_collect_skips; exact Hs].
  - exact real_sample_none_iff.
  - intros hist d before after Hw.
    apply real_collect_skips. apply real_sample_none_iff. exact Hw.
Qed.

Lemma C4_witness :
  (FullBacktester.sample short_hist 1%Z = None /\
   FullBacktester.collect short_hist ([0%Z] ++ 1%Z :: [2%Z])
   = FullBacktester.collect short_hist ([0%Z] ++ [2%Z])) /\
  StockAnalyzer.collect short_hist ([1%Z] ++ 3%Z :: [])
  = StockAnalyzer.collect short_hist ([1%Z] ++ []).
Proof.
  destruct C4_short_windows_skipped as (H1 & _ & H3).
  split.
  - apply H1. vm_compute. lia.
  - apply H3. reflexivity.
Defined.

End WindowClaims.

(** * Further properties *)

(** ** Position sizing *)

Section PositionSizing.

Import RiskManager.

Lemma py_int_floor (x : Q) : 0 <= x -> py_int x = Qfloor x.
Proof.
  intro H. unfold py_int. destruct x as [n d]. simpl.
  unfold Qle in H. simpl in H.
  apply Z.quot_div_nonneg; lia.
Qed.

Lemma py_int_bounds (x : Q) :
  0 <= x -> inject_Z (py_int x) <= x /\ x < inject_Z (py_int x) + 1.
Proof.
  intro H. rewrite (py_int_floor x H). split; [apply Qfloor_le |].
  pose proof (Qlt_floor x) as Hhi. rewrite inject_Z_plus in Hhi. exact Hhi.
Qed.

Lemma py_round6_near (x : Q) : Qabs (py_round6 x - x) <= 1 # 2000000.
Proof.
  unfold py_round6.
  pose proof (round_half_even_near (x * 1000000)) as H.
  apply Qabs_Qle_condition in H. apply Qabs_Qle_condition.
  set (n := inject_Z (round_half_even (x * 1000000))) in *.
  assert (E : n / 1000000 - x == (n - x * 1000000) / 1000000) by field.
  rewrite E. split; [apply Qle_shift_div_l | apply Qle_shift_div_r]; lra.
Qed.

Lemma available_capital_caps (self : t) (account_balance buying_power : Q) :
  available_capital self account_balance buying_power <= buying_power * 0.98 /\
  available_capital self account_balance buying_power
  <= account_balance * (max_position_size_percent (config self) / 100).
Proof.
  unfold available_capital.
  destruct (py_min_cases (buying_power * 0.98)
              (account_balance * (max_position_size_percent (config self) / 100)))
    as [[H ->] | [H ->]]; lra.
Qed.

(** With capital to place the account balance is not zero. *)
Lemma available_capital_balance (self : t) (account_balance buying_power : Q) :
  0 < available_capital self account_balance buying_power ->
  ~ account_balance == 0.
Proof.
  intros Hpos E.
  pose proof (available_capital_caps self account_balance buying_power) as [_ H].
  assert (Hz : account_balance
               * (max_position_size_percent (config self) / 100) == 0)
    by (rewrite E; ring).
  lra.
Qed.

(** The method, one decision at a time. *)
Lemma calculate_position_size_eq (account_balance buying_power stock_price : Q)
    (self : t) :
  calculate_position_size account_balance buying_power stock_price self =
  let available := available_capital self account_balance buying_power in
  if Qle_bool available 0 then (Return (0, 0), self)
  else
    match py_div available stock_price with
    | Raise e => (Raise e, self)
    | Return q0 =>
        let quantity :=
          if Qltb q0 1 then py_round6 q0 else inject_Z (py_int q0) in
        match py_div (quantity * stock_price) account_balance with
        | Raise e => (Raise e, self)
        | Return _ => (Return (quantity, quantity * stock_price), self)
        end
    end.
Proof.
  unfold calculate_position_size, available_capital, bind, get, lift, ret.
  cbv zeta.
  destruct (Qle_bool _ 0); [reflexivity |].
  destruct (py_div _ stock_price) as [q0 | e]; [| reflexivity].
  destruct (py_div _ account_balance); reflexivity.
Qed.

(** [X1] With a positive price that the available capital covers at least
    once, [calculate_position_size] returns a whole number [n >= 1] of
    shares and [n * price] as the capital used, leaves the manager as it
    was, and never spends more than the available capital: the capital used
    is at most the available capital, which is at most 98% of the buying
    power and at most the position limit, and less than one share's price
    is left over. *)
Theorem position_size_whole_shares (self : t)
    (account_balance buying_power stock_price : Q) :
  let available := available_capital self account_balance buying_power in
  0 < stock_price ->
  stock_price <= available ->
  exists n : Z,
    calculate_position_size account_balance buying_power stock_price self
    = (Return (inject_Z n, inject_Z n * stock_price), self) /\
    (1 <= n)%Z /\
    inject_Z n * stock_price <= available /\
    available < inject_Z n * stock_price + stock_price /\
    available <= buying_power * 0.98 /\
    available
    <= account_balance * (max_position_size_percent (config self) / 100).
Proof.
  intros available Hp Hge.
  assert (Hpos : 0 < available) by lra.
  rewrite calculate_position_size_eq. cbv zeta. fold available.
  assert (E0 : Qle_bool available 0 = false) by (apply Qle_bool_gt; exact Hpos).
  rewrite E0.
  rewrite (py_div_nonzero available stock_price) by lra.
  assert (Hq : 1 <= available / stock_price) by (apply Qle_shift_div_l; lra).
  assert (E1 : Qltb (available / stock_price) 1 = false)
    by (apply Qltb_ge; exact Hq).
  rewrite E1.
  rewrite py_div_nonzero
    by (apply (available_capital_balance self account_balance buying_power);
        exact Hpos).
  set (q := available / stock_price) in *.
  exists (py_int q). split; [reflexivity |].
  destruct (py_int_bounds q) as [Hlo Hhi]; [lra |].
  assert (Eq : q * stock_price == available) by (unfold q; field; lra).
  split; [| split; [| split]].
  - assert (H0 : inject_Z 0 < inject_Z (py_int q)).
    { change (inject_Z 0) with 0. lra. }
    rewrite <- Zlt_Qlt in H0. lia.
  - rewrite <- Eq. apply Qmult_le_compat_r; lra.
  - rewrite <- Eq.
    assert (H1 : q * stock_price < (inject_Z (py_int q) + 1) * stock_price)
      by (apply Qmult_lt_compat_r; lra).
    lra.
  - apply available_capital_caps.
Qed.

Lemma position_size_whole_shares_witness :
  exists n : Z,
    calculate_position_size 10000 20000 100 (init sample_risk_config)
    = (Return (inject_Z n, inject_Z n * 100), init sample_risk_config) /\
    (1 <= n)%Z /\
    inject_Z n * 100
    <= available_capital (init sample_risk_config) 10000 20000 /\
    available_capital (init sample_risk_config) 10000 20000
    < inject_Z n * 100 + 100 /\
    available_capital (init sample_risk_config) 10000 20000 <= 20000 * 0.98 /\
    available_capital (init sample_risk_config) 10000 20000
    <= 10000 * (max_position_size_percent (config (init sample_risk_config)) / 100).
Proof.
  apply (position_size_whole_shares (init sample_risk_config) 10000 20000 100);
    vm_compute; first [reflexivity | discriminate].
Defined.

Lemma round_half_even_floor (x : Q) :
  (Qfloor x <= round_half_even x <= Qfloor x + 1)%Z.
Proof.
  unfold round_half_even.
  destruct (Qltb _ _); [lia |].
  destruct (Qltb _ _); [lia |].
  destruct (Z.even _); lia.
Qed.

(** [X2] When the available capital is positive but does not cover one
    share, the quantity is the fraction available / price rounded to six
    decimals (to the nearest, not down): it lies in [0, 1], the capital used
    is within half a millionth of the price of the available capital, and
    whenever the seventh decimal rounds up the capital used exceeds the
    available capital. *)
Theorem position_size_fractional (self : t)
    (account_balance buying_power stock_price : Q) :
  let available := available_capital self account_balance buying_power in
  0 < available ->
  available < stock_price ->
  exists q : Q,
    calculate_position_size account_balance buying_power stock_price self
    = (Return (q, q * stock_price), self) /\
    q = py_round6 (available / stock_price) /\
    0 <= q <= 1 /\
    Qabs (q * stock_price - available) <= stock_price * (1 # 2000000) /\
    (1 # 2 < available / stock_price * 1000000
             - inject_Z (Qfloor (available / stock_price * 1000000)) ->
     available < q * stock_price).
Proof.
  intros available Hpos Hlt.
  rewrite calculate_position_size_eq. cbv zeta. fold available.
  assert (E0 : Qle_bool available 0 = false) by (apply Qle_bool_gt; exact Hpos).
  rewrite E0.
  rewrite (py_div_nonzero available stock_price) by lra.
  assert (Hq1 : available / stock_price < 1) by (apply Qlt_shift_div_r; lra).
  assert (Hq0 : 0 <= available / stock_price) by (apply Qle_shift_div_l; lra).
  assert (E1 : Qltb (available / stock_price) 1 = true)
    by (apply Qltb_lt; exact Hq1).
  rewrite E1.
  rewrite py_div_nonzero
    by (apply (available_capital_balance self account_balance buying_power);
        exact Hpos).
  set (x := available / stock_price) in *.
  assert (Ex : x * stock_price == available) by (unfold x; field; lra).
  exists (py_round6 x). split; [reflexivity |]. split; [reflexivity |].
  pose proof (round_half_even_floor (x * 1000000)) as [Hfl Hfh].
  pose proof (Qfloor_le (x * 1000000)) as Hle.
  pose proof (Qlt_floor (x * 1000000)) as Hlf.
  rewrite inject_Z_plus in Hlf.
  split; [| split].
  - unfold py_round6.
    set (y := x * 1000000) in *.
    assert (H0 : (0 <= Qfloor y)%Z).
    { change 0%Z with (Qfloor 0). apply Qfloor_resp_le. unfold y. lra. }
    assert (H1 : (Qfloor y < 1000000)%Z).
    { rewrite Zlt_Qlt. change (inject_Z 1000000) with 1000000. unfold y in *. lra. }
    assert (H2 : inject_Z 0 <= inject_Z (round_half_even y))
      by (rewrite <- Zle_Qle; lia).
    assert (H3 : inject_Z (round_half_even y) <= inject_Z 1000000)
      by (rewrite <- Zle_Qle; lia).
    change (inject_Z 0) with 0 in H2.
    change (inject_Z 1000000) with 1000000 in H3.
    split; [apply Qle_shift_div_l | apply Qle_shift_div_r]; lra.
  - pose proof (py_round6_near x) as Hn.
    apply Qabs_Qle_condition in Hn. destruct Hn as [Hn1 Hn2].
    apply Qabs_Qle_condition.
    assert (Ed : py_round6 x * stock_price - available
                 == (py_round6 x - x) * stock_price) by (rewrite <- Ex; ring).
    rewrite Ed. split.
    + assert (H : - (1 # 2000000) * stock_price
                  <= (py_round6 x - x) * stock_price)
        by (apply Qmult_le_compat_r; lra).
      lra.
    + assert (H : (py_round6 x - x) * stock_price
                  <= (1 # 2000000) * stock_price)
        by (apply Qmult_le_compat_r; lra).
      lra.
  - intro Hup.
    assert (Er : round_half_even (x * 1000000) = (Qfloor (x * 1000000) + 1)%Z).
    { unfold round_half_even.
      destruct (Qltb (x * 1000000 - inject_Z (Qfloor (x * 1000000))) (1 # 2))
        eqn:Ea.
      - apply Qltb_lt in Ea. lra.
      - destruct (Qltb (1 # 2) (x * 1000000 - inject_Z (Qfloor (x * 1000000))))
          eqn:Eb; [reflexivity |].
        apply Qltb_ge in Eb. lra. }
    assert (Hgt : x < py_round6 x).
    { unfold py_round6. rewrite Er. rewrite inject_Z_plus.
      apply Qlt_shift_div_l; lra. }
    rewrite <- Ex. apply Qmult_lt_compat_r; lra.
Qed.

Lemma position_size_fractional_witness :
  exists q : Q,
    calculate_position_size 100 1000 70 (init sample_risk_config)
    = (Return (q, q * 70), init sample_risk_config) /\
    q = py_round6 (available_capital (init sample_risk_config) 100 1000 / 70) /\
    0 <= q <= 1 /\
    Qabs (q * 70 - available_capital (init sample_risk_config) 100 1000)
    <= 70 * (1 # 2000000) /\
    (1 # 2 < available_capital (init sample_risk_config) 100 1000 / 70 * 1000000
             - inject_Z (Qfloor (available_capital (init sample_risk_config)
                                   100 1000 / 70 * 1000000)) ->
     available_capital (init sample_risk_config) 100 1000 < q * 70).
Proof.
  apply (position_size_fractional (init sample_risk_config) 100 1000 70);
    vm_compute; reflexivity.
Defined.

(** [X3] [calculate_position_size] raises exactly when there is capital to
    place and the price is 0, and then it is a ZeroDivisionError; in every
    other case it returns and leaves the manager as it was.  In particular
    the division by the account balance in its log line never fails. *)
Theorem position_size_raises_iff (self : t)
    (account_balance buying_power stock_price : Q) :
  let available := available_capital self account_balance buying_power in
  (calculate_position_size account_balance buying_power stock_price self
   = (Raise ZeroDivisionError, self)
   <-> 0 < available /\ stock_price == 0) /\
  ((exists r,
       calculate_position_size account_balance buying_power stock_price self
       = (Return r, self))
   <-> ~ (0 < available /\ stock_price == 0)) /\
  (available <= 0 ->
   calculate_position_size account_balance buying_power stock_price self
   = (Return (0, 0), self)).
Proof.
  intro available.
  rewrite calculate_position_size_eq. cbv zeta. fold available.
  destruct (Qle_bool available 0) eqn:E0.
  - apply Qle_bool_iff in E0.
    split; [| split].
    + split; [discriminate | intros [H _]; lra].
    + split; [intros _ [H _]; lra | intros _; eexists; reflexivity].
    + reflexivity.
  - apply Qle_bool_gt in E0.
    destruct (Qeq_bool stock_price 0) eqn:Ep.
    + assert (Ed : py_div available stock_price = Raise ZeroDivisionError)
        by (unfold py_div; rewrite Ep; reflexivity).
      rewrite Ed.
      apply Qeq_bool_iff in Ep.
      split; [| split].
      * split; [intros _; split; assumption | reflexivity].
      * split; [intros [r H]; discriminate | intro H; exfalso; apply H; split; assumption].
      * intro H. lra.
    + assert (Hp : ~ stock_price == 0).
      { intro H. apply Qeq_bool_iff in H. congruence. }
      rewrite (py_div_nonzero available stock_price) by exact Hp.
      rewrite py_div_nonzero
        by (apply (available_capital_balance self account_balance buying_power);
            exact E0).
      split; [| split].
      * split; [discriminate | intros [_ H]; contradiction].
      * split; [intros _ [_ H]; contradiction | intros _; eexists; reflexivity].
      * intro H. lra.
Qed.

End PositionSizing.

(** ** The loss limits *)

Section LossLimits.

Import RiskManager.

(** A loss in percent of a positive base reaches a limit exactly when the
    balance is down to the base reduced by that percentage. *)
Lemma percent_threshold (base current limit : Q) :
  0 < base ->
  (limit <= (base - current) / base * 100
   <-> current <= base * (1 - limit / 100)).
Proof.
  intro Hb.
  set (q := (base - current) / base).
  assert (Eq : q * base == base - current) by (unfold q; field; lra).
  assert (E2 : q * 100 * base == 100 * (base - current))
    by (rewrite <- Eq; ring).
  assert (G : base * (1 - limit / 100) == base - limit * base * (1 # 100))
    by field.
  rewrite G.
  split; intro H.
  - assert (H1 : limit * base <= q * 100 * base)
      by (apply Qmult_le_compat_r; lra).
    rewrite E2 in H1. set (lb := limit * base) in *. lra.
  - destruct (Qlt_le_dec (q * 100) limit) as [Hlt | Hge]; [| exact Hge].
    assert (H1 : q * 100 * base < limit * base)
      by (apply Qmult_lt_compat_r; lra).
    rewrite E2 in H1. set (lb := limit * base) in *. lra.
Qed.

Lemma check_daily_loss_limit_set (self : t) (start current : Q) :
  daily_start_balance self = Some start ->
  ~ start == 0 ->
  check_daily_loss_limit current self
  = (Return (negb (Qgeb ((start - current) / start * 100)
                     (max_daily_loss_percent (config self))),
             (start - current) / start * 100), self).
Proof.
  intros Hs Hnz. unfold check_daily_loss_limit, bind, get, lift, ret.
  rewrite Hs. rewrite py_div_nonzero by exact Hnz.
  destruct (Qgeb _ _); reflexivity.
Qed.

Lemma check_max_drawdown_set (self : t) (hwm current : Q) :
  max_drawdown_balance self = Some hwm ->
  ~ hwm == 0 ->
  check_max_drawdown current self
  = (Return (negb (Qgeb ((hwm - current) / hwm * 100)
                     (max_drawdown_percent (config self))),
             (hwm - current) / hwm * 100), self).
Proof.
  intros Hs Hnz. unfold check_max_drawdown, bind, get, lift, ret.
  rewrite Hs. rewrite py_div_nonzero by exact Hnz.
  destruct (Qgeb _ _); reflexivity.
Qed.

Lemma check_daily_loss_limit_zero (self : t) (start current : Q) :
  daily_start_balance self = Some start ->
  start == 0 ->
  check_daily_loss_limit current self = (Raise ZeroDivisionError, self).
Proof.
  intros Hs Hz. unfold check_daily_loss_limit, bind, get, lift, ret.
  rewrite Hs. unfold py_div.
  apply Qeq_bool_iff in Hz. rewrite Hz. reflexivity.
Qed.

Lemma can_trade_zero (self : t) (start current : Q) :
  daily_start_balance self = Some start ->
  start == 0 ->
  can_trade current self = (Raise ZeroDivisionError, self).
Proof.
  intros Hs Hz. unfold can_trade, bind.
  rewrite (check_daily_loss_limit_zero self start current Hs Hz). reflexivity.
Qed.

(** What [set_daily_start_balance] leaves in the manager. *)
Lemma set_daily_start_balance_state (balance : Q) (self : t) :
  set_daily_start_balance balance self
  = (Return tt,
     mk (config self) (Some balance)
        (match max_drawdown_balance self with
         | None => Some balance
         | Some hwm => Some (py_max hwm balance)
         end)).
Proof.
  unfold set_daily_start_balance, bind, get, put. simpl.
  destruct (max_drawdown_balance self); reflexivity.
Qed.

(** The decision of [can_trade] in terms of the two floors. *)
Lemma can_trade_floors (self : t) (start hwm current : Q) :
  daily_start_balance self = Some start ->
  max_drawdown_balance self = Some hwm ->
  0 < start ->
  0 < hwm ->
  can_trade current self
  = (Return
       (if Qle_bool current
             (start * (1 - max_daily_loss_percent (config self) / 100))
        then (false, DailyLossLimitExceeded ((start - current) / start * 100))
        else if Qle_bool current
                  (hwm * (1 - max_drawdown_percent (config self) / 100))
        then (false, MaxDrawdownLimitExceeded ((hwm - current) / hwm * 100))
        else (true, Plain "All risk checks passed")), self).
Proof.
  intros Hs Hh Hsp Hhp.
  unfold can_trade, bind.
  rewrite (check_daily_loss_limit_set self start current Hs) by lra.
  rewrite negb_involutive.
  pose proof (percent_threshold start current
                (max_daily_loss_percent (config self)) Hsp) as Hd.
  pose proof (percent_threshold hwm current
                (max_drawdown_percent (config self)) Hhp) as Hm.
  unfold Qgeb.
  destruct (Qle_bool (max_daily_loss_percent (config self))
              ((start - current) / start * 100)) eqn:E1.
  - apply Qle_bool_iff in E1. apply Hd in E1.
    apply Qle_bool_iff in E1. rewrite E1. reflexivity.
  - assert (E1' : Qle_bool current
                    (start * (1 - max_daily_loss_percent (config self) / 100))
                  = false).
    { apply Qle_bool_gt. apply Qle_bool_gt in E1.
      destruct (Qlt_le_dec
                  (start * (1 - max_daily_loss_percent (config self) / 100))
                  current) as [H | H]; [exact H |].
      apply Hd in H. lra. }
    rewrite E1'.
    rewrite (check_max_drawdown_set self hwm current Hh) by lra.
    rewrite negb_involutive. unfold Qgeb.
    destruct (Qle_bool (max_drawdown_percent (config self))
                ((hwm - current) / hwm * 100)) eqn:E2.
    + apply Qle_bool_iff in E2. apply Hm in E2.
      apply Qle_bool_iff in E2. rewrite E2. reflexivity.
    + assert (E2' : Qle_bool current
                      (hwm * (1 - max_drawdown_percent (config self) / 100))
                    = false).
      { apply Qle_bool_gt. apply Qle_bool_gt in E2.
        destruct (Qlt_le_dec
                    (hwm * (1 - max_drawdown_percent (config self) / 100))
                    current) as [H | H]; [exact H |].
        apply Hm in H. lra. }
      rewrite E2'. reflexivity.
Qed.

(** [X4] With a positive daily start balance and a positive high-water
    mark, [can_trade] returns without changing the manager, and allows
    trading exactly when the balance is above both floors:
    start * (1 - max_daily_loss_percent/100) and
    high-water mark * (1 - max_drawdown_percent/100).  At or below the
    daily floor the reason is the daily loss limit, with the loss in percent
    of the start balance, whether or not the drawdown limit is hit as well;
    above the daily floor and at or below the drawdown floor the reason is
    the drawdown limit. *)
Theorem can_trade_thresholds (self : t) (start hwm current : Q) :
  daily_start_balance self = Some start ->
  max_drawdown_balance self = Some hwm ->
  0 < start ->
  0 < hwm ->
  let daily_floor := start * (1 - max_daily_loss_percent (config self) / 100) in
  let drawdown_floor := hwm * (1 - max_drawdown_percent (config self) / 100) in
  exists allowed why,
    can_trade current self = (Return (allowed, why), self) /\
    (allowed = true <-> daily_floor < current /\ drawdown_floor < current) /\
    (current <= daily_floor ->
     why = DailyLossLimitExceeded ((start - current) / start * 100)) /\
    (daily_floor < current -> current <= drawdown_floor ->
     why = MaxDrawdownLimitExceeded ((hwm - current) / hwm * 100)) /\
    (allowed = true -> why = Plain "All risk checks passed").
Proof.
  intros Hs Hh Hsp Hhp daily_floor drawdown_floor.
  rewrite (can_trade_floors self start hwm current Hs Hh Hsp Hhp).
  fold daily_floor. fold drawdown_floor.
  destruct (Qle_bool current daily_floor) eqn:E1;
    [apply Qle_bool_iff in E1 | apply Qle_bool_gt in E1].
  - do 2 eexists. split; [reflexivity |].
    split; [split; [discriminate | intros [H _]; lra] |].
    split; [reflexivity |].
    split; [intro H; lra | discriminate].
  - destruct (Qle_bool current drawdown_floor) eqn:E2;
      [apply Qle_bool_iff in E2 | apply Qle_bool_gt in E2].
    + do 2 eexists. split; [reflexivity |].
      split; [split; [discriminate | intros [_ H]; lra] |].
      split; [intro H; lra |].
      split; [reflexivity | discriminate].
    + do 2 eexists. split; [reflexivity |].
      split; [split; [intros _; split; assumption | reflexivity] |].
      split; [intro H; lra |].
      split; [intros _ H; lra | reflexivity].
Qed.

Lemma can_trade_thresholds_witness :
  exists allowed why,
    can_trade 9400 (sample_manager 10000 10400)
    = (Return (allowed, why), sample_manager 10000 10400) /\
    (allowed = true <->
     10000 * (1 - max_daily_loss_percent (config (sample_manager 10000 10400)) / 100)
     < 9400 /\
     10400 * (1 - max_drawdown_percent (config (sample_manager 10000 10400)) / 100)
     < 9400) /\
    (9400 <= 10000 * (1 - max_daily_loss_percent
                            (config (sample_manager 10000 10400)) / 100) ->
     why = DailyLossLimitExceeded ((10000 - 9400) / 10000 * 100)) /\
    (10000 * (1 - max_daily_loss_percent
                    (config (sample_manager 10000 10400)) / 100) < 9400 ->
     9400 <= 10400 * (1 - max_drawdown_percent
                            (config (sample_manager 10000 10400)) / 100) ->
     why = MaxDrawdownLimitExceeded ((10400 - 9400) / 10400 * 100)) /\
    (allowed = true -> why = Plain "All risk checks passed").
Proof.
  apply (can_trade_thresholds (sample_manager 10000 10400) 10000 10400 9400);
    reflexivity.
Defined.

(** [X5] A day that starts with a balance of 0 disables the gate by an
    exception instead of an answer: after [set_daily_start_balance(0)] the
    daily check, [can_trade] and [get_risk_summary] all raise
    ZeroDivisionError for every balance, whatever the high-water mark is.
    The summary's own divisions are guarded by the truth value of the
    balances; the exception comes from its call of [can_trade]. *)
Theorem zero_start_balance_raises (self : t) (balance current : Q) :
  balance == 0 ->
  let self' := snd (set_daily_start_balance balance self) in
  check_daily_loss_limit current self' = (Raise ZeroDivisionError, self') /\
  can_trade current self' = (Raise ZeroDivisionError, self') /\
  get_risk_summary current self' = (Raise ZeroDivisionError, self').
Proof.
  intros Hz self'.
  assert (Hs : daily_start_balance self' = Some balance).
  { unfold self'. rewrite set_daily_start_balance_state. reflexivity. }
  split; [exact (check_daily_loss_limit_zero self' balance current Hs Hz) |].
  pose proof (can_trade_zero self' balance current Hs Hz) as Hc.
  split; [exact Hc |].
  unfold get_risk_summary, bind, get, lift, ret.
  rewrite Hs. unfold truthy at 1.
  assert (Eb : Qeq_bool balance 0 = true) by (apply Qeq_bool_iff; exact Hz).
  rewrite Eb. cbn [negb].
  destruct (max_drawdown_balance self') as [h |] eqn:Eh; cbn [truthy].
  - destruct (Qeq_bool h 0) eqn:E0; cbn [negb].
    + rewrite Hc. reflexivity.
    + unfold py_div. rewrite E0. rewrite Hc. reflexivity.
  - rewrite Hc. reflexivity.
Qed.

Lemma zero_start_balance_raises_witness :
  check_daily_loss_limit 100
    (snd (set_daily_start_balance 0 (init sample_risk_config)))
  = (Raise ZeroDivisionError,
     snd (set_daily_start_balance 0 (init sample_risk_config))) /\
  can_trade 100 (snd (set_daily_start_balance 0 (init sample_risk_config)))
  = (Raise ZeroDivisionError,
     snd (set_daily_start_balance 0 (init sample_risk_config))) /\
  get_risk_summary 100
    (snd (set_daily_start_balance 0 (init sample_risk_config)))
  = (Raise ZeroDivisionError,
     snd (set_daily_start_balance 0 (init sample_risk_config))).
Proof.
  apply (zero_start_balance_raises (init sample_risk_config) 0 100).
  reflexivity.
Defined.

(** [X6] The morning routine, [set_daily_start_balance(equity)] followed by
    [can_trade(equity)] with a positive equity and a positive daily limit:
    the check returns, it is never the daily loss limit that refuses, on the
    first day trading is allowed when the drawdown limit is positive (as
    [RiskConfig.validate] requires), and on a later day it is allowed exactly
    when the equity is above the drawdown floor of the updated high-water
    mark max(previous mark, equity). *)
Theorem morning_check (self : t) (equity : Q) :
  0 < equity ->
  0 < max_daily_loss_percent (config self) ->
  let self' := snd (set_daily_start_balance equity self) in
  exists allowed why,
    can_trade equity self' = (Return (allowed, why), self') /\
    (forall loss, why <> DailyLossLimitExceeded loss) /\
    (max_drawdown_balance self = None ->
     0 < max_drawdown_percent (config self) -> allowed = true) /\
    (forall hwm, max_drawdown_balance self = Some hwm ->
       (allowed = true <->
        py_max hwm equity * (1 - max_drawdown_percent (config self) / 100)
        < equity)).
Proof.
  intros He Hl self'.
  assert (Hs : daily_start_balance self' = Some equity).
  { unfold self'. rewrite set_daily_start_balance_state. reflexivity. }
  assert (Hc : config self' = config self).
  { unfold self'. rewrite set_daily_start_balance_state. reflexivity. }
  set (mark := match max_drawdown_balance self with
               | None => equity
               | Some hwm => py_max hwm equity
               end).
  assert (Hm : max_drawdown_balance self' = Some mark).
  { unfold self', mark. rewrite set_daily_start_balance_state.
    destruct (max_drawdown_balance self); reflexivity. }
  assert (Hmark : equity <= mark).
  { unfold mark. destruct (max_drawdown_balance self) as [h |];
      [apply py_max_ge_r | lra]. }
  rewrite (can_trade_floors self' equity mark equity Hs Hm He) by lra.
  rewrite Hc.
  assert (Hfloor : equity * (1 - max_daily_loss_percent (config self) / 100)
                   < equity).
  { assert (H : 0 < equity * (max_daily_loss_percent (config self) / 100)).
    { apply Qmult_lt_0_compat; [exact He |]. apply Qlt_shift_div_l; lra. }
    set (l := max_daily_loss_percent (config self) / 100) in *. lra. }
  apply Qle_bool_gt in Hfloor. rewrite Hfloor.
  destruct (Qle_bool equity
              (mark * (1 - max_drawdown_percent (config self) / 100))) eqn:E2;
    [apply Qle_bool_iff in E2 | apply Qle_bool_gt in E2].
  - do 2 eexists. split; [reflexivity |].
    split; [discriminate |]. split.
    + intros Hn Hd. exfalso. unfold mark in E2. rewrite Hn in E2.
      assert (H : 0 < equity * (max_drawdown_percent (config self) / 100)).
      { apply Qmult_lt_0_compat; [exact He |]. apply Qlt_shift_div_l; lra. }
      set (l := max_drawdown_percent (config self) / 100) in *. lra.
    + intros hwm Hh. unfold mark in E2. rewrite Hh in E2.
      split; [discriminate | intro H; lra].
  - do 2 eexists. split; [reflexivity |].
    split; [discriminate |]. split; [reflexivity |].
    intros hwm Hh. unfold mark in E2. rewrite Hh in E2.
    split; [intros _; exact E2 | reflexivity].
Qed.

Lemma morning_check_witness :
  exists allowed why,
    can_trade 10000 (snd (set_daily_start_balance 10000 (sample_manager 9000 12000)))
    = (Return (allowed, why),
       snd (set_daily_start_balance 10000 (sample_manager 9000 12000))) /\
    (forall loss, why <> DailyLossLimitExceeded loss) /\
    (max_drawdown_balance (sample_manager 9000 12000) = None ->
     0 < max_drawdown_percent (config (sample_manager 9000 12000)) ->
     allowed = true) /\
    (forall hwm, max_drawdown_balance (sample_manager 9000 12000) = Some hwm ->
       (allowed = true <->
        py_max hwm 10000
        * (1 - max_drawdown_percent (config (sample_manager 9000 12000)) / 100)
        < 10000)).
Proof.
  apply (morning_check (sample_manager 9000 12000) 10000); reflexivity.
Defined.

(** [X7] With a positive daily start balance and a positive high-water
    mark, [get_risk_summary] returns without changing the manager, and its
    numbers agree with its verdict: the remaining daily allowance is
    max_daily_loss_percent minus the loss in percent, the remaining drawdown
    allowance is max_drawdown_percent minus the drawdown in percent, the
    verdict and reason are those of [can_trade], and trading is allowed
    exactly when both allowances are positive. *)
Theorem risk_summary_consistent (self : t) (start hwm current : Q) :
  daily_start_balance self = Some start ->
  max_drawdown_balance self = Some hwm ->
  0 < start ->
  0 < hwm ->
  exists s remaining_daily remaining_drawdown,
    get_risk_summary current self = (Return s, self) /\
    daily_pnl s = Some (current - start) /\
    daily_limit_remaining s = Some remaining_daily /\
    drawdown_limit_remaining s = Some remaining_drawdown /\
    remaining_daily
    == max_daily_loss_percent (config self) - (start - current) / start * 100 /\
    remaining_drawdown
    == max_drawdown_percent (config self) - (hwm - current) / hwm * 100 /\
    can_trade current self
    = (Return (summary_can_trade s, summary_can_trade_reason s), self) /\
    (summary_can_trade s = true <->
     0 < remaining_daily /\ 0 < remaining_drawdown).
Proof.
  intros Hs Hh Hsp Hhp.
  pose proof (percent_threshold start current
                (max_daily_loss_percent (config self)) Hsp) as Hd.
  pose proof (percent_threshold hwm current
                (max_drawdown_percent (config self)) Hhp) as Hm.
  assert (E1 : (current - start) / start * 100
               == - ((start - current) / start * 100)) by (field; lra).
  unfold get_risk_summary, bind, get, lift, ret.
  rewrite Hs, Hh. cbn [truthy].
  assert (Es : Qeq_bool start 0 = false).
  { destruct (Qeq_bool start 0) eqn:E; [| reflexivity].
    apply Qeq_bool_iff in E. lra. }
  assert (Eh : Qeq_bool hwm 0 = false).
  { destruct (Qeq_bool hwm 0) eqn:E; [| reflexivity].
    apply Qeq_bool_iff in E. lra. }
  rewrite Es, Eh. cbn [negb].
  rewrite (py_div_nonzero (current - start) start) by lra.
  rewrite (py_div_nonzero (hwm - current) hwm) by lra.
  rewrite (can_trade_floors self start hwm current Hs Hh Hsp Hhp).
  set (verdict := if Qle_bool current _ then _ else _).
  do 3 eexists. split; [reflexivity |].
  cbn [daily_pnl daily_limit_remaining drawdown_limit_remaining
       summary_can_trade summary_can_trade_reason].
  split; [reflexivity |]. split; [reflexivity |]. split; [reflexivity |].
  split; [rewrite E1; ring |]. split; [reflexivity |].
  split; [destruct verdict; reflexivity |].
  rewrite E1.
  set (loss := (start - current) / start * 100) in *.
  set (dd := (hwm - current) / hwm * 100) in *.
  subst verdict.
  destruct (Qle_bool current
              (start * (1 - max_daily_loss_percent (config self) / 100)))
    eqn:Ea; [apply Qle_bool_iff in Ea | apply Qle_bool_gt in Ea].
  - apply Hd in Ea. cbn [fst].
    split; [discriminate | intros [H _]; lra].
  - assert (Hl : loss < max_daily_loss_percent (config self)).
    { destruct (Qlt_le_dec loss (max_daily_loss_percent (config self)))
        as [H | H]; [exact H |].
      apply Hd in H. lra. }
    destruct (Qle_bool current
                (hwm * (1 - max_drawdown_percent (config self) / 100)))
      eqn:Eb; [apply Qle_bool_iff in Eb | apply Qle_bool_gt in Eb].
    + apply Hm in Eb. cbn [fst].
      split; [discriminate | intros [_ H]; lra].
    + assert (Hl2 : dd < max_drawdown_percent (config self)).
      { destruct (Qlt_le_dec dd (max_drawdown_percent (config self)))
          as [H | H]; [exact H |].
        apply Hm in H. lra. }
      cbn [fst]. split; [intros _; split; lra | reflexivity].
Qed.

Lemma risk_summary_consistent_witness :
  exists s remaining_daily remaining_drawdown,
    get_risk_summary 9800 (sample_manager 10000 10400)
    = (Return s, sample_manager 10000 10400) /\
    daily_pnl s = Some (9800 - 10000) /\
    daily_limit_remaining s = Some remaining_daily /\
    drawdown_limit_remaining s = Some remaining_drawdown /\
    remaining_daily
    == max_daily_loss_percent (config (sample_manager 10000 10400))
       - (10000 - 9800) / 10000 * 100 /\
    remaining_drawdown
    == max_drawdown_percent (config (sample_manager 10000 10400))
       - (10400 - 9800) / 10400 * 100 /\
    can_trade 9800 (sample_manager 10000 10400)
    = (Return (summary_can_trade s, summary_can_trade_reason s),
       sample_manager 10000 10400) /\
    (summary_can_trade s = true <->
     0 < remaining_daily /\ 0 < remaining_drawdown).
Proof.
  apply (risk_summary_consistent (sample_manager 10000 10400) 10000 10400 9800);
    reflexivity.
Defined.

End LossLimits.

(** ** Stock validation and the bracket order *)

Section BracketOrder.

Import RiskManager.

Lemma risk_validate_iff (c : RiskConfig) :
  Config.risk_validate c = true <-> valid_risk_config c.
Proof.
  unfold Config.risk_validate, valid_risk_config.
  destruct (Qltb 0 (max_position_size_percent c)) eqn:E1;
    [apply Qltb_lt in E1 | apply Qltb_ge in E1].
  2: { cbn. split; [discriminate | intros [[H _] _]; lra]. }
  destruct (Qle_bool (max_position_size_percent c) 100) eqn:E2;
    [apply Qle_bool_iff in E2 | apply Qle_bool_gt in E2].
  2: { cbn. split; [discriminate | intros [[_ H] _]; lra]. }
  destruct (Qltb 0 (max_daily_loss_percent c)) eqn:E3;
    [apply Qltb_lt in E3 | apply Qltb_ge in E3].
  2: { cbn. split; [discriminate | intros (_ & [H _] & _); lra]. }
  destruct (Qle_bool (max_daily_loss_percent c) 100) eqn:E4;
    [apply Qle_bool_iff in E4 | apply Qle_bool_gt in E4].
  2: { cbn. split; [discriminate | intros (_ & [_ H] & _); lra]. }
  destruct (Qltb 0 (max_drawdown_percent c)) eqn:E5;
    [apply Qltb_lt in E5 | apply Qltb_ge in E5].
  2: { cbn. split; [discriminate | intros (_ & _ & [H _] & _); lra]. }
  destruct (Qle_bool (max_drawdown_percent c) 100) eqn:E6;
    [apply Qle_bool_iff in E6 | apply Qle_bool_gt in E6].
  2: { cbn. split; [discriminate | intros (_ & _ & [_ H] & _); lra]. }
  cbn [andb negb].
  destruct (Qle_bool (min_stock_price c) 0) eqn:E7;
    [apply Qle_bool_iff in E7 | apply Qle_bool_gt in E7].
  { split; [discriminate | intros (_ & _ & _ & H & _); lra]. }
  destruct (Qle_bool (max_stock_price c) (min_stock_price c)) eqn:E8;
    [apply Qle_bool_iff in E8 | apply Qle_bool_gt in E8].
  { split; [discriminate | intros (_ & _ & _ & _ & H & _); lra]. }
  destruct (Qle_bool (min_daily_volume c) 0) eqn:E9;
    [apply Qle_bool_iff in E9 | apply Qle_bool_gt in E9].
  { split; [discriminate | intros (_ & _ & _ & _ & _ & H); lra]. }
  split; [intros _; repeat split; assumption | reflexivity].
Qed.

(** [X8] [validate_stock] always returns and leaves the manager as it was.
    It accepts exactly the prices in [min_stock_price, max_stock_price]
    whose volume, when one is given, is at least [min_daily_volume]; a
    price outside the range is reported before the volume is looked at; and
    under a configuration that [RiskConfig.validate] accepts every accepted
    price is positive. *)
Theorem validate_stock_accepts (self : t) (ticker : string) (price : Q)
    (volume : option Q) :
  exists ok why,
    validate_stock ticker price volume self = (Return (ok, why), self) /\
    (ok = true <->
     min_stock_price (config self) <= price <= max_stock_price (config self) /\
     match volume with
     | Some v => min_daily_volume (config self) <= v
     | None => True
     end) /\
    (ok = true <-> why = StockValidationPassed) /\
    (price < min_stock_price (config self) ->
     why = PriceBelowMinimum price (min_stock_price (config self))) /\
    (min_stock_price (config self) <= price ->
     max_stock_price (config self) < price ->
     why = PriceAboveMaximum price (max_stock_price (config self))) /\
    (Config.risk_validate (config self) = true -> ok = true -> 0 < price).
Proof.
  unfold validate_stock, bind, get, ret, Qgtb.
  destruct (Qltb price (min_stock_price (config self))) eqn:E1;
    [apply Qltb_lt in E1 | apply Qltb_ge in E1].
  { do 2 eexists. split; [reflexivity |].
    split; [split; [discriminate | intros [[H _] _]; lra] |].
    split; [split; discriminate |].
    split; [reflexivity |].
    split; [intros H; lra | discriminate]. }
  destruct (Qltb (max_stock_price (config self)) price) eqn:E2;
    [apply Qltb_lt in E2 | apply Qltb_ge in E2].
  { do 2 eexists. split; [reflexivity |].
    split; [split; [discriminate | intros [[_ H] _]; lra] |].
    split; [split; discriminate |].
    split; [intros H; lra |].
    split; [reflexivity | discriminate]. }
  assert (Hpos : Config.risk_validate (config self) = true -> 0 < price).
  { intro Hv. apply risk_validate_iff in Hv.
    destruct Hv as (_ & _ & _ & H & _). lra. }
  destruct volume as [v |].
  - destruct (Qltb v (min_daily_volume (config self))) eqn:E3;
      [apply Qltb_lt in E3 | apply Qltb_ge in E3].
    + do 2 eexists. split; [reflexivity |].
      split; [split; [discriminate | intros [_ H]; lra] |].
      split; [split; discriminate |].
      split; [intros H; lra |].
      split; [intros _ H; lra | discriminate].
    + do 2 eexists. split; [reflexivity |].
      split; [split; [intros _; repeat split; assumption | reflexivity] |].
      split; [split; reflexivity |].
      split; [intros H; lra |].
      split; [intros _ H; lra | intros Hv _; exact (Hpos Hv)].
  - do 2 eexists. split; [reflexivity |].
    split; [split; [intros _; repeat split; assumption | reflexivity] |].
    split; [split; reflexivity |].
    split; [intros H; lra |].
    split; [intros _ H; lra | intros Hv _; exact (Hpos Hv)].
Qed.

Lemma py_round2_near (x : Q) : x - 0.005 <= py_round2 x <= x + 0.005.
Proof.
  destruct (py_round2_rounds x) as [_ H].
  apply Qabs_Qle_condition in H. lra.
Qed.

(** [X9] For an entry price above 0.125 and a non-negative average gain the
    two prices of the bracket are in order: the stop-loss price is below
    the entry price and below the take-profit price.  The stop lies between
    80% and 92% of the entry price, up to the half cent of rounding, and the
    take-profit price is 1 + 0.9 * avg_gain times the entry price, up to the
    half cent of rounding. *)
Theorem bracket_prices_ordered (entry_price avg_gain avg_drawdown : Q) :
  1 # 8 < entry_price ->
  0 <= avg_gain ->
  calculate_stop_loss entry_price avg_drawdown < entry_price /\
  calculate_stop_loss entry_price avg_drawdown
  < calculate_take_profit entry_price avg_gain /\
  entry_price * 0.80 - 0.005 <= calculate_stop_loss entry_price avg_drawdown /\
  calculate_stop_loss entry_price avg_drawdown <= entry_price * 0.92 + 0.005 /\
  Qabs (calculate_take_profit entry_price avg_gain
        - entry_price * (1 + avg_gain * 0.90)) <= 0.005.
Proof.
  intros He Hg.
  unfold calculate_stop_loss, calculate_take_profit.
  pose proof (stop_loss_percent_band avg_drawdown) as [Hlo Hhi].
  set (pct := stop_loss_percent avg_drawdown) in *.
  pose proof (py_round2_near (entry_price * (1 + pct))) as [Hs1 Hs2].
  pose proof (py_round2_near (entry_price * (1 + avg_gain * 0.90))) as [Ht1 Ht2].
  assert (H1 : entry_price * (1 + pct) <= entry_price * 0.92).
  { assert (H : entry_price * (pct + 0.08) <= 0).
    { rewrite <- (Qmult_0_r entry_price).
      apply Qmult_le_l; lra. }
    lra. }
  assert (H2 : entry_price * 0.80 <= entry_price * (1 + pct)).
  { assert (H : 0 <= entry_price * (pct + 0.20))
      by (apply Qmult_le_0_compat; lra).
    lra. }
  assert (H3 : entry_price <= entry_price * (1 + avg_gain * 0.90)).
  { assert (H : 0 <= entry_price * (avg_gain * 0.90))
      by (apply Qmult_le_0_compat; lra).
    lra. }
  split; [lra |]. split; [lra |]. split; [lra |]. split; [lra |].
  apply Qabs_Qle_condition. lra.
Qed.

Lemma bracket_prices_ordered_witness :
  calculate_stop_loss 100 (-0.05) < 100 /\
  calculate_stop_loss 100 (-0.05) < calculate_take_profit 100 0.10 /\
  100 * 0.80 - 0.005 <= calculate_stop_loss 100 (-0.05) /\
  calculate_stop_loss 100 (-0.05) <= 100 * 0.92 + 0.005 /\
  Qabs (calculate_take_profit 100 0.10 - 100 * (1 + 0.10 * 0.90)) <= 0.005.
Proof.
  apply (bracket_prices_ordered 100 0.10 (-0.05)).
  - reflexivity.
  - vm_compute. discriminate.
Defined.

(** What a returned position size says, for a positive price. *)
Lemma position_size_result (self self' : t)
    (account_balance buying_power stock_price quantity capital : Q) :
  0 < stock_price ->
  calculate_position_size account_balance buying_power stock_price self
  = (Return (quantity, capital), self') ->
  let available := available_capital self account_balance buying_power in
  self' = self /\
  0 <= quantity /\
  (quantity == 0 \/
   0 < available /\
   capital = quantity * stock_price /\
   capital <= available + stock_price * (1 # 2000000) /\
   available - stock_price < capital).
Proof.
  intros Hp H available.
  rewrite calculate_position_size_eq in H. cbv zeta in H. fold available in H.
  destruct (Qle_bool available 0) eqn:E0.
  { injection H as <- <- <-.
    split; [reflexivity |]. split; [lra |].
    left. reflexivity. }
  apply Qle_bool_gt in E0.
  rewrite (py_div_nonzero available stock_price) in H by lra.
  rewrite py_div_nonzero in H
    by (apply (available_capital_balance self account_balance buying_power);
        exact E0).
  set (x := available / stock_price) in *.
  assert (Ex : x * stock_price == available) by (unfold x; field; lra).
  assert (Hx : 0 <= x) by (unfold x; apply Qle_shift_div_l; lra).
  injection H as Hq Hc Hs.
  split; [symmetry; exact Hs |].
  rewrite <- Hc, <- Hq.
  destruct (Qltb x 1) eqn:E1.
  - pose proof (round_half_even_floor (x * 1000000)) as [Hfl _].
    assert (H0 : (0 <= Qfloor (x * 1000000))%Z).
    { change 0%Z with (Qfloor 0). apply Qfloor_resp_le. lra. }
    assert (H2 : inject_Z 0 <= inject_Z (round_half_even (x * 1000000)))
      by (rewrite <- Zle_Qle; lia).
    change (inject_Z 0) with 0 in H2.
    assert (Hq0 : 0 <= py_round6 x).
    { unfold py_round6. apply Qle_shift_div_l; lra. }
    split; [exact Hq0 |]. right. split; [exact E0 |].
    split; [reflexivity |].
    pose proof (py_round6_near x) as Hn.
    apply Qabs_Qle_condition in Hn. destruct Hn as [Hn1 Hn2].
    assert (Ha : (py_round6 x - x) * stock_price
                 <= (1 # 2000000) * stock_price)
      by (apply Qmult_le_compat_r; lra).
    assert (Hb : - (1 # 2000000) * stock_price
                 <= (py_round6 x - x) * stock_price)
      by (apply Qmult_le_compat_r; lra).
    split; lra.
  - apply Qltb_ge in E1.
    destruct (py_int_bounds x Hx) as [Hlo Hhi].
    assert (Ha : inject_Z (py_int x) * stock_price <= x * stock_price)
      by (apply Qmult_le_compat_r; lra).
    assert (Hb : x * stock_price < (inject_Z (py_int x) + 1) * stock_price)
      by (apply Qmult_lt_compat_r; lra).
    split; [lra |]. right. split; [exact E0 |].
    split; [reflexivity |]. split; lra.
Qed.

(** What an accepting [validate_stock] says. *)
Lemma validate_stock_result (self self' : t) (ticker : string) (price : Q)
    (volume : option Q) (ok : bool) (why : verdict) :
  validate_stock ticker price volume self = (Return (ok, why), self') ->
  self' = self /\
  (ok = true ->
   min_stock_price (config self) <= price <= max_stock_price (config self)).
Proof.
  unfold validate_stock, bind, get, ret, Qgtb.
  destruct (Qltb price (min_stock_price (config self))) eqn:E1;
    [intro H; injection H as <- _ <-; split; [reflexivity | discriminate] |].
  destruct (Qltb (max_stock_price (config self)) price) eqn:E2;
    [intro H; injection H as <- _ <-; split; [reflexivity | discriminate] |].
  apply Qltb_ge in E1. apply Qltb_ge in E2.
  destruct volume as [v |]; [destruct (Qltb v _) |];
    intro H; injection H as <- _ <-; split; try reflexivity;
    first [discriminate | intros _; split; assumption].
Qed.

(** [X10] An order that [place_bracket_order] gets as far as submitting,
    under a configuration that [RiskConfig.validate] accepts: the risk gate
    allowed trading, the price is inside the configured range, the quantity
    is positive, the capital used is quantity * price and exceeds neither
    98% of the buying power nor the position limit by more than half a
    millionth of the price, and the bracket carries the manager's stop-loss
    and take-profit prices, which are in order when the price is above
    0.125 and the average gain is not negative. *)
Theorem submitted_order_respects_limits (risk : t) (account : Trader.AccountInfo)
    (price : option Q) (stock : Scoring.Analysis)
    (order : Trader.BracketOrder) (capital_used : Q) :
  Config.risk_validate (config risk) = true ->
  Trader.place_bracket_order (Some account) price stock risk
  = Some (order, capital_used) ->
  exists current_price why,
    price = Some current_price /\
    can_trade (Trader.equity account) risk = (Return (true, why), risk) /\
    min_stock_price (config risk) <= current_price <= max_stock_price (config risk) /\
    0 < Trader.qty order /\
    capital_used = Trader.qty order * current_price /\
    capital_used
    <= Trader.buying_power account * 0.98 + current_price * (1 # 2000000) /\
    capital_used
    <= Trader.equity account * (max_position_size_percent (config risk) / 100)
       + current_price * (1 # 2000000) /\
    Trader.symbol order = Scoring.a_ticker stock /\
    Trader.stop_loss_stop_price order
    = calculate_stop_loss current_price (Scoring.a_avg_drawdown stock) /\
    Trader.take_profit_limit_price order
    = calculate_take_profit current_price (Scoring.a_avg_gain stock) /\
    (1 # 8 < current_price -> 0 <= Scoring.a_avg_gain stock ->
     Trader.stop_loss_stop_price order < Trader.take_profit_limit_price order).
Proof.
  intros Hv.
  apply risk_validate_iff in Hv. destruct Hv as (_ & _ & _ & Hmin & _).
  unfold Trader.place_bracket_order, Trader.bracket_order, bind.
  pose proof (can_trade_reads (Trader.equity account) risk) as Hr.
  destruct (can_trade (Trader.equity account) risk) as [[[ok why] | e] risk1]
    eqn:Ec; cbn [fst snd catch] in *; [| discriminate].
  subst risk1.
  destruct ok; cbn [negb]; [| discriminate].
  destruct price as [p |]; cbn [truthy]; [| discriminate].
  destruct (Qeq_bool p 0) eqn:Ep; cbn [negb]; [discriminate |].
  destruct (validate_stock (Scoring.a_ticker stock) p None risk)
    as [[[valid why2] | e] risk2] eqn:Es; cbn [fst snd catch]; [| discriminate].
  destruct (validate_stock_result _ _ _ _ _ _ _ Es) as [-> Hrange].
  destruct valid; cbn [negb]; [| discriminate].
  specialize (Hrange eq_refl).
  assert (Hp : 0 < p) by lra.
  destruct (calculate_position_size (Trader.equity account)
              (Trader.buying_power account) p risk)
    as [[[quantity capital] | e] risk3] eqn:Eq; cbn [fst snd catch];
    [| discriminate].
  destruct (position_size_result _ _ _ _ _ _ _ Hp Eq)
    as (-> & Hq0 & Hq).
  destruct (Qeq_bool quantity 0) eqn:E0; cbn [fst snd catch]; [discriminate |].
  intro H. injection H as <- <-.
  cbn [Trader.qty Trader.symbol Trader.stop_loss_stop_price
       Trader.take_profit_limit_price].
  assert (Hnz : ~ quantity == 0).
  { intro H. apply Qeq_bool_iff in H. congruence. }
  destruct Hq as [Hq | (Ha & Hcap & Hle & _)]; [contradiction |].
  pose proof (available_capital_caps risk (Trader.equity account)
                (Trader.buying_power account)) as [Hc1 Hc2].
  exists p, why. split; [reflexivity |]. split; [reflexivity |].
  split; [exact Hrange |].
  split; [destruct (Qlt_le_dec 0 quantity) as [H | H]; [exact H |];
          exfalso; apply Hnz; lra |].
  split; [exact Hcap |]. split; [lra |]. split; [lra |].
  split; [reflexivity |]. split; [reflexivity |]. split; [reflexivity |].
  intros H8 Hg.
  unfold calculate_stop_loss, calculate_take_profit.
  pose proof (stop_loss_percent_band (Scoring.a_avg_drawdown stock)) as [Hlo Hhi].
  set (pct := stop_loss_percent (Scoring.a_avg_drawdown stock)) in *.
  pose proof (py_round2_near (p * (1 + pct))) as [Hs1 Hs2].
  pose proof (py_round2_near (p * (1 + Scoring.a_avg_gain stock * 0.90)))
    as [Ht1 Ht2].
  assert (H1 : p * (pct + 0.08) <= 0).
  { rewrite <- (Qmult_0_r p). apply Qmult_le_l; lra. }
  assert (H3 : 0 <= p * (Scoring.a_avg_gain stock * 0.90))
    by (apply Qmult_le_0_compat; lra).
  lra.
Qed.

Lemma submitted_order_respects_limits_witness :
  match Trader.place_bracket_order
          (Some (Trader.mkAccountInfo 10000 20000)) (Some 100) sample_analysis
          (sample_manager 10000 10000) with
  | Some (order, capital_used) =>
      exists current_price why,
        Some 100 = Some current_price /\
        can_trade 10000 (sample_manager 10000 10000)
        = (Return (true, why), sample_manager 10000 10000) /\
        min_stock_price (config (sample_manager 10000 10000)) <= current_price
        <= max_stock_price (config (sample_manager 10000 10000)) /\
        0 < Trader.qty order /\
        capital_used = Trader.qty order * current_price /\
        capital_used <= 20000 * 0.98 + current_price * (1 # 2000000) /\
        capital_used
        <= 10000 * (max_position_size_percent
                      (config (sample_manager 10000 10000)) / 100)
           + current_price * (1 # 2000000) /\
        Trader.symbol order = Scoring.a_ticker sample_analysis /\
        Trader.stop_loss_stop_price order
        = calculate_stop_loss current_price
            (Scoring.a_avg_drawdown sample_analysis) /\
        Trader.take_profit_limit_price order
        = calculate_take_profit current_price
            (Scoring.a_avg_gain sample_analysis) /\
        (1 # 8 < current_price -> 0 <= Scoring.a_avg_gain sample_analysis ->
         Trader.stop_loss_stop_price order
         < Trader.take_profit_limit_price order)
  | None => False
  end.
Proof.
  destruct (Trader.place_bracket_order
              (Some (Trader.mkAccountInfo 10000 20000)) (Some 100)
              sample_analysis (sample_manager 10000 10000))
    as [[order capital_used] |] eqn:E.
  - exact (submitted_order_respects_limits (sample_manager 10000 10000)
             (Trader.mkAccountInfo 10000 20000) (Some 100) sample_analysis
             order capital_used eq_refl E).
  - vm_compute in E. discriminate.
Defined.

End BracketOrder.

(** ** The trade simulator: exits *)

Section SimulatorExits.

Import Backtester.

(** How the loop over the hold window ends. *)
Lemma scan_inv (df : DataFrame) (take_profit stop_loss : Q) (days : list date)
    (found : option (date * Q * string)) :
  scan df take_profit stop_loss days = Return found ->
  scan_outcome df take_profit stop_loss days found.
Proof.
  revert found. induction days as [| d days IH]; intros found; simpl.
  - intro H. injection H as <-. intros d row [].
  - destruct (loc df d) as [row | e] eqn:Er; cbn [obind]; [| discriminate].
    unfold Qgeb.
    destruct (Qle_bool take_profit (bar_high row)) eqn:E1.
    { intro H. injection H as <-. apply Qle_bool_iff in E1.
      exists [], days, row. split; [reflexivity |].
      split; [intros d' row' [] |]. split; [exact Er |].
      left. auto. }
    apply Qle_bool_gt in E1.
    destruct (Qle_bool (bar_low row) stop_loss) eqn:E2.
    { intro H. injection H as <-. apply Qle_bool_iff in E2.
      exists [], days, row. split; [reflexivity |].
      split; [intros d' row' [] |]. split; [exact Er |].
      right. auto. }
    apply Qle_bool_gt in E2.
    intro H. specialize (IH found H).
    assert (Hq : forall rest, quiet df take_profit stop_loss rest ->
                              quiet df take_profit stop_loss (d :: rest)).
    { intros rest Hrest d' row' [<- | Hin] Hl.
      - rewrite Er in Hl. injection Hl as <-. split; assumption.
      - exact (Hrest d' row' Hin Hl). }
    destruct found as [[[d0 p0] w0] |]; simpl in *.
    + destruct IH as (before & after & row0 & -> & Hb & Hl & Hc).
      exists (d :: before), after, row0.
      split; [reflexivity |]. split; [apply Hq; exact Hb |].
      split; assumption.
    + apply Hq. exact IH.
Qed.

Lemma scan_first_stop (df : DataFrame) (take_profit stop_loss : Q)
    (before : list date) (d : date) (after : list date) (row : Bar) :
  quiet df take_profit stop_loss before ->
  loc df d = Return row ->
  bar_high row < take_profit ->
  bar_low row <= stop_loss ->
  (exists e, scan df take_profit stop_loss (before ++ d :: after) = Raise e) \/
  scan df take_profit stop_loss (before ++ d :: after)
  = Return (Some (d, stop_loss, "Stop loss hit"%string)).
Proof.
  intros Hq Hrow Hhigh Hlow.
  induction before as [| d0 before IH]; simpl.
  - right. rewrite Hrow. cbn [obind]. unfold Qgeb.
    apply Qle_bool_gt in Hhigh. rewrite Hhigh.
    apply Qle_bool_iff in Hlow. rewrite Hlow. reflexivity.
  - destruct (loc df d0) as [row0 | e] eqn:E0; cbn [obind].
    + destruct (Hq d0 row0 (or_introl eq_refl) E0) as [Hh Hl].
      unfold Qgeb.
      apply Qle_bool_gt in Hh. rewrite Hh.
      apply Qle_bool_gt in Hl. rewrite Hl.
      apply IH. intros d' row' Hin. apply Hq. right. exact Hin.
    + left. eexists. reflexivity.
Qed.

Lemma scan_quiet (df : DataFrame) (take_profit stop_loss : Q) (days : list date) :
  quiet df take_profit stop_loss days ->
  (exists e, scan df take_profit stop_loss days = Raise e) \/
  scan df take_profit stop_loss days = Return None.
Proof.
  intro Hq. induction days as [| d days IH]; simpl.
  - right. reflexivity.
  - destruct (loc df d) as [row | e] eqn:E0; cbn [obind].
    + destruct (Hq d row (or_introl eq_refl) E0) as [Hh Hl].
      unfold Qgeb.
      apply Qle_bool_gt in Hh. rewrite Hh.
      apply Qle_bool_gt in Hl. rewrite Hl.
      apply IH. intros d' row' Hin. apply Hq. right. exact Hin.
    + left. eexists. reflexivity.
Qed.

(** What a returned trade says about the run that produced it, the exit
    included. *)
Lemma simulate_frame_exit (df : DataFrame) (ticker : string) (entry : date)
    (take_profit_pct stop_loss_pct : Q) (hold_days : Z) (t : Trade) :
  simulate_frame df ticker entry take_profit_pct stop_loss_pct hold_days
  = Return (Some t) ->
  exists entry_row found,
    Backtester.ticker t = ticker /\
    resolve_entry df entry = Some (entry_date t) /\
    loc df (entry_date t) = Return entry_row /\
    entry_price t = bar_close entry_row /\
    take_profit_price t = entry_price t * (1 + take_profit_pct) /\
    stop_loss_price t = entry_price t * (1 + stop_loss_pct) /\
    pnl t = exit_price t - entry_price t /\
    pnl_percent t = pnl t / entry_price t * 100 /\
    future_dates df (entry_date t) hold_days <> [] /\
    scan df (take_profit_price t) (stop_loss_price t)
      (future_dates df (entry_date t) hold_days) = Return found /\
    match found with
    | Some e => e = (exit_date t, exit_price t, exit_reason t)
    | None =>
        exit_date t = last (future_dates df (entry_date t) hold_days) 0%Z /\
        exit_reason t = "Hold period expired"%string /\
        exists exit_row,
          loc df (exit_date t) = Return exit_row /\
          exit_price t = bar_close exit_row
    end.
Proof.
  unfold simulate_frame.
  destruct (resolve_entry df entry) as [e |]; [| discriminate].
  destruct (loc df e) as [entry_row | x] eqn:Er; cbn [obind]; [| discriminate].
  destruct (future_dates df e hold_days) as [| d ds] eqn:Ef; [discriminate |].
  destruct (scan df _ _ (d :: ds)) as [found | x] eqn:Es; cbn [obind];
    [| discriminate].
  destruct found as [[[xd xp] xr] |]; cbn [obind].
  - intro H. injection H as H. subst t. cbn.
    exists entry_row, (Some (xd, xp, xr)).
    rewrite Ef. repeat split; try assumption; try discriminate.
  - destruct (loc df (last (d :: ds) 0%Z)) as [exit_row | x] eqn:El;
      cbn [obind]; [| discriminate].
    intro H. injection H as H. subst t. cbn.
    exists entry_row, None.
    rewrite Ef. repeat split; try assumption; try discriminate.
    exists exit_row. split; [exact El | reflexivity].
Qed.

(** [X11] Every trade [simulate_trade] returns is of one of three kinds.  Take profit: it exits at the take-profit price on the first day
    of the hold window whose high reaches it, all earlier days being quiet.
    Stop loss: it exits at the stop-loss price on the first day whose low
    reaches the stop while its high stays below the target, all earlier
    days being quiet.  Expiry: every day of the window is quiet and it exits
    at the close of the last day of the window. *)
Theorem simulated_exit_kinds (client : StockHistoricalDataClient)
    (ticker : string) (entry : date) (take_profit_pct stop_loss_pct : Q)
    (hold_days : Z) (t : Trade) :
  simulate_trade (Some client) ticker entry take_profit_pct stop_loss_pct hold_days
  = Some t ->
  exists bars df,
    client (mkStockBarsRequest [ticker] (entry - 5) (entry + (hold_days + 10)))%Z
    = Return bars /\
    bars ticker = Some df /\
    let window := future_dates df (entry_date t) hold_days in
    let target := take_profit_price t in
    let stop := stop_loss_price t in
    (exit_reason t = "Take profit hit"%string /\
     exit_price t = target /\
     exists before after row,
       window = before ++ exit_date t :: after /\
       quiet df target stop before /\
       loc df (exit_date t) = Return row /\
       target <= bar_high row) \/
    (exit_reason t = "Stop loss hit"%string /\
     exit_price t = stop /\
     exists before after row,
       window = before ++ exit_date t :: after /\
       quiet df target stop before /\
       loc df (exit_date t) = Return row /\
       bar_high row < target /\ bar_low row <= stop) \/
    (exit_reason t = "Hold period expired"%string /\
     quiet df target stop window /\
     exit_date t = last window 0%Z /\
     exists row,
       loc df (exit_date t) = Return row /\ exit_price t = bar_close row).
Proof.
  intro Hs. apply simulate_trade_inv in Hs.
  destruct Hs as (bars & df & Hc & Hb & Hs).
  exists bars, df. split; [exact Hc |]. split; [exact Hb |].
  apply simulate_frame_exit in Hs.
  destruct Hs as (entry_row & found & _ & _ & _ & _ & _ & _ & _ & _ & _
                  & Hscan & Hfound).
  apply scan_inv in Hscan. cbv zeta.
  destruct found as [[[d p] w] |]; simpl in Hscan.
  - injection Hfound as -> -> ->.
    destruct Hscan as (before & after & row & Hw & Hq & Hl & [Hc1 | Hc2]).
    + destruct Hc1 as (Hh & Hp & Hr). left.
      split; [exact Hr |]. split; [exact Hp |].
      exists before, after, row. auto.
    + destruct Hc2 as (Hh & Hlow & Hp & Hr). right. left.
      split; [exact Hr |]. split; [exact Hp |].
      exists before, after, row. auto.
  - destruct Hfound as (Hd & Hr & row & Hl & Hp). right. right.
    split; [exact Hr |]. split; [exact Hscan |]. split; [exact Hd |].
    exists row. auto.
Qed.

Lemma simulated_exit_kinds_witness :
  match simulate_trade (Some (client_of quiet_then_stop)) "ACME" 0%Z 0.10
          (-0.08) 5 with
  | Some t =>
      exists bars df,
        client_of quiet_then_stop
          (mkStockBarsRequest ["ACME"%string] (0 - 5) (0 + (5 + 10)))%Z
        = Return bars /\
        bars "ACME"%string = Some df /\
        let window := future_dates df (entry_date t) 5 in
        let target := take_profit_price t in
        let stop := stop_loss_price t in
        (exit_reason t = "Take profit hit"%string /\
         exit_price t = target /\
         exists before after row,
           window = before ++ exit_date t :: after /\
           quiet df target stop before /\
           loc df (exit_date t) = Return row /\
           target <= bar_high row) \/
        (exit_reason t = "Stop loss hit"%string /\
         exit_price t = stop /\
         exists before after row,
           window = before ++ exit_date t :: after /\
           quiet df target stop before /\
           loc df (exit_date t) = Return row /\
           bar_high row < target /\ bar_low row <= stop) \/
        (exit_reason t = "Hold period expired"%string /\
         quiet df target stop window /\
         exit_date t = last window 0%Z /\
         exists row,
           loc df (exit_date t) = Return row /\ exit_price t = bar_close row)
  | None => False
  end.
Proof.
  destruct (simulate_trade (Some (client_of quiet_then_stop)) "ACME" 0%Z 0.10
              (-0.08) 5) as [t |] eqn:E.
  - exact (simulated_exit_kinds (client_of quiet_then_stop) "ACME" 0%Z 0.10
             (-0.08) 5 t E).
  - vm_compute in E. discriminate.
Defined.

(** [X12] On the first day of the hold window on which a trigger fires, if
    that day's high stays below the take-profit price and its low is at or
    below the stop-loss price, the simulator exits on that day at exactly
    the stop-loss price, entry_price * (1 + stop_loss_pct), with reason stop
    loss, and the P&L per share is the stop-loss price minus the entry
    price. *)
Theorem stop_loss_exit (client : StockHistoricalDataClient) (ticker : string)
    (entry : date) (take_profit_pct stop_loss_pct : Q) (hold_days : Z)
    (bars : BarSet) (df : DataFrame) (t : Trade)
    (before : list date) (d : date) (after : list date) (row : Bar) :
  client (mkStockBarsRequest [ticker] (entry - 5) (entry + (hold_days + 10)))%Z
  = Return bars ->
  bars ticker = Some df ->
  simulate_trade (Some client) ticker entry take_profit_pct stop_loss_pct hold_days
  = Some t ->
  future_dates df (entry_date t) hold_days = before ++ d :: after ->
  quiet df (take_profit_price t) (stop_loss_price t) before ->
  loc df d = Return row ->
  bar_high row < take_profit_price t ->
  bar_low row <= stop_loss_price t ->
  exit_date t = d /\
  exit_price t = stop_loss_price t /\
  stop_loss_price t = entry_price t * (1 + stop_loss_pct) /\
  exit_reason t = "Stop loss hit"%string /\
  pnl t = stop_loss_price t - entry_price t.
Proof.
  intros Hc Hb Hs Hf Hq Hrow Hhigh Hlow.
  apply simulate_trade_inv in Hs.
  destruct Hs as (bars' & df' & Hc' & Hb' & Hs).
  rewrite Hc in Hc'. injection Hc' as <-.
  rewrite Hb in Hb'. injection Hb' as <-.
  apply simulate_frame_exit in Hs.
  destruct Hs as (entry_row & found & _ & _ & _ & _ & _ & Hsl & Hpnl & _ & _
                  & Hscan & Hfound).
  rewrite Hf in Hscan.
  destruct (scan_first_stop df _ _ before d after row Hq Hrow Hhigh Hlow)
    as [[e He] | Hhit].
  - rewrite He in Hscan. discriminate.
  - rewrite Hhit in Hscan. injection Hscan as <-.
    injection Hfound as Hd Hx Hr.
    rewrite Hpnl, <- Hd, <- Hx, <- Hr.
    repeat split; try assumption; reflexivity.
Qed.

Lemma stop_loss_exit_witness :
  match simulate_trade (Some (client_of quiet_then_stop)) "ACME" 0%Z 0.10
          (-0.08) 5 with
  | Some t => exit_date t = 2%Z /\
              exit_price t = stop_loss_price t /\
              stop_loss_price t = entry_price t * (1 + -0.08) /\
              exit_reason t = "Stop loss hit"%string /\
              pnl t = stop_loss_price t - entry_price t
  | None => False
  end.
Proof.
  destruct (simulate_trade (Some (client_of quiet_then_stop)) "ACME" 0%Z 0.10
              (-0.08) 5) as [t |] eqn:E.
  - assert (Et : Some t = simulate_trade (Some (client_of quiet_then_stop))
                            "ACME" 0%Z 0.10 (-0.08) 5) by (symmetry; exact E).
    vm_compute in Et. injection Et as Et.
    apply (stop_loss_exit (client_of quiet_then_stop) "ACME" 0%Z 0.10 (-0.08) 5
             (fun _ => Some quiet_then_stop) quiet_then_stop t
             [1%Z] 2%Z [] (mkBar 2%Z 101 104 90 95 1000)).
    + reflexivity.
    + reflexivity.
    + exact E.
    + rewrite Et. reflexivity.
    + rewrite Et. intros d' row' [<- | []] Hl.
      vm_compute in Hl. injection Hl as <-.
      split; vm_compute; reflexivity.
    + reflexivity.
    + rewrite Et. vm_compute. reflexivity.
    + rewrite Et. vm_compute. discriminate.
  - vm_compute in E. discriminate.
Defined.

(** [X13] When no day of the hold window fires a trigger, the simulator
    exits on the last day of the window at that day's close, with reason
    hold period expired, and for a non-negative [hold_days] the window has
    at most [hold_days] days. *)
Theorem hold_period_expiry (client : StockHistoricalDataClient) (ticker : string)
    (entry : date) (take_profit_pct stop_loss_pct : Q) (hold_days : Z)
    (bars : BarSet) (df : DataFrame) (t : Trade) :
  client (mkStockBarsRequest [ticker] (entry - 5) (entry + (hold_days + 10)))%Z
  = Return bars ->
  bars ticker = Some df ->
  simulate_trade (Some client) ticker entry take_profit_pct stop_loss_pct hold_days
  = Some t ->
  quiet df (take_profit_price t) (stop_loss_price t)
    (future_dates df (entry_date t) hold_days) ->
  exit_date t = last (future_dates df (entry_date t) hold_days) 0%Z /\
  exit_reason t = "Hold period expired"%string /\
  (exists exit_row,
      loc df (exit_date t) = Return exit_row /\
      exit_price t = bar_close exit_row) /\
  ((0 <= hold_days)%Z ->
   (List.length (future_dates df (entry_date t) hold_days)
    <= Z.to_nat hold_days)%nat).
Proof.
  intros Hc Hb Hs Hq.
  apply simulate_trade_inv in Hs.
  destruct Hs as (bars' & df' & Hc' & Hb' & Hs).
  rewrite Hc in Hc'. injection Hc' as <-.
  rewrite Hb in Hb'. injection Hb' as <-.
  apply simulate_frame_exit in Hs.
  destruct Hs as (entry_row & found & _ & _ & _ & _ & _ & _ & _ & _ & _
                  & Hscan & Hfound).
  destruct (scan_quiet df _ _ _ Hq) as [[e He] | Hnone].
  - rewrite He in Hscan. discriminate.
  - rewrite Hnone in Hscan. injection Hscan as <-.
    destruct Hfound as (Hd & Hr & Hrow).
    split; [exact Hd |]. split; [exact Hr |]. split; [exact Hrow |].
    intro Hh. unfold future_dates, slice_to.
    apply Z.leb_le in Hh. rewrite Hh.
    rewrite length_firstn. lia.
Qed.

Lemma hold_period_expiry_witness :
  match simulate_trade (Some (client_of scenario_three)) "ACME" 0%Z 0.10
          (-0.08) 5 with
  | Some t =>
      exit_date t = last (future_dates scenario_three (entry_date t) 5) 0%Z /\
      exit_reason t = "Hold period expired"%string /\
      (exists exit_row,
          loc scenario_three (exit_date t) = Return exit_row /\
          exit_price t = bar_close exit_row) /\
      ((0 <= 5)%Z ->
       (List.length (future_dates scenario_three (entry_date t) 5)
        <= Z.to_nat 5)%nat)
  | None => False
  end.
Proof.
  destruct (simulate_trade (Some (client_of scenario_three)) "ACME" 0%Z 0.10
              (-0.08) 5) as [t |] eqn:E.
  - assert (Et : Some t = simulate_trade (Some (client_of scenario_three))
                            "ACME" 0%Z 0.10 (-0.08) 5) by (symmetry; exact E).
    vm_compute in Et. injection Et as Et.
    apply (hold_period_expiry (client_of scenario_three) "ACME" 0%Z 0.10 (-0.08) 5
             (fun _ => Some scenario_three) scenario_three t).
    + reflexivity.
    + reflexivity.
    + exact E.
    + rewrite Et. intros d' row' Hin Hl.
      vm_compute in Hin.
      repeat (destruct Hin as [<- | Hin];
              [vm_compute in Hl; injection Hl as <-;
               split; vm_compute; reflexivity |]).
      destruct Hin.
  - vm_compute in E. discriminate.
Defined.

End SimulatorExits.

(** ** The trade simulator: what a trade records *)

Section SimulatorTrades.

Import Backtester.

Lemma resolve_entry_spec (df : DataFrame) (entry d : date) :
  resolve_entry df entry = Some d -> (entry <= d)%Z /\ In d (index df).
Proof.
  unfold resolve_entry, in_index.
  destruct (existsb (Z.eqb entry) (index df)) eqn:E.
  - intro H. injection H as <-.
    apply existsb_exists in E. destruct E as (x & Hin & Hx).
    apply Z.eqb_eq in Hx. subst x. split; [lia | exact Hin].
  - destruct (filter (fun d0 => (entry <=? d0)%Z) (index df)) as [| x xs] eqn:Ef;
      [discriminate |].
    intro H. injection H as <-.
    assert (Hin : In x (filter (fun d0 => (entry <=? d0)%Z) (index df)))
      by (rewrite Ef; left; reflexivity).
    apply filter_In in Hin. destruct Hin as [Hin Hle].
    apply Z.leb_le in Hle. split; assumption.
Qed.

Lemma firstn_incl {A : Type} (n : nat) (l : list A) (x : A) :
  In x (firstn n l) -> In x l.
Proof.
  intro H. rewrite <- (firstn_skipn n l). apply in_or_app. left. exact H.
Qed.

Lemma slice_to_incl {A : Type} (l : list A) (n : Z) (x : A) :
  In x (slice_to l n) -> In x l.
Proof.
  unfold slice_to. destruct (0 <=? n)%Z; apply firstn_incl.
Qed.

Lemma future_dates_spec (df : DataFrame) (entry : date) (hold_days : Z) (d : date) :
  In d (future_dates df entry hold_days) -> (entry < d)%Z /\ In d (index df).
Proof.
  unfold future_dates. intro H. apply slice_to_incl in H.
  apply filter_In in H. destruct H as [Hin Hlt].
  apply Z.ltb_lt in Hlt. split; assumption.
Qed.

Lemma last_in {A : Type} (l : list A) (d : A) : l <> [] -> In (last l d) l.
Proof.
  induction l as [| a l IH]; [contradiction |].
  intros _. destruct l as [| b l]; [left; reflexivity |].
  right. apply IH. discriminate.
Qed.

(** The exit day of a returned trade is a day of its hold window. *)
Lemma exit_in_window (df : DataFrame) (ticker : string) (entry : date)
    (take_profit_pct stop_loss_pct : Q) (hold_days : Z) (t : Trade) :
  simulate_frame df ticker entry take_profit_pct stop_loss_pct hold_days
  = Return (Some t) ->
  In (exit_date t) (future_dates df (entry_date t) hold_days).
Proof.
  intro Hs. apply simulate_frame_exit in Hs.
  destruct Hs as (entry_row & found & _ & _ & _ & _ & _ & _ & _ & _ & Hne
                  & Hscan & Hfound).
  apply scan_inv in Hscan.
  destruct found as [[[d p] w] |]; simpl in Hscan.
  - injection Hfound as -> _ _.
    destruct Hscan as (before & after & row & -> & _).
    apply in_or_app. right. left. reflexivity.
  - destruct Hfound as (-> & _). apply last_in. exact Hne.
Qed.

(** [X14] What every returned trade records: it is for the requested
    ticker; it is entered on a trading day of the frame on or after the
    requested entry date; it exits on a later trading day, one of the days
    of its hold window; the hold period is not 0; its P&L per share is
    exit price minus entry price and its P&L percent is that divided by the
    entry price, times 100; and its two levels are the entry price moved by
    the two percentages. *)
Theorem simulated_trade_invariants (client : StockHistoricalDataClient)
    (ticker : string) (entry : date) (take_profit_pct stop_loss_pct : Q)
    (hold_days : Z) (t : Trade) :
  simulate_trade (Some client) ticker entry take_profit_pct stop_loss_pct hold_days
  = Some t ->
  exists bars df,
    client (mkStockBarsRequest [ticker] (entry - 5) (entry + (hold_days + 10)))%Z
    = Return bars /\
    bars ticker = Some df /\
    Backtester.ticker t = ticker /\
    (entry <= entry_date t)%Z /\
    In (entry_date t) (index df) /\
    (entry_date t < exit_date t)%Z /\
    In (exit_date t) (index df) /\
    In (exit_date t) (future_dates df (entry_date t) hold_days) /\
    hold_days <> 0%Z /\
    pnl t = exit_price t - entry_price t /\
    pnl_percent t = pnl t / entry_price t * 100 /\
    take_profit_price t = entry_price t * (1 + take_profit_pct) /\
    stop_loss_price t = entry_price t * (1 + stop_loss_pct).
Proof.
  intro Hs. apply simulate_trade_inv in Hs.
  destruct Hs as (bars & df & Hc & Hb & Hs).
  exists bars, df. split; [exact Hc |]. split; [exact Hb |].
  pose proof (exit_in_window _ _ _ _ _ _ _ Hs) as Hin.
  apply simulate_frame_exit in Hs.
  destruct Hs as (entry_row & found & Ht & Hr & _ & _ & Htp & Hsl & Hpnl & Hpct
                  & _).
  apply resolve_entry_spec in Hr. destruct Hr as [Hle Hidx].
  pose proof (future_dates_spec _ _ _ _ Hin) as [Hlt Hidx'].
  repeat split; try assumption.
  intros ->. unfold future_dates, slice_to in Hin. simpl in Hin. exact Hin.
Qed.

Lemma simulated_trade_invariants_witness :
  match simulate_trade (Some (client_of scenario_two)) "ACME" 0%Z 0.10
          (-0.08) 5 with
  | Some t =>
      exists bars df,
        client_of scenario_two
          (mkStockBarsRequest ["ACME"%string] (0 - 5) (0 + (5 + 10)))%Z
        = Return bars /\
        bars "ACME"%string = Some df /\
        Backtester.ticker t = "ACME"%string /\
        (0 <= entry_date t)%Z /\
        In (entry_date t) (index df) /\
        (entry_date t < exit_date t)%Z /\
        In (exit_date t) (index df) /\
        In (exit_date t) (future_dates df (entry_date t) 5) /\
        5%Z <> 0%Z /\
        pnl t = exit_price t - entry_price t /\
        pnl_percent t = pnl t / entry_price t * 100 /\
        take_profit_price t = entry_price t * (1 + 0.10) /\
        stop_loss_price t = entry_price t * (1 + -0.08)
  | None => False
  end.
Proof.
  destruct (simulate_trade (Some (client_of scenario_two)) "ACME" 0%Z 0.10
              (-0.08) 5) as [t |] eqn:E.
  - exact (simulated_trade_invariants (client_of scenario_two) "ACME" 0%Z 0.10
             (-0.08) 5 t E).
  - vm_compute in E. discriminate.
Defined.

(** [X15] When no trade is produced: without a market-data client; when
    the client's call fails; when the answer has no rows for the ticker;
    when the hold period is 0 days; and when the frame has no trading day
    after the requested entry date.  None of these raises. *)
Theorem no_trade_cases :
  (forall ticker entry take_profit_pct stop_loss_pct hold_days,
      simulate_trade None ticker entry take_profit_pct stop_loss_pct hold_days
      = None) /\
  (forall client ticker entry take_profit_pct stop_loss_pct hold_days e,
      client (mkStockBarsRequest [ticker] (entry - 5) (entry + (hold_days + 10)))%Z
      = Raise e ->
      simulate_trade (Some client) ticker entry take_profit_pct stop_loss_pct
        hold_days = None) /\
  (forall client ticker entry take_profit_pct stop_loss_pct hold_days bars,
      client (mkStockBarsRequest [ticker] (entry - 5) (entry + (hold_days + 10)))%Z
      = Return bars ->
      bars ticker = None \/ bars ticker = Some [] ->
      simulate_trade (Some client) ticker entry take_profit_pct stop_loss_pct
        hold_days = None) /\
  (forall client ticker entry take_profit_pct stop_loss_pct,
      simulate_trade (Some client) ticker entry take_profit_pct stop_loss_pct 0
      = None) /\
  (forall client ticker entry take_profit_pct stop_loss_pct hold_days bars df,
      client (mkStockBarsRequest [ticker] (entry - 5) (entry + (hold_days + 10)))%Z
      = Return bars ->
      bars ticker = Some df ->
      (forall d, In d (index df) -> (d <= entry)%Z) ->
      simulate_trade (Some client) ticker entry take_profit_pct stop_loss_pct
        hold_days = None).
Proof.
  split; [reflexivity |]. split; [| split; [| split]].
  - intros client ticker entry tp sl hold e Hc.
    unfold simulate_trade. rewrite Hc. reflexivity.
  - intros client ticker entry tp sl hold bars Hc [Hb | Hb];
      unfold simulate_trade; rewrite Hc; cbn [obind]; rewrite Hb; reflexivity.
  - intros client ticker entry tp sl.
    destruct (simulate_trade (Some client) ticker entry tp sl 0) as [t |] eqn:E;
      [| reflexivity].
    apply simulate_trade_inv in E. destruct E as (bars & df & _ & _ & Hs).
    apply exit_in_window in Hs.
    unfold future_dates, slice_to in Hs. simpl in Hs. contradiction.
  - intros client ticker entry tp sl hold bars df Hc Hb Hall.
    destruct (simulate_trade (Some client) ticker entry tp sl hold) as [t |] eqn:E;
      [| reflexivity].
    apply simulate_trade_inv in E. destruct E as (bars' & df' & Hc' & Hb' & Hs).
    rewrite Hc in Hc'. injection Hc' as <-.
    rewrite Hb in Hb'. injection Hb' as <-.
    pose proof (exit_in_window _ _ _ _ _ _ _ Hs) as Hin.
    apply future_dates_spec in Hin. destruct Hin as [Hlt Hidx].
    apply simulate_frame_exit in Hs.
    destruct Hs as (entry_row & found & _ & Hr & _).
    apply resolve_entry_spec in Hr. destruct Hr as [Hle _].
    specialize (Hall _ Hidx). lia.
Qed.

Lemma no_trade_cases_witness :
  simulate_trade None "ACME" 0%Z 0.10 (-0.08) 5 = None /\
  simulate_trade (Some (fun _ => Raise ProviderError)) "ACME" 0%Z 0.10 (-0.08) 5
  = None /\
  simulate_trade (Some (fun _ => Return (fun _ => None))) "ACME" 0%Z 0.10
    (-0.08) 5 = None /\
  simulate_trade (Some (client_of scenario_two)) "ACME" 0%Z 0.10 (-0.08) 0
  = None /\
  simulate_trade (Some (client_of scenario_two)) "ACME" 2%Z 0.10 (-0.08) 5
  = None.
Proof.
  destruct no_trade_cases as (H1 & H2 & H3 & H4 & H5).
  split; [apply H1 |]. split; [| split; [| split]].
  - apply (H2 _ _ _ _ _ _ ProviderError). reflexivity.
  - apply (H3 _ _ _ _ _ _ (fun _ => None)); [reflexivity | left; reflexivity].
  - apply H4.
  - apply (H5 _ _ _ _ _ _ (fun _ => Some scenario_two) scenario_two);
      [reflexivity | reflexivity |].
    intros d Hin. vm_compute in Hin.
    repeat (destruct Hin as [<- | Hin]; [lia |]). destruct Hin.
Defined.

(** [X16] With a positive entry price, a take-profit exit gains exactly
    take_profit_pct of the entry price (a win when the percentage is
    positive) and a stop-loss exit loses exactly stop_loss_pct of it (a
    loss when the percentage is negative); the P&L percent is the
    percentage times 100. *)
Theorem exit_reason_sign (client : StockHistoricalDataClient)
    (ticker : string) (entry : date) (take_profit_pct stop_loss_pct : Q)
    (hold_days : Z) (t : Trade) :
  simulate_trade (Some client) ticker entry take_profit_pct stop_loss_pct hold_days
  = Some t ->
  0 < entry_price t ->
  (exit_reason t = "Take profit hit"%string ->
   pnl t == entry_price t * take_profit_pct /\
   pnl_percent t == take_profit_pct * 100 /\
   (0 < take_profit_pct -> 0 < pnl t)) /\
  (exit_reason t = "Stop loss hit"%string ->
   pnl t == entry_price t * stop_loss_pct /\
   pnl_percent t == stop_loss_pct * 100 /\
   (stop_loss_pct < 0 -> pnl t < 0)).
Proof.
  intros Hs Hpos. apply simulate_trade_inv in Hs.
  destruct Hs as (bars & df & _ & _ & Hs).
  apply simulate_frame_exit in Hs.
  destruct Hs as (entry_row & found & _ & _ & _ & _ & Htp & Hsl & Hpnl & Hpct
                  & _ & Hscan & Hfound).
  apply scan_inv in Hscan.
  rewrite Hpct, Hpnl.
  destruct found as [[[d p] w] |]; simpl in Hscan.
  - injection Hfound as -> -> ->.
    destruct Hscan as (_ & _ & _ & _ & _ & _ & [(_ & Hp & Hr) | (_ & _ & Hp & Hr)]);
      rewrite Hr, Hp.
    + split; [intros _ | discriminate].
      rewrite Htp.
      split; [ring |]. split; [field; lra |].
      intro H.
      assert (H0 : 0 < entry_price t * take_profit_pct)
        by (apply Qmult_lt_0_compat; assumption).
      lra.
    + split; [discriminate | intros _].
      rewrite Hsl.
      split; [ring |]. split; [field; lra |].
      intro H.
      assert (H0 : 0 < entry_price t * - stop_loss_pct)
        by (apply Qmult_lt_0_compat; lra).
      lra.
  - destruct Hfound as (_ & Hr & _). rewrite Hr.
    split; discriminate.
Qed.

Lemma exit_reason_sign_witness :
  match simulate_trade (Some (client_of scenario_two)) "ACME" 0%Z 0.10
          (-0.08) 5 with
  | Some t =>
      (exit_reason t = "Take profit hit"%string ->
       pnl t == entry_price t * 0.10 /\
       pnl_percent t == 0.10 * 100 /\
       (0 < 0.10 -> 0 < pnl t)) /\
      (exit_reason t = "Stop loss hit"%string ->
       pnl t == entry_price t * -0.08 /\
       pnl_percent t == -0.08 * 100 /\
       (-0.08 < 0 -> pnl t < 0))
  | None => False
  end.
Proof.
  destruct (simulate_trade (Some (client_of scenario_two)) "ACME" 0%Z 0.10
              (-0.08) 5) as [t |] eqn:E.
  - apply (exit_reason_sign (client_of scenario_two) "ACME" 0%Z 0.10 (-0.08) 5 t E).
    assert (Et : Some t = simulate_trade (Some (client_of scenario_two))
                            "ACME" 0%Z 0.10 (-0.08) 5) by (symmetry; exact E).
    vm_compute in Et. injection Et as ->. reflexivity.
  - vm_compute in E. discriminate.
Defined.

End SimulatorTrades.

(** ** The ledger of a backtest *)

Section Ledger.

Import Backtester.

Lemma last_cons_default {A : Type} (a d : A) (l : list A) :
  last (a :: l) d = last l a.
Proof.
  revert a d. induction l as [| b l IH]; intros a d; [reflexivity |].
  change (last (a :: b :: l) d) with (last (b :: l) d).
  rewrite (IH b d), (IH b a). reflexivity.
Qed.

Lemma closing_capital_cons (start : Q) (e : Executed) (es : list Executed) :
  closing_capital start (e :: es) = closing_capital (capital_after e) es.
Proof. unfold closing_capital. simpl map. apply last_cons_default. Qed.

Lemma closing_capital_snoc (start : Q) (es : list Executed) (e : Executed) :
  closing_capital start (es ++ [e]) = capital_after e.
Proof.
  unfold closing_capital. rewrite map_app. simpl map. apply last_last.
Qed.

Lemma ledger_chain_snoc (start : Q) (es : list Executed) (e : Executed) :
  ledger_chain start es ->
  capital_before e = closing_capital start es ->
  position_size e = closing_capital start es * 0.85 ->
  shares e = position_size e / entry_price (result e) ->
  trade_pnl e = shares e * pnl (result e) ->
  capital_after e = closing_capital start es + trade_pnl e ->
  ledger_chain start (es ++ [e]).
Proof.
  revert start. induction es as [| x es IH]; intros start Hc H1 H2 H3 H4 H5.
  - simpl. unfold closing_capital in *. simpl in *. tauto.
  - simpl in Hc. destruct Hc as (Ha & Hb & Hc & Hd & He & Hrest).
    rewrite closing_capital_cons in H1, H2, H5.
    simpl. repeat split; try assumption.
    apply IH; assumption.
Qed.

(** The capital a ledger ends with is the starting capital plus the sum
    of the trades' P&L. *)
Lemma ledger_chain_total (start : Q) (es : list Executed) :
  ledger_chain start es ->
  closing_capital start es == start + total (map trade_pnl es).
Proof.
  revert start. induction es as [| e es IH]; intros start Hc.
  - unfold closing_capital. simpl. lra.
  - simpl in Hc. destruct Hc as (_ & _ & _ & _ & He & Hrest).
    rewrite closing_capital_cons. rewrite (IH _ Hrest). simpl. rewrite He. lra.
Qed.

(** The trading loop extends a ledger by at most one trade per stock. *)
Lemma trade_loop_ledger (alpaca_data : option StockHistoricalDataClient)
    (test_stocks : list TestStock) (start capital : Q) (trades : list Executed) :
  ledger_chain start trades ->
  closing_capital start trades = capital ->
  exists new,
    snd (trade_loop alpaca_data test_stocks capital trades) = trades ++ new /\
    (List.length new <= List.length test_stocks)%nat /\
    ledger_chain start (trades ++ new) /\
    fst (trade_loop alpaca_data test_stocks capital trades)
    = closing_capital start (trades ++ new) /\
    Forall (fun e => In (ticker (result e)) (map ts_ticker test_stocks)) new.
Proof.
  revert capital trades.
  induction test_stocks as [| stock rest IH]; intros capital trades Hc Hcap.
  - exists []. simpl. rewrite app_nil_r.
    split; [reflexivity |]. split; [lia |]. split; [exact Hc |].
    split; [symmetry; exact Hcap | constructor].
  - cbn [trade_loop].
    destruct (simulate_trade alpaca_data (ts_ticker stock) (ts_entry_date stock)
                (dict_get (ts_avg_gain stock) 0.10)
                (dict_get (ts_avg_drawdown stock) (-0.08) * 1.1) 5)
      as [r |] eqn:Es.
    + set (e := mkExecuted r (capital * 0.85 / entry_price r) (capital * 0.85)
                  (capital * 0.85 / entry_price r * pnl r) capital
                  (capital + capital * 0.85 / entry_price r * pnl r)).
      assert (Hc' : ledger_chain start (trades ++ [e])).
      { apply ledger_chain_snoc; try assumption; subst e; cbn;
          rewrite ?Hcap; reflexivity. }
      assert (Hcap' : closing_capital start (trades ++ [e])
                      = capital + capital * 0.85 / entry_price r * pnl r).
      { rewrite closing_capital_snoc. reflexivity. }
      destruct (IH _ _ Hc' Hcap') as (new & Hn & Hlen & Hch & Hfst & Hall).
      exists (e :: new).
      replace (trades ++ e :: new) with ((trades ++ [e]) ++ new)
        by (rewrite <- app_assoc; reflexivity).
      split; [exact Hn |]. split; [simpl; lia |]. split; [exact Hch |].
      split; [exact Hfst |].
      constructor.
      * left. subst e. cbn.
        destruct alpaca_data as [client |]; [| discriminate].
        apply simulate_trade_inv in Es. destruct Es as (bars & df & _ & _ & Hs).
        apply simulate_frame_exit in Hs.
        destruct Hs as (entry_row & found & Ht & _). symmetry. exact Ht.
      * eapply Forall_impl; [| exact Hall].
        intros a Ha. right. exact Ha.
    + destruct (IH _ _ Hc Hcap) as (new & Hn & Hlen & Hch & Hfst & Hall).
      exists new. split; [exact Hn |]. split; [simpl; lia |].
      split; [exact Hch |]. split; [exact Hfst |].
      eapply Forall_impl; [| exact Hall].
      intros a Ha. right. exact Ha.
Qed.

(** The complementary filters of wins and losses split the trades. *)
Lemma wins_losses_partition (trades : list Executed) :
  (List.length (filter is_win trades) + List.length (filter is_loss trades)
   = List.length trades)%nat.
Proof.
  induction trades as [| t ts IH]; [reflexivity |].
  simpl. unfold is_win at 1, is_loss at 1. unfold Qltb.
  destruct (Qle_bool (pnl (result t)) 0); simpl; lia.
Qed.

(** With a positive running maximum the unchecked loop of
    [backtest_strategy] computes what the checked loop computes. *)
Lemma trade_drawdown_loop_checked (ledger : list Q) (max_capital max_drawdown : Q) :
  0 < max_capital ->
  drawdown_loop ledger max_capital max_drawdown
  = Return (trade_drawdown_loop ledger max_capital max_drawdown).
Proof.
  revert max_capital max_drawdown.
  induction ledger as [| capital rest IH]; intros mc md Hpos; simpl.
  - reflexivity.
  - pose proof (py_max_ge_l mc capital) as Hge.
    rewrite py_div_nonzero by lra. cbn [obind].
    apply IH. lra.
Qed.

(** [backtest_strategy] returns a report for every input. *)
Lemma backtest_strategy_returns (alpaca_data : option StockHistoricalDataClient)
    (test_stocks : list TestStock) (initial : Q) :
  exists rep, backtest_strategy alpaca_data test_stocks initial = Return rep.
Proof.
  unfold backtest_strategy.
  destruct (trade_loop alpaca_data test_stocks initial []) as [capital ts].
  destruct ts as [| t ts]; [eexists; reflexivity |].
  rewrite py_div_len. cbn [obind].
  rewrite win_loss_statistics_returns. cbn [obind].
  destruct (trade_drawdown_loop (map capital_after (t :: ts)) initial 0)
    as [mc md].
  eexists. reflexivity.
Qed.

(** What a summary of [backtest_strategy] is made of. *)
Lemma backtest_strategy_inv (alpaca_data : option StockHistoricalDataClient)
    (test_stocks : list TestStock) (initial : Q) (s : Summary) :
  backtest_strategy alpaca_data test_stocks initial = Return (Results s) ->
  trades s <> [] /\
  trades s = snd (trade_loop alpaca_data test_stocks initial []) /\
  final_capital s = fst (trade_loop alpaca_data test_stocks initial []) /\
  initial_capital s = initial /\
  total_pnl s = final_capital s - initial /\
  total_pnl_percent s = total_pnl s / initial * 100 /\
  num_trades s = List.length (trades s) /\
  num_wins s = List.length (filter is_win (trades s)) /\
  num_losses s = List.length (filter is_loss (trades s)) /\
  win_rate s = len (filter is_win (trades s)) / len (trades s) * 100 /\
  max_drawdown s
  = snd (trade_drawdown_loop (map capital_after (trades s)) initial 0) * 100.
Proof.
  unfold backtest_strategy.
  destruct (trade_loop alpaca_data test_stocks initial []) as [capital ts].
  destruct ts as [| t ts]; [discriminate |].
  rewrite py_div_len. cbn [obind].
  rewrite win_loss_statistics_returns. cbn [obind].
  destruct (trade_drawdown_loop (map capital_after (t :: ts)) initial 0)
    as [mc md] eqn:Ed.
  intro H. injection H as <-. cbn [trades final_capital initial_capital
    total_pnl total_pnl_percent num_trades num_wins num_losses win_rate
    max_drawdown fst snd].
  split; [discriminate |].
  repeat split.
  rewrite Ed. reflexivity.
Qed.

(** [X17] The ledger of [backtest_strategy].  The method returns a report
    for every input, also for an initial capital of 0.  A report with
    results has at least one trade; there is at most one trade per stock of
    the list, each for a ticker of the list; every trade stakes 85% of the
    capital before it, buys position_size / entry_price shares, and the
    capital after it is the capital before plus shares * P&L per share;
    each trade starts from the capital the previous one ended with, the
    first from the initial capital; and the final capital is the capital
    after the last trade, which is the initial capital plus the sum of the
    trades' P&L. *)
Theorem backtest_ledger (alpaca_data : option StockHistoricalDataClient)
    (test_stocks : list TestStock) (initial : Q) :
  (exists rep, backtest_strategy alpaca_data test_stocks initial = Return rep) /\
  (forall s,
      backtest_strategy alpaca_data test_stocks initial = Return (Results s) ->
      trades s <> [] /\
      (num_trades s <= List.length test_stocks)%nat /\
      Forall (fun e => In (ticker (result e)) (map ts_ticker test_stocks))
        (trades s) /\
      ledger_chain initial (trades s) /\
      final_capital s = closing_capital initial (trades s) /\
      final_capital s == initial + total (map trade_pnl (trades s)) /\
      initial_capital s = initial /\
      total_pnl s = final_capital s - initial).
Proof.
  split; [apply backtest_strategy_returns |].
  intros s H. apply backtest_strategy_inv in H.
  destruct H as (Hne & Ht & Hf & Hi & Hp & _ & Hn & _).
  destruct (trade_loop_ledger alpaca_data test_stocks initial initial [] I eq_refl)
    as (new & Hs & Hlen & Hch & Hfst & Hall).
  simpl app in *. rewrite <- Ht in Hs. subst new.
  rewrite <- Hf in Hfst.
  split; [exact Hne |]. split; [rewrite Hn; exact Hlen |].
  split; [exact Hall |]. split; [exact Hch |]. split; [exact Hfst |].
  split; [| split; [exact Hi | exact Hp]].
  rewrite Hfst. apply ledger_chain_total. exact Hch.
Qed.

Lemma backtest_ledger_witness :
  match backtest_strategy (Some (client_of scenario_two)) sample_stocks 10000 with
  | Return (Results s) =>
      trades s <> [] /\
      (num_trades s <= List.length sample_stocks)%nat /\
      Forall (fun e => In (ticker (result e)) (map ts_ticker sample_stocks))
        (trades s) /\
      ledger_chain 10000 (trades s) /\
      final_capital s = closing_capital 10000 (trades s) /\
      final_capital s == 10000 + total (map trade_pnl (trades s)) /\
      initial_capital s = 10000 /\
      total_pnl s = final_capital s - 10000
  | _ => False
  end /\
  match backtest_strategy (Some (client_of scenario_two)) sample_stocks 0 with
  | Return (Results s) =>
      trades s <> [] /\ ledger_chain 0 (trades s) /\ final_capital s == 0
  | _ => False
  end.
Proof.
  split.
  - destruct (backtest_strategy (Some (client_of scenario_two)) sample_stocks 10000)
      as [[| s] | e] eqn:E.
    + vm_compute in E. discriminate.
    + exact (proj2 (backtest_ledger (Some (client_of scenario_two))
                      sample_stocks 10000) s E).
    + vm_compute in E. discriminate.
  - destruct (backtest_strategy (Some (client_of scenario_two)) sample_stocks 0)
      as [[| s] | e] eqn:E.
    + vm_compute in E. discriminate.
    + destruct (proj2 (backtest_ledger (Some (client_of scenario_two))
                         sample_stocks 0) s E)
        as (Hne & _ & _ & Hch & Hf & _).
      split; [exact Hne |]. split; [exact Hch |].
      rewrite Hf. vm_compute in E. injection E as <-. reflexivity.
    + vm_compute in E. discriminate.
Defined.

(** What a report of [calculate_statistics] is made of. *)
Lemma calculate_statistics_inv (self : FullBacktester.t) (s : Summary)
    (log : list (date * Q)) :
  FullBacktester.calculate_statistics self
  = Return (FullBacktester.Results s log) ->
  ~ FullBacktester.initial_capital self == 0 /\
  log = FullBacktester.daily_log self /\
  trades s = FullBacktester.trades self /\
  trades s <> [] /\
  final_capital s = FullBacktester.capital self /\
  initial_capital s = FullBacktester.initial_capital self /\
  num_trades s = List.length (trades s) /\
  num_wins s = List.length (filter is_win (trades s)) /\
  num_losses s = List.length (filter is_loss (trades s)) /\
  win_rate s = len (filter is_win (trades s)) / len (trades s) * 100 /\
  exists max_capital drawdown,
    drawdown_loop (map snd (FullBacktester.daily_log self))
      (FullBacktester.initial_capital self) 0
    = Return (max_capital, drawdown) /\
    max_drawdown s = drawdown * 100.
Proof.
  unfold FullBacktester.calculate_statistics.
  destruct (FullBacktester.trades self) as [| t ts] eqn:Et; [discriminate |].
  unfold py_div at 1.
  destruct (Qeq_bool (FullBacktester.initial_capital self) 0) eqn:E0;
    cbn [obind]; [discriminate |].
  rewrite py_div_len. cbn [obind].
  rewrite win_loss_statistics_returns. cbn [obind].
  destruct (drawdown_loop (map snd (FullBacktester.daily_log self))
              (FullBacktester.initial_capital self) 0)
    as [[mc md] | e] eqn:Ed; cbn [obind]; [| discriminate].
  intro H. injection H as <- <-. cbn [trades final_capital initial_capital
    num_trades num_wins num_losses win_rate max_drawdown].
  split; [intro H; apply Qeq_bool_iff in H; congruence |].
  split; [reflexivity |]. split; [reflexivity |]. split; [discriminate |].
  repeat split.
  exists mc, md. split; [first [exact Ed | reflexivity] | reflexivity].
Qed.

Lemma counters_of_trades (s : Summary) :
  trades s <> [] ->
  num_trades s = List.length (trades s) ->
  num_wins s = List.length (filter is_win (trades s)) ->
  num_losses s = List.length (filter is_loss (trades s)) ->
  win_rate s = len (filter is_win (trades s)) / len (trades s) * 100 ->
  counters_consistent s.
Proof.
  intros Hne Hn Hw Hl Hr. unfold counters_consistent.
  pose proof (wins_losses_partition (trades s)) as Hp.
  pose proof (filter_length_le is_win (trades s)) as Hle.
  destruct (trades s) as [| t ts] eqn:Et; [contradiction |].
  pose proof (len_cons_pos t ts) as Hpos.
  pose proof (len_nonneg (filter is_win (t :: ts))) as Hnn.
  assert (Hlen : len (filter is_win (t :: ts)) <= len (t :: ts)).
  { unfold len. rewrite <- Zle_Qle. apply inj_le. exact Hle. }
  split; [exact Hn |]. split; [rewrite Hn; simpl; lia |].
  split; [rewrite Hw, Hl, Hn; exact Hp |].
  split; [rewrite Hw; symmetry; apply count_if_filter |].
  split; [rewrite Hr, Hw, Hn; reflexivity |].
  rewrite Hr.
  set (w := len (filter is_win (t :: ts))) in *.
  set (n := len (t :: ts)) in *.
  assert (H0 : 0 <= w / n) by (apply Qle_shift_div_l; lra).
  assert (H1 : w / n <= 1) by (apply Qle_shift_div_r; lra).
  set (q := w / n) in *. split; lra.
Qed.

(** [X18] The counters of a report, in both backtests: a report with
    results has at least one trade, num_trades is the number of trades
    listed, every trade is counted either as a win (P&L per share above 0)
    or as a loss, never both, so that num_wins + num_losses = num_trades,
    and win_rate is num_wins / num_trades * 100, a number in [0, 100].  The
    report of the full backtest lists the backtester's own trades and
    daily log. *)
Theorem report_counters :
  (forall alpaca_data test_stocks initial s,
      backtest_strategy alpaca_data test_stocks initial = Return (Results s) ->
      counters_consistent s) /\
  (forall self s log,
      FullBacktester.calculate_statistics self
      = Return (FullBacktester.Results s log) ->
      counters_consistent s /\
      trades s = FullBacktester.trades self /\
      log = FullBacktester.daily_log self).
Proof.
  split.
  - intros client stocks initial s H. apply backtest_strategy_inv in H.
    destruct H as (Hne & _ & _ & _ & _ & _ & Hn & Hw & Hl & Hr & _).
    apply counters_of_trades; assumption.
  - intros self s log H. apply calculate_statistics_inv in H.
    destruct H as (_ & Hlog & Ht & Hne & _ & _ & Hn & Hw & Hl & Hr & _).
    split; [apply counters_of_trades; assumption |].
    split; assumption.
Qed.

Lemma report_counters_witness :
  match backtest_strategy (Some (client_of scenario_two)) sample_stocks 10000 with
  | Return (Results s) => counters_consistent s
  | _ => False
  end /\
  match FullBacktester.calculate_statistics sample_book with
  | Return (FullBacktester.Results s log) =>
      counters_consistent s /\
      trades s = FullBacktester.trades sample_book /\
      log = FullBacktester.daily_log sample_book
  | _ => False
  end.
Proof.
  destruct report_counters as [H1 H2]. split.
  - destruct (backtest_strategy (Some (client_of scenario_two)) sample_stocks 10000)
      as [[| s] | e] eqn:E.
    + vm_compute in E. discriminate.
    + exact (H1 _ _ _ _ E).
    + vm_compute in E. discriminate.
  - destruct (FullBacktester.calculate_statistics sample_book)
      as [[i f | s log] | e] eqn:E.
    + vm_compute in E. discriminate.
    + exact (H2 _ _ _ E).
    + vm_compute in E. discriminate.
Defined.

(** Over a ledger of non-negative capital values the running peak stays
    positive and the running drawdown stays a fraction. *)
Lemma drawdown_loop_range (ledger : list Q) (max_capital max_drawdown : Q) :
  0 < max_capital ->
  0 <= max_drawdown <= 1 ->
  Forall (fun c => 0 <= c) ledger ->
  exists peak drawdown,
    drawdown_loop ledger max_capital max_drawdown = Return (peak, drawdown) /\
    max_capital <= peak /\
    Forall (fun c => c <= peak) ledger /\
    max_drawdown <= drawdown <= 1.
Proof.
  revert max_capital max_drawdown.
  induction ledger as [| c rest IH]; intros mc md Hmc Hmd Hall.
  - exists mc, md. simpl. split; [reflexivity |]. split; [lra |].
    split; [constructor | lra].
  - inversion Hall as [| c' rest' Hc Hrest]; subst.
    simpl.
    pose proof (py_max_ge_l mc c) as Hl.
    pose proof (py_max_ge_r mc c) as Hr.
    set (m := py_max mc c) in *.
    rewrite py_div_nonzero by lra. cbn [obind].
    assert (Hd0 : 0 <= (m - c) / m) by (apply Qle_shift_div_l; lra).
    assert (Hd1 : (m - c) / m <= 1) by (apply Qle_shift_div_r; lra).
    set (d := (m - c) / m) in *.
    pose proof (py_max_ge_l md d) as Hl2.
    pose proof (py_max_ge_r md d) as Hr2.
    assert (Hle1 : py_max md d <= 1).
    { destruct (py_max_cases md d) as [[_ ->] | [_ ->]]; lra. }
    destruct (IH m (py_max md d)) as (peak & dd & Hrun & Hpk & Hfa & Hdd);
      [lra | split; lra | exact Hrest |].
    exists peak, dd. split; [exact Hrun |]. split; [lra |].
    split; [| lra].
    constructor; [lra | exact Hfa].
Qed.

(** [X19] The maximum drawdown of a report lies in [0, 100] percent
    whenever the initial capital is positive and the ledger it is computed
    from is never negative: the capital after each trade in
    [backtest_strategy], the capital logged each day in the full backtest;
    and then computing it never raises. *)
Theorem max_drawdown_range :
  (forall alpaca_data test_stocks initial s,
      0 < initial ->
      backtest_strategy alpaca_data test_stocks initial = Return (Results s) ->
      Forall (fun e => 0 <= capital_after e) (trades s) ->
      0 <= max_drawdown s <= 100) /\
  (forall self s log,
      0 < FullBacktester.initial_capital self ->
      FullBacktester.calculate_statistics self
      = Return (FullBacktester.Results s log) ->
      Forall (fun entry => 0 <= snd entry) (FullBacktester.daily_log self) ->
      0 <= max_drawdown s <= 100) /\
  (forall ledger initial,
      0 < initial ->
      Forall (fun c => 0 <= c) ledger ->
      exists peak drawdown,
        drawdown_loop ledger initial 0 = Return (peak, drawdown) /\
        initial <= peak /\ Forall (fun c => c <= peak) ledger /\
        0 <= drawdown <= 1).
Proof.
  assert (Hloop : forall ledger initial,
             0 < initial -> Forall (fun c => 0 <= c) ledger ->
             exists peak drawdown,
               drawdown_loop ledger initial 0 = Return (peak, drawdown) /\
               initial <= peak /\ Forall (fun c => c <= peak) ledger /\
               0 <= drawdown <= 1).
  { intros ledger initial Hi Hall.
    apply drawdown_loop_range; [exact Hi | lra | exact Hall]. }
  split; [| split; [| exact Hloop]].
  - intros client stocks initial s Hi H Hall.
    apply backtest_strategy_inv in H.
    destruct H as (_ & _ & _ & _ & _ & _ & _ & _ & _ & _ & ->).
    destruct (Hloop (map capital_after (trades s)) initial Hi)
      as (peak & dd & Hrun & _ & _ & Hdd).
    { apply Forall_map. exact Hall. }
    rewrite (trade_drawdown_loop_checked _ _ _ Hi) in Hrun.
    injection Hrun as Hrun. rewrite Hrun. cbn [snd]. lra.
  - intros self s log Hi H Hall.
    apply calculate_statistics_inv in H.
    destruct H as (_ & _ & _ & _ & _ & _ & _ & _ & _ & _ & mc & md & Hd & ->).
    destruct (Hloop (map snd (FullBacktester.daily_log self))
                (FullBacktester.initial_capital self) Hi)
      as (peak & dd & Hrun & _ & _ & Hdd).
    { apply Forall_map. exact Hall. }
    rewrite Hd in Hrun. injection Hrun as -> ->. lra.
Qed.

Lemma max_drawdown_range_witness :
  match FullBacktester.calculate_statistics sample_book with
  | Return (FullBacktester.Results s log) => 0 <= max_drawdown s <= 100
  | _ => False
  end /\
  exists peak drawdown,
    drawdown_loop [10850; 10112.2] 10000 0 = Return (peak, drawdown) /\
    10000 <= peak /\ Forall (fun c => c <= peak) [10850; 10112.2] /\
    0 <= drawdown <= 1.
Proof.
  destruct max_drawdown_range as (_ & H2 & H3). split.
  - destruct (FullBacktester.calculate_statistics sample_book)
      as [[i f | s log] | e] eqn:E.
    + vm_compute in E. discriminate.
    + apply (H2 sample_book s log); [reflexivity | exact E |].
      repeat constructor; vm_compute; discriminate.
    + vm_compute in E. discriminate.
  - apply H3; [reflexivity |].
    repeat constructor; vm_compute; discriminate.
Defined.

End Ledger.

(** ** Signs of the statistics *)

Section StatisticsSigns.

Import Scoring.

Lemma len_cons {A : Type} (x : A) (xs : list A) : len (x :: xs) == len xs + 1.
Proof.
  unfold len. simpl List.length.
  rewrite Nat2Z.inj_succ. unfold Z.succ. rewrite inject_Z_plus. reflexivity.
Qed.

(** The sum of a non-empty list of numbers above a bound is above the
    bound times their number; likewise below. *)
Lemma total_above_strict (b : Q) (xs : list Q) :
  Forall (fun x => b < x) xs -> xs <> [] -> b * len xs < total xs.
Proof.
  induction xs as [| x xs IH]; [contradiction |].
  intros Hall _. inversion Hall as [| x' xs' Hx Hxs]; subst.
  rewrite len_cons. simpl.
  destruct xs as [| y ys].
  - change (len (@nil Q)) with 0. simpl. lra.
  - assert (H : b * len (y :: ys) < total (y :: ys))
      by (apply IH; [exact Hxs | discriminate]).
    lra.
Qed.

Lemma total_below_strict (b : Q) (xs : list Q) :
  Forall (fun x => x < b) xs -> xs <> [] -> total xs < b * len xs.
Proof.
  induction xs as [| x xs IH]; [contradiction |].
  intros Hall _. inversion Hall as [| x' xs' Hx Hxs]; subst.
  rewrite len_cons. simpl.
  destruct xs as [| y ys].
  - change (len (@nil Q)) with 0. simpl. lra.
  - assert (H : total (y :: ys) < b * len (y :: ys))
      by (apply IH; [exact Hxs | discriminate]).
    lra.
Qed.

Lemma filter_Forall {A : Type} (p : A -> bool) (xs : list A) :
  Forall (fun x => p x = true) (filter p xs).
Proof.
  apply Forall_forall. intros x H. apply filter_In in H. tauto.
Qed.

Lemma price_statistics_signs (all_gains all_drawdowns : list Q)
    (st : PriceStatistics) :
  price_statistics all_gains all_drawdowns = Return st ->
  avg_drawdown st < 0 /\
  (avg_gain st = 0 \/ 0.01 < avg_gain st) /\
  (0 < frequency st <-> 0.01 < avg_gain st) /\
  (0 < frequency st <-> exists g, In g all_gains /\ 0.01 < g) /\
  (0 < price_score st <-> 0 < frequency st).
Proof.
  rewrite price_statistics_returns. intro H. injection H as <-.
  cbn [frequency avg_gain avg_drawdown price_score].
  set (pg := filter (fun g => Qgtb g 0.01) all_gains).
  set (nd := filter (fun d => Qltb d 0) all_drawdowns).
  assert (Hpg : Forall (fun g => 0.01 < g) pg).
  { eapply Forall_impl; [| apply filter_Forall].
    intros g Hg. apply Qltb_lt. exact Hg. }
  assert (Hnd : Forall (fun d => d < 0) nd).
  { eapply Forall_impl; [| apply filter_Forall].
    intros d Hd. apply Qltb_lt. exact Hd. }
  assert (Hd : match nd with
               | [] => -0.05
               | _ :: _ => py_sum nd / len nd
               end < 0).
  { destruct nd as [| d ds] eqn:E; [reflexivity |].
    pose proof (len_cons_pos d ds) as Hpos.
    pose proof (total_below_strict 0 (d :: ds) Hnd) as Hs.
    rewrite py_sum_total. apply Qlt_shift_div_r; [exact Hpos |].
    assert (Hs' : total (d :: ds) < 0 * len (d :: ds))
      by (apply Hs; discriminate).
    lra. }
  assert (Hg : match pg with
               | [] => True
               | _ :: _ => 0.01 < py_sum pg / len pg
               end).
  { destruct pg as [| g gs] eqn:E; [exact I |].
    pose proof (len_cons_pos g gs) as Hpos.
    pose proof (total_above_strict 0.01 (g :: gs) Hpg) as Hs.
    rewrite py_sum_total. apply Qlt_shift_div_l; [exact Hpos |].
    apply Hs. discriminate. }
  assert (Hf : 0 < match all_gains with
                   | [] => 0
                   | _ :: _ => len pg / len all_gains
                   end <-> pg <> []).
  { destruct all_gains as [| a rest] eqn:Ea.
    - subst pg. simpl. split; [intro H; lra | intro H; contradiction].
    - pose proof (len_cons_pos a rest) as Hpos.
      destruct pg as [| g gs] eqn:E.
      + change (len (@nil Q)) with 0.
        split; [| intro H; contradiction].
        intro H. exfalso.
        assert (E0 : 0 / len (a :: rest) == 0) by (field; lra).
        rewrite E0 in H. lra.
      + split; [intros _; discriminate | intros _].
        pose proof (len_cons_pos g gs) as Hpos2.
        apply Qlt_shift_div_l; lra. }
  split; [exact Hd |].
  split; [destruct pg; [left; reflexivity | right; exact Hg] |].
  split; [| split].
  - rewrite Hf. destruct pg as [| g gs].
    + split; [intro H; contradiction | intro H; lra].
    + split; [intros _; exact Hg | intros _; discriminate].
  - rewrite Hf. split.
    + intro Hne. destruct pg as [| g gs] eqn:E; [contradiction |].
      exists g.
      assert (Hin : In g pg) by (rewrite E; left; reflexivity).
      unfold pg in Hin. apply filter_In in Hin. destruct Hin as [Hin Hgt].
      apply Qltb_lt in Hgt. split; assumption.
    + intros (g & Hin & Hgt) E.
      assert (Hin' : In g pg).
      { unfold pg. apply filter_In. split; [exact Hin |].
        apply Qltb_lt. exact Hgt. }
      rewrite E in Hin'. destruct Hin'.
  - set (f := match all_gains with
              | [] => 0
              | _ :: _ => len pg / len all_gains
              end) in *.
    assert (Hf0 : 0 <= f).
    { unfold f. destruct all_gains as [| a rest]; [lra |].
      apply Qle_shift_div_l; [apply len_cons_pos |].
      pose proof (len_nonneg pg). lra. }
    split.
    + intro Hp. destruct (Qlt_le_dec 0 f) as [H | H]; [exact H |].
      assert (E0 : f == 0) by lra. rewrite E0 in Hp. lra.
    + intro Hpos. apply Qmult_lt_0_compat; [exact Hpos |].
      apply Hf in Hpos. destruct pg as [| g gs]; [contradiction | lra].
Qed.

(** [X20] Signs of the statistics.  The average drawdown is always
    negative (the mean of the negative drawdowns, or -0.05); the average
    gain is exactly 0 or above 0.01; the frequency is positive exactly when
    some sample gained more than 1%, which is exactly when the average gain
    is above 0.01 and exactly when the price score is positive.  Both
    analyses report statistics with these signs. *)
Theorem statistics_signs :
  (forall all_gains all_drawdowns,
      exists st,
        price_statistics all_gains all_drawdowns = Return st /\
        avg_drawdown st < 0 /\
        (avg_gain st = 0 \/ 0.01 < avg_gain st) /\
        (0 < frequency st <-> 0.01 < avg_gain st) /\
        (0 < frequency st <-> exists g, In g all_gains /\ 0.01 < g) /\
        (0 < price_score st <-> 0 < frequency st)) /\
  (forall finnhub_client ticker earnings_dates cutoff_date hist a,
      StockAnalyzer.analyze_stock_earnings finnhub_client ticker earnings_dates
        cutoff_date hist = Some a ->
      a_avg_drawdown a < 0 /\
      (a_avg_gain a = 0 \/ 0.01 < a_avg_gain a) /\
      (0 < a_frequency a <-> 0.01 < a_avg_gain a) /\
      (0 < a_price_score a <-> 0 < a_frequency a)) /\
  (forall alpaca_data finnhub_client ticker upcoming a,
      FullBacktester.analyze_stock_history alpaca_data finnhub_client ticker
        upcoming = Some a ->
      a_avg_drawdown a < 0 /\
      (a_avg_gain a = 0 \/ 0.01 < a_avg_gain a) /\
      (0 < a_frequency a <-> 0.01 < a_avg_gain a) /\
      (0 < a_price_score a <-> 0 < a_frequency a)).
Proof.
  split; [| split].
  - intros g d. eexists. split; [apply price_statistics_returns |].
    apply (price_statistics_signs g d). apply price_statistics_returns.
  - intros fc ticker eds cutoff hist a H.
    apply analyze_stock_earnings_inv in H.
    destruct H as (dates & st & _ & _ & _ & Hs & ->).
    apply price_statistics_signs in Hs. cbn. tauto.
  - intros client fc ticker upcoming a H.
    apply analyze_stock_history_inv in H.
    destruct H as (bars & df & st & _ & _ & _ & Hs & ->).
    apply price_statistics_signs in Hs. cbn. tauto.
Qed.

Lemma statistics_signs_witness :
  match StockAnalyzer.analyze_stock_earnings None "ACME"
          (Some sample_earnings_dates) 0%Z sample_hist with
  | Some a => a_avg_drawdown a < 0 /\
              (a_avg_gain a = 0 \/ 0.01 < a_avg_gain a) /\
              (0 < a_frequency a <-> 0.01 < a_avg_gain a) /\
              (0 < a_price_score a <-> 0 < a_frequency a)
  | None => False
  end /\
  match FullBacktester.analyze_stock_history sample_client None "ACME" 1000%Z with
  | Some a => a_avg_drawdown a < 0 /\
              (a_avg_gain a = 0 \/ 0.01 < a_avg_gain a) /\
              (0 < a_frequency a <-> 0.01 < a_avg_gain a) /\
              (0 < a_price_score a <-> 0 < a_frequency a)
  | None => False
  end.
Proof.
  destruct statistics_signs as (_ & H2 & H3).
  split.
  - destruct (StockAnalyzer.analyze_stock_earnings None "ACME"
                (Some sample_earnings_dates) 0%Z sample_hist) as [a |] eqn:E.
    + exact (H2 _ _ _ _ _ _ E).
    + vm_compute in E. discriminate.
  - destruct (FullBacktester.analyze_stock_history sample_client None "ACME" 1000%Z)
      as [a |] eqn:E.
    + exact (H3 _ _ _ _ _ E).
    + unfold FullBacktester.analyze_stock_history in E.
      rewrite past_earnings_dates_eq in E.
      vm_compute in E. discriminate.
Defined.

(** [X21] Without a Finnhub client, which is how the full backtest builds
    its analyzer, the fundamentals are the neutral defaults: the
    fundamental score is 0.5, the final score is 0.7 * price_score + 0.15
    and so at least 0.15, the EPS beat rate is 0.5, so the quality filter
    (beat rate below 0.3) never rejects, and two analyses compare by score
    exactly as they compare by price score. *)
Theorem neutral_fundamentals :
  (forall ticker,
      fundamental_score (get_fundamental_metrics None ticker) == 0.5) /\
  (forall alpaca_data ticker upcoming a,
      FullBacktester.analyze_stock_history alpaca_data None ticker upcoming
      = Some a ->
      a_eps_beat_rate a = 0.5 /\
      a_fundamental_score a == 0.5 /\
      a_score a == 0.7 * a_price_score a + 0.15 /\
      0.15 <= a_score a) /\
  (forall ticker earnings_dates cutoff_date hist a,
      StockAnalyzer.analyze_stock_earnings None ticker earnings_dates
        cutoff_date hist = Some a ->
      a_eps_beat_rate a = 0.5 /\
      a_fundamental_score a == 0.5 /\
      a_score a == 0.7 * a_price_score a + 0.15 /\
      0.15 <= a_score a) /\
  (forall alpaca_data ticker ticker' upcoming a b,
      FullBacktester.analyze_stock_history alpaca_data None ticker upcoming
      = Some a ->
      FullBacktester.analyze_stock_history alpaca_data None ticker' upcoming
      = Some b ->
      (a_score a < a_score b <-> a_price_score a < a_price_score b)).
Proof.
  assert (Hd : fundamental_score default_metrics == 0.5)
    by (vm_compute; reflexivity).
  assert (Hst : forall g d st ticker growth,
             price_statistics g d = Return st ->
             let a := analysis_of ticker st default_metrics growth in
             a_eps_beat_rate a = 0.5 /\
             a_fundamental_score a == 0.5 /\
             a_score a == 0.7 * a_price_score a + 0.15 /\
             0.15 <= a_score a).
  { intros g d st ticker growth Hs a. subst a. unfold analysis_of.
    cbn [a_eps_beat_rate a_fundamental_score a_score a_price_score].
    assert (Hp : 0 <= price_score st).
    { pose proof (frequency_bounds g d st Hs) as Hf.
      pose proof (avg_gain_nonneg g d st Hs) as Hg.
      rewrite price_statistics_returns in Hs. injection Hs as <-.
      cbn [price_score frequency avg_gain] in *.
      apply Qmult_le_0_compat; lra. }
    unfold final_score.
    split; [reflexivity |]. split; [exact Hd |].
    assert (E : 0.5 * 0.3 == 0.15) by reflexivity.
    split; rewrite Hd, E; lra. }
  split; [intro; exact Hd |]. split; [| split].
  - intros client ticker upcoming a H.
    apply analyze_stock_history_inv in H.
    destruct H as (bars & df & st & _ & _ & _ & Hs & ->).
    exact (Hst _ _ _ ticker None Hs).
  - intros ticker eds cutoff hist a H.
    apply analyze_stock_earnings_inv in H.
    destruct H as (dates & st & _ & _ & _ & Hs & ->).
    exact (Hst _ _ _ ticker _ Hs).
  - intros client ticker ticker' upcoming a b Ha Hb.
    apply analyze_stock_history_inv in Ha.
    destruct Ha as (bars & df & st & _ & _ & _ & Hs & ->).
    apply analyze_stock_history_inv in Hb.
    destruct Hb as (bars' & df' & st' & _ & _ & _ & Hs' & ->).
    destruct (Hst _ _ _ ticker None Hs) as (_ & _ & E1 & _).
    destruct (Hst _ _ _ ticker' None Hs') as (_ & _ & E2 & _).
    rewrite E1, E2. unfold analysis_of. cbn [a_price_score].
    clear. split; intro H; lra.
Qed.

Lemma neutral_fundamentals_witness :
  match FullBacktester.analyze_stock_history sample_client None "ACME" 1000%Z with
  | Some a => a_eps_beat_rate a = 0.5 /\
              a_fundamental_score a == 0.5 /\
              a_score a == 0.7 * a_price_score a + 0.15 /\
              0.15 <= a_score a
  | None => False
  end.
Proof.
  destruct neutral_fundamentals as (_ & H2 & _).
  destruct (FullBacktester.analyze_stock_history sample_client None "ACME" 1000%Z)
    as [a |] eqn:E.
  - exact (H2 _ _ _ _ E).
  - unfold FullBacktester.analyze_stock_history in E.
    rewrite past_earnings_dates_eq in E.
    vm_compute in E. discriminate.
Defined.

End StatisticsSigns.

(** ** Fundamental metrics *)

Section Fundamentals.

Import Scoring FundamentalMetrics.

(** A block that left the dictionary as it was. *)
Ltac kept := cbn [snd]; repeat split; auto.

(** The three blocks run one after the other on the same dictionary. *)
Lemma get_fundamental_metrics_blocks (client : Client) (ticker : string) :
  FundamentalMetrics.get_fundamental_metrics (Some client) ticker
  = snd (recommendation_block client ticker
           (snd (revenue_block client ticker
                   (snd (eps_block client ticker default_metrics))))).
Proof. reflexivity. Qed.

Lemma Qabs_nonzero (x : Q) : ~ x == 0 -> ~ Qabs x == 0.
Proof.
  intros Hx H. apply Hx.
  destruct (Qlt_le_dec x 0) as [Hn | Hp].
  - rewrite Qabs_neg in H by lra. lra.
  - rewrite Qabs_pos in H by lra. exact H.
Qed.

Lemma Qneqb_true (x : Q) : Qneqb x 0 = true -> ~ x == 0.
Proof.
  unfold Qneqb. intros H E. apply Qeq_bool_iff in E. rewrite E in H. discriminate.
Qed.

(** The loop over the reports never raises and counts the beats. *)
Lemma earnings_loop_returns (earnings : list Earning) (beats : Z)
    (surprises : list Q) :
  exists surprises',
    earnings_loop earnings beats surprises
    = Return ((beats + Z.of_nat (count_if is_beat earnings))%Z, surprises').
Proof.
  revert beats surprises.
  induction earnings as [| e rest IH]; intros beats surprises.
  - exists surprises. simpl. rewrite Z.add_0_r. reflexivity.
  - cbn [earnings_loop count_if]. unfold is_beat at 1.
    destruct (actual e) as [a |]; [| ].
    2: { destruct (IH beats surprises) as [s' Hs]. exists s'. exact Hs. }
    destruct (estimate e) as [s |].
    2: { destruct (IH beats surprises) as [s' Hs]. exists s'. exact Hs. }
    destruct (Qneqb s 0) eqn:En; cbn [andb].
    2: { destruct (IH beats surprises) as [s' Hs]. exists s'. exact Hs. }
    rewrite py_div_nonzero by (apply Qabs_nonzero, Qneqb_true; exact En).
    cbn [obind].
    destruct (Qgtb a s).
    + destruct (IH (beats + 1)%Z (surprises ++ [(a - s) / Qabs s * 100]))
        as [s' Hs].
      exists s'. rewrite Hs. f_equal. f_equal. lia.
    + destruct (IH beats (surprises ++ [(a - s) / Qabs s * 100])) as [s' Hs].
      exists s'. exact Hs.
Qed.

(** What the first block leaves in the dictionary. *)
Lemma eps_block_result (client : Client) (ticker : string) (m : Fundamentals) :
  let m' := snd (eps_block client ticker m) in
  revenue_growth_trend m' = revenue_growth_trend m /\
  analyst_score m' = analyst_score m /\
  match company_earnings client ticker with
  | Return (e :: rest) =>
      eps_beat_rate m'
      = inject_Z (Z.of_nat (count_if is_beat (e :: rest))) / len (e :: rest)
  | _ => eps_beat_rate m' = eps_beat_rate m /\
         avg_eps_surprise_pct m' = avg_eps_surprise_pct m
  end.
Proof.
  unfold eps_block, bind, lift, ret, modify.
  destruct (company_earnings client ticker) as [[| e rest] | x]; cbn [snd];
    [tauto | | tauto].
  destruct (earnings_loop_returns (e :: rest) 0 []) as [s' Hs].
  rewrite Hs. cbn [Z.add snd]. rewrite py_div_len. cbn [snd].
  destruct s' as [| y ys]; cbn [snd].
  - unfold set_eps_beat_rate. cbn [eps_beat_rate revenue_growth_trend analyst_score].
    tauto.
  - rewrite py_div_len. cbn [snd].
    unfold set_eps_beat_rate, set_avg_eps_surprise_pct.
    cbn [eps_beat_rate revenue_growth_trend analyst_score avg_eps_surprise_pct].
    tauto.
Qed.

Lemma count_if_le {A : Type} (p : A -> bool) (xs : list A) :
  (count_if p xs <= List.length xs)%nat.
Proof. rewrite count_if_filter. apply filter_length_le. Qed.

Lemma eps_beat_rate_range (client : Client) (ticker : string) (m : Fundamentals) :
  0 <= eps_beat_rate m <= 1 ->
  0 <= eps_beat_rate (snd (eps_block client ticker m)) <= 1.
Proof.
  intro Hm.
  destruct (eps_block_result client ticker m) as (_ & _ & H).
  destruct (company_earnings client ticker) as [[| e rest] | x].
  - destruct H as [-> _]. exact Hm.
  - rewrite H.
    pose proof (len_cons_pos e rest) as Hpos.
    pose proof (count_if_le is_beat (e :: rest)) as Hle.
    assert (H0 : 0 <= inject_Z (Z.of_nat (count_if is_beat (e :: rest)))).
    { change 0 with (inject_Z 0). rewrite <- Zle_Qle. lia. }
    assert (H1 : inject_Z (Z.of_nat (count_if is_beat (e :: rest)))
                 <= len (e :: rest)).
    { unfold len. rewrite <- Zle_Qle. lia. }
    split; [apply Qle_shift_div_l | apply Qle_shift_div_r]; lra.
  - destruct H as [-> _]. exact Hm.
Qed.

(** The loop over consecutive quarters never raises. *)
Lemma growth_loop_returns (revenues growth_rates : list Q) :
  exists rates, growth_loop revenues growth_rates = Return rates.
Proof.
  revert growth_rates.
  induction revenues as [| current rest IH]; intro growth_rates.
  - eexists. reflexivity.
  - cbn [growth_loop]. destruct rest as [| previous rest'].
    + eexists. reflexivity.
    + destruct (Qneqb previous 0) eqn:En.
      * rewrite py_div_nonzero by (apply Qabs_nonzero, Qneqb_true; exact En).
        cbn [obind]. apply IH.
      * apply IH.
Qed.

(** What the second block leaves in the dictionary. *)
Lemma revenue_block_result (client : Client) (ticker : string) (m : Fundamentals) :
  let m' := snd (revenue_block client ticker m) in
  eps_beat_rate m' = eps_beat_rate m /\
  avg_eps_surprise_pct m' = avg_eps_surprise_pct m /\
  analyst_score m' = analyst_score m /\
  (revenue_growth_trend m' = revenue_growth_trend m \/
   0 <= revenue_growth_trend m' <= 1) /\
  (match company_basic_financials client ticker with
   | Return (Some revenue_data) =>
       (List.length revenue_data < 2)%nat \/
       (exists r, In r revenue_data /\ period r = None)
   | _ => True
   end ->
   revenue_growth_trend m' = revenue_growth_trend m).
Proof.
  unfold revenue_block, bind, lift, ret, modify.
  destruct (company_basic_financials client ticker) as [[revenue_data |] | x];
    cbn [snd]; [| kept | kept].
  destruct (Nat.leb_spec 2 (List.length revenue_data)) as [Hge | Hlt];
    cbn [snd]; [| kept].
  destruct (period_keys revenue_data) as [keyed | x] eqn:Ek; cbn [snd];
    [| kept].
  assert (Hkeys : forall r, In r revenue_data -> period r <> None).
  { clear Hge. revert keyed Ek.
    induction revenue_data as [| r0 rest IH]; intros keyed Ek r Hin;
      [destruct Hin |].
    cbn [period_keys] in Ek.
    destruct (period r0) as [p |] eqn:Ep; [| discriminate].
    destruct (period_keys rest) as [k |] eqn:Ek'; cbn [obind] in Ek;
      [| discriminate].
    destruct Hin as [<- | Hin]; [congruence |].
    exact (IH k eq_refl r Hin). }
  assert (Hno : ~ ((List.length revenue_data < 2)%nat \/
                   (exists r, In r revenue_data /\ period r = None))).
  { intros [H | (r & Hin & Hp)]; [lia |]. exact (Hkeys r Hin Hp). }
  set (revenues := values _).
  destruct (Nat.leb_spec 2 (List.length revenues)) as [Hge2 | Hlt2];
    cbn [snd]; [| kept].
  destruct (growth_loop_returns revenues []) as [rates Hr]. rewrite Hr.
  cbn [snd].
  destruct rates as [| g gs]; cbn [snd]; [kept |].
  rewrite py_div_len. cbn [snd].
  set (avg := py_sum (g :: gs) / len (g :: gs)).
  unfold Qgtb.
  destruct (Qltb 0 avg) eqn:Ea; cbn [snd]; unfold set_revenue_growth_trend;
    cbn [eps_beat_rate avg_eps_surprise_pct revenue_growth_trend analyst_score].
  - apply Qltb_lt in Ea.
    split; [reflexivity |]. split; [reflexivity |]. split; [reflexivity |].
    split; [| intro H; contradiction]. right.
    destruct (py_min_cases (0.5 + avg * 2.5) 1.0) as [[H ->] | [H ->]]; lra.
  - apply Qltb_ge in Ea.
    split; [reflexivity |]. split; [reflexivity |]. split; [reflexivity |].
    split; [| intro H; contradiction]. right.
    destruct (py_max_cases (0.5 + avg * 2.5) 0.0) as [[H ->] | [H ->]]; lra.
Qed.

(** What the third block leaves in the dictionary. *)
Lemma recommendation_block_result (client : Client) (ticker : string)
    (m : Fundamentals) :
  let m' := snd (recommendation_block client ticker m) in
  eps_beat_rate m' = eps_beat_rate m /\
  avg_eps_surprise_pct m' = avg_eps_surprise_pct m /\
  revenue_growth_trend m' = revenue_growth_trend m /\
  match recommendation_trends client ticker with
  | Return (recent :: _) =>
      analyst_score m' = analyst_score m \/
      (counts_nonneg recent -> 0 <= analyst_score m' <= 1)
  | _ => analyst_score m' = analyst_score m
  end.
Proof.
  unfold recommendation_block, bind, lift, ret, modify.
  destruct (recommendation_trends client ticker) as [[| recent rest] | x];
    cbn [snd]; [kept | | kept].
  cbv zeta.
  set (sb := count (strongBuy recent)).
  set (b := count (FundamentalMetrics.buy recent)).
  set (h := count (FundamentalMetrics.hold recent)).
  set (s := count (FundamentalMetrics.sell recent)).
  set (ss := count (strongSell recent)).
  unfold Qgtb.
  destruct (Qltb 0 (sb + b + h + s + ss)) eqn:Et; cbn [snd]; [| kept].
  apply Qltb_lt in Et.
  rewrite py_div_nonzero by lra. cbn [snd]. unfold set_analyst_score.
  cbn [eps_beat_rate avg_eps_surprise_pct revenue_growth_trend analyst_score].
  split; [reflexivity |]. split; [reflexivity |]. split; [reflexivity |].
  right. intros (H1 & H2 & H3 & H4 & H5).
  fold sb in H1. fold b in H2. fold h in H3. fold s in H4. fold ss in H5.
  split; [apply Qle_shift_div_l | apply Qle_shift_div_r]; lra.
Qed.

(** [X22] The metrics [get_fundamental_metrics] derives from the
    provider's answers, whatever they are and whether or not the calls
    fail: the EPS beat rate and the revenue growth trend always lie in
    [0, 1]; the analyst score lies in [0, 1] when the counts of the most
    recent recommendation are not negative, and then so does the
    fundamental score computed from the metrics.  The method never
    raises. *)
Theorem fundamental_metrics_ranges (finnhub_client : option Client)
    (ticker : string) :
  let m := FundamentalMetrics.get_fundamental_metrics finnhub_client ticker in
  0 <= eps_beat_rate m <= 1 /\
  0 <= revenue_growth_trend m <= 1 /\
  ((forall client recent rest,
       finnhub_client = Some client ->
       recommendation_trends client ticker = Return (recent :: rest) ->
       counts_nonneg recent) ->
   0 <= analyst_score m <= 1 /\ 0 <= fundamental_score m <= 1).
Proof.
  intro m.
  assert (Hscore : 0 <= eps_beat_rate m <= 1 ->
                   0 <= revenue_growth_trend m <= 1 ->
                   0 <= analyst_score m <= 1 ->
                   0 <= fundamental_score m <= 1).
  { intros He Hr Ha. unfold fundamental_score.
    pose proof (normalized_eps_surprise_bounds m) as Hn.
    set (n := normalized_eps_surprise m) in *. lra. }
  destruct finnhub_client as [client |].
  2: { subst m. cbn.
       assert (H1 : 0 <= 0.5 <= 1) by lra.
       split; [exact H1 |]. split; [exact H1 |].
       intros _. split; [exact H1 |]. apply Hscore; exact H1. }
  subst m. rewrite get_fundamental_metrics_blocks in *.
  set (m1 := snd (eps_block client ticker default_metrics)) in *.
  set (m2 := snd (revenue_block client ticker m1)) in *.
  set (m3 := snd (recommendation_block client ticker m2)) in *.
  assert (H1 : 0 <= eps_beat_rate m1 <= 1).
  { apply eps_beat_rate_range. cbn. lra. }
  destruct (eps_block_result client ticker default_metrics) as (Hr1 & Ha1 & _).
  fold m1 in Hr1, Ha1. cbn in Hr1, Ha1.
  destruct (revenue_block_result client ticker m1) as (He2 & _ & Ha2 & Hr2 & _).
  fold m2 in He2, Ha2, Hr2.
  destruct (recommendation_block_result client ticker m2) as (He3 & _ & Hr3 & Ha3).
  fold m3 in He3, Hr3, Ha3.
  assert (He : 0 <= eps_beat_rate m3 <= 1) by (rewrite He3, He2; exact H1).
  assert (Hr : 0 <= revenue_growth_trend m3 <= 1).
  { rewrite Hr3. destruct Hr2 as [-> | H]; [rewrite Hr1; lra | exact H]. }
  split; [exact He |]. split; [exact Hr |].
  intro Hc.
  assert (Ha : 0 <= analyst_score m3 <= 1).
  { assert (H0 : 0 <= analyst_score m2 <= 1) by (rewrite Ha2, Ha1; lra).
    destruct (recommendation_trends client ticker) as [[| recent rest] | x] eqn:Er.
    - rewrite Ha3. exact H0.
    - destruct Ha3 as [-> | H]; [exact H0 |].
      apply H. exact (Hc client recent rest eq_refl Er).
    - rewrite Ha3. exact H0. }
  split; [exact Ha |]. apply Hscore; assumption.
Qed.

(** [X23] The EPS beat rate is the number of beats divided by the number
    of all reports the provider returned: a report without an actual value
    or without an estimate, or with an estimate of 0, counts as a miss.  So
    a provider whose reports are all unusable gives a beat rate of 0, not
    the neutral 0.5, and [analyze_stock_history] then rejects the stock by
    its quality filter, whatever its price history. *)
Theorem eps_beat_rate_counts_all_reports (client : Client) (ticker : string)
    (e : Earning) (rest : list Earning) :
  company_earnings client ticker = Return (e :: rest) ->
  let m := FundamentalMetrics.get_fundamental_metrics (Some client) ticker in
  eps_beat_rate m
  = inject_Z (Z.of_nat (count_if is_beat (e :: rest))) / len (e :: rest) /\
  (count_if is_beat (e :: rest) = 0%nat ->
   eps_beat_rate m == 0 /\
   forall alpaca_data upcoming,
     FullBacktester.analyze_stock_history alpaca_data (Some (metrics_of client))
       ticker upcoming = None).
Proof.
  intros Hc m. subst m. rewrite get_fundamental_metrics_blocks.
  set (m1 := snd (eps_block client ticker default_metrics)).
  set (m2 := snd (revenue_block client ticker m1)).
  set (m3 := snd (recommendation_block client ticker m2)).
  destruct (eps_block_result client ticker default_metrics) as (_ & _ & H1).
  rewrite Hc in H1. fold m1 in H1.
  destruct (revenue_block_result client ticker m1) as (He2 & _).
  fold m2 in He2.
  destruct (recommendation_block_result client ticker m2) as (He3 & _).
  fold m3 in He3.
  assert (E : eps_beat_rate m3
              = inject_Z (Z.of_nat (count_if is_beat (e :: rest)))
                / len (e :: rest))
    by (rewrite He3, He2; exact H1).
  split; [exact E |].
  intro H0.
  assert (Ez : eps_beat_rate m3 == 0).
  { rewrite E, H0. pose proof (len_cons_pos e rest). field. lra. }
  split; [exact Ez |].
  intros alpaca_data upcoming.
  destruct (FullBacktester.analyze_stock_history alpaca_data
              (Some (metrics_of client)) ticker upcoming) as [a |] eqn:Ea;
    [| reflexivity].
  exfalso. revert Ea.
  unfold FullBacktester.analyze_stock_history.
  destruct (_ <? 3)%nat; cbn [catch]; [discriminate |].
  destruct (alpaca_data _) as [bars | x]; cbn [catch obind]; [| discriminate].
  destruct (bars ticker) as [[| b bs] |]; cbn [catch]; try discriminate.
  destruct (FullBacktester.collect _ _) as [gains drawdowns].
  destruct (_ <? 3)%nat; cbn [catch]; [discriminate |].
  rewrite price_statistics_returns. cbn [catch obind].
  assert (Hq : Qltb (eps_beat_rate
                       (Scoring.get_fundamental_metrics
                          (Some (metrics_of client)) ticker)) 0.3 = true).
  { apply Qltb_lt.
    change (Scoring.get_fundamental_metrics (Some (metrics_of client)) ticker)
      with m3.
    rewrite Ez. reflexivity. }
  rewrite Hq. discriminate.
Qed.

Lemma eps_beat_rate_counts_all_reports_witness :
  eps_beat_rate
    (FundamentalMetrics.get_fundamental_metrics (Some no_estimates_provider) "ACME")
  = inject_Z (Z.of_nat (count_if is_beat
                          [mkEarning (Some 1.2) None; mkEarning (Some 0.9) None]))
    / len [mkEarning (Some 1.2) None; mkEarning (Some 0.9) None] /\
  (count_if is_beat [mkEarning (Some 1.2) None; mkEarning (Some 0.9) None] = 0%nat ->
   eps_beat_rate
     (FundamentalMetrics.get_fundamental_metrics (Some no_estimates_provider) "ACME")
   == 0 /\
   forall alpaca_data upcoming,
     FullBacktester.analyze_stock_history alpaca_data
       (Some (metrics_of no_estimates_provider)) "ACME" upcoming = None).
Proof.
  apply (eps_beat_rate_counts_all_reports no_estimates_provider "ACME"
           (mkEarning (Some 1.2) None) [mkEarning (Some 0.9) None]).
  reflexivity.
Defined.

(** [X24] Failures of the provider are absorbed metric by metric.  When
    the earnings call fails or returns no report, the beat rate and the
    surprise stay at their defaults 0.5 and 0; when the financials call
    fails, has no revenue series, fewer than two points, or a point without
    a period (the sort then fails), the revenue trend stays at 0.5; when
    the recommendations call fails or returns nothing, the analyst score
    stays at 0.5.  A failure in one block does not touch the metrics of the
    others. *)
Theorem provider_failures_absorbed (client : Client) (ticker : string) :
  let m := FundamentalMetrics.get_fundamental_metrics (Some client) ticker in
  (match company_earnings client ticker with
   | Return (_ :: _) => True
   | _ => eps_beat_rate m = 0.5 /\ avg_eps_surprise_pct m = 0
   end) /\
  (match company_basic_financials client ticker with
   | Return (Some revenue_data) =>
       (List.length revenue_data < 2)%nat \/
       (exists r, In r revenue_data /\ period r = None)
   | _ => True
   end ->
   revenue_growth_trend m = 0.5) /\
  (match recommendation_trends client ticker with
   | Return (_ :: _) => True
   | _ => analyst_score m = 0.5
   end) /\
  FundamentalMetrics.get_fundamental_metrics None ticker = default_metrics.
Proof.
  intro m. subst m. rewrite get_fundamental_metrics_blocks.
  set (m1 := snd (eps_block client ticker default_metrics)).
  set (m2 := snd (revenue_block client ticker m1)).
  set (m3 := snd (recommendation_block client ticker m2)).
  destruct (eps_block_result client ticker default_metrics) as (Hr1 & Ha1 & H1).
  fold m1 in Hr1, Ha1, H1. cbn in Hr1, Ha1.
  destruct (revenue_block_result client ticker m1)
    as (He2 & Hs2 & Ha2 & _ & Hr2).
  fold m2 in He2, Hs2, Ha2, Hr2.
  destruct (recommendation_block_result client ticker m2)
    as (He3 & Hs3 & Hr3 & Ha3).
  fold m3 in He3, Hs3, Hr3, Ha3.
  split; [| split; [| split; [| reflexivity]]].
  - destruct (company_earnings client ticker) as [[| e rest] | x]; [| exact I |];
      destruct H1 as [H1 H1']; cbn in H1, H1';
      (split; [rewrite He3, He2; exact H1 | rewrite Hs3, Hs2; exact H1']).
  - intro H. rewrite Hr3, (Hr2 H). exact Hr1.
  - destruct (recommendation_trends client ticker) as [[| recent rest] | x];
      [| exact I |]; rewrite Ha3, Ha2; exact Ha1.
Qed.

Lemma provider_failures_absorbed_witness :
  (match company_earnings no_estimates_provider "ACME" with
   | Return (_ :: _) => True
   | _ => eps_beat_rate
            (FundamentalMetrics.get_fundamental_metrics
               (Some no_estimates_provider) "ACME") = 0.5 /\
          avg_eps_surprise_pct
            (FundamentalMetrics.get_fundamental_metrics
               (Some no_estimates_provider) "ACME") = 0
   end) /\
  (match company_basic_financials no_estimates_provider "ACME" with
   | Return (Some revenue_data) =>
       (List.length revenue_data < 2)%nat \/
       (exists r, In r revenue_data /\ period r = None)
   | _ => True
   end ->
   revenue_growth_trend
     (FundamentalMetrics.get_fundamental_metrics
        (Some no_estimates_provider) "ACME") = 0.5) /\
  (match recommendation_trends no_estimates_provider "ACME" with
   | Return (_ :: _) => True
   | _ => analyst_score
            (FundamentalMetrics.get_fundamental_metrics
               (Some no_estimates_provider) "ACME") = 0.5
   end) /\
  FundamentalMetrics.get_fundamental_metrics None "ACME" = default_metrics.
Proof.
  exact (provider_failures_absorbed no_estimates_provider "ACME").
Defined.

End Fundamentals.

(** ** Selection *)

Section Selection.

Import Scoring.

Lemma insert_desc_not_nil {A K : Type} (ltb : K -> K -> bool) (key : A -> K)
    (x : A) (l : list A) : insert_desc ltb key x l <> [].
Proof. destruct l as [| y l]; simpl; [| destruct (ltb _ _)]; discriminate. Qed.

Lemma sorted_desc_nil {A K : Type} (ltb : K -> K -> bool) (key : A -> K)
    (xs : list A) : sorted_desc ltb key xs = [] -> xs = [].
Proof.
  destruct xs as [| x xs]; [reflexivity |].
  simpl. intro H. exfalso. exact (insert_desc_not_nil _ _ _ _ H).
Qed.

(** The head of a list sorted in descending order is its first maximum. *)
Lemma sorted_desc_head {A : Type} (key : A -> Q) (xs : list A)
    (best : A) (rest : list A) :
  sorted_desc Qltb key xs = best :: rest -> first_maximum key xs best.
Proof.
  revert best rest. induction xs as [| x xs IH]; intros best rest;
    [discriminate |].
  simpl. destruct (sorted_desc Qltb key xs) as [| y l] eqn:El.
  - apply sorted_desc_nil in El. subst xs. simpl.
    intro H. injection H as <- _.
    exists [], []. split; [reflexivity |]. split; constructor.
  - destruct (IH y l eq_refl) as (before & after & Hx & Hb & Ha).
    simpl. destruct (Qltb (key x) (key y)) eqn:E.
    + apply Qltb_lt in E. intro H. injection H as <- _.
      exists (x :: before), after. subst xs.
      split; [reflexivity |]. split; [constructor; assumption | exact Ha].
    + apply Qltb_ge in E. intro H. injection H as <- _.
      exists [], xs. split; [reflexivity |]. split; [constructor |].
      subst xs. apply Forall_app. split.
      * eapply Forall_impl; [| exact Hb]. intros a Ha'. simpl in Ha'. lra.
      * constructor; [exact E |].
        eapply Forall_impl; [| exact Ha]. intros a Ha'. simpl in Ha'. lra.
Qed.

(** [max] with a key returns the first maximum. *)
Lemma max_by_first_maximum {A : Type} (key : A -> Q) (first : A)
    (others : list A) :
  first_maximum key (first :: others) (max_by key first others).
Proof.
  revert first. induction others as [| x rest IH]; intro first.
  - exists [], []. split; [reflexivity |]. split; constructor.
  - cbn [max_by]. unfold Qgtb.
    destruct (Qltb (key first) (key x)) eqn:E.
    + apply Qltb_lt in E.
      destruct (IH x) as (before & after & Hx & Hb & Ha).
      exists (first :: before), after.
      split; [rewrite Hx; reflexivity |]. split; [| exact Ha].
      constructor; [| exact Hb].
      destruct before as [| b before'].
      * injection Hx as Hx _. rewrite <- Hx. exact E.
      * injection Hx as Hx _. subst b.
        inversion Hb; subst. lra.
    + apply Qltb_ge in E.
      destruct (IH first) as (before & after & Hx & Hb & Ha).
      destruct before as [| b before'].
      * injection Hx as Hx Hr.
        exists [], (x :: after).
        split; [rewrite <- Hx, Hr; reflexivity |]. split; [constructor |].
        constructor; [rewrite <- Hx; exact E | exact Ha].
      * injection Hx as Hx Hr. subst b.
        inversion Hb as [| b0 l0 Hf Hb']; subst.
        exists (first :: x :: before'), after.
        split; [simpl; do 2 f_equal; exact Hr |]. split; [| exact Ha].
        constructor; [exact Hf |]. constructor; [lra | exact Hb'].
Qed.

Lemma first_maximum_in {A : Type} (key : A -> Q) (xs : list A) (best : A) :
  first_maximum key xs best ->
  In best xs /\ forall x, In x xs -> key x <= key best.
Proof.
  intros (before & after & -> & Hb & Ha). split.
  - apply in_or_app. right. left. reflexivity.
  - intros x Hin. apply in_app_or in Hin.
    rewrite Forall_forall in Hb, Ha.
    destruct Hin as [Hin | [<- | Hin]].
    + specialize (Hb x Hin). simpl in Hb. lra.
    + lra.
    + exact (Ha x Hin).
Qed.

Lemma analyze_each_in (analyze : string -> option Analysis)
    (tickers : list string) (a : Analysis) :
  In a (StockSelection.analyze_each analyze tickers) ->
  exists ticker, In ticker tickers /\ analyze ticker = Some a.
Proof.
  induction tickers as [| t rest IH]; simpl; [contradiction |].
  destruct (analyze t) as [r |] eqn:E.
  - intros [<- | Hin].
    + exists t. split; [left; reflexivity | exact E].
    + destruct (IH Hin) as (t' & Hin' & E'). exists t'. split; [right |]; assumption.
  - intro Hin. destruct (IH Hin) as (t' & Hin' & E').
    exists t'. split; [right |]; assumption.
Qed.

Lemma analyzed_tickers_incl (config : Config.AnalysisConfig)
    (TRADABLE_STOCKS tickers : list string) (ticker : string) :
  In ticker (analyzed_tickers config TRADABLE_STOCKS tickers) ->
  In ticker tickers /\ In ticker TRADABLE_STOCKS.
Proof.
  unfold analyzed_tickers, StockSelection.filter_tradable_assets.
  intro H.
  assert (Hin : In ticker
                  (filter (fun t => existsb (String.eqb t) TRADABLE_STOCKS) tickers)).
  { destruct (_ <? _)%Z; [| exact H].
    apply slice_to_incl in H. exact H. }
  apply filter_In in Hin. destruct Hin as [Hin Hex].
  split; [exact Hin |].
  apply existsb_exists in Hex. destruct Hex as (x & Hx & Heq).
  apply String.eqb_eq in Heq. subst x. exact Hx.
Qed.

(** [X25] What [find_best_stock] selects.  The stock it returns was
    produced by the analysis of a ticker that is on the earnings calendar
    and in the tradable set; its EPS beat rate is at least 0.3, its score at
    least [min_score_threshold] and its average gain at least
    [min_avg_gain_percent / 100]; and among the analyses that pass the
    quality filter it is the first, in the order of analysis, with the
    greatest score.  Only that top candidate is tested against the
    thresholds: a candidate with a smaller score is never returned. *)
Theorem find_best_stock_selects (config : Config.AnalysisConfig)
    (TRADABLE_STOCKS tickers : list string)
    (analyze : string -> option Analysis) (best : Analysis) :
  StockSelection.find_best_stock config TRADABLE_STOCKS tickers analyze
  = Some best ->
  let analyzed := analyzed_tickers config TRADABLE_STOCKS tickers in
  (exists ticker,
      In ticker tickers /\ In ticker TRADABLE_STOCKS /\
      analyze ticker = Some best) /\
  0.3 <= a_eps_beat_rate best /\
  Config.min_score_threshold config <= a_score best /\
  Config.min_avg_gain_percent config / 100 <= a_avg_gain best /\
  first_maximum a_score (quality_results analyze analyzed) best /\
  (forall ticker r,
      In ticker analyzed -> analyze ticker = Some r ->
      0.3 <= a_eps_beat_rate r -> a_score r <= a_score best).
Proof.
  unfold StockSelection.find_best_stock.
  destruct tickers as [| t0 ts]; [discriminate |].
  set (tickers := t0 :: ts).
  destruct (StockSelection.filter_tradable_assets TRADABLE_STOCKS tickers)
    as [| f0 fs] eqn:Ef; [discriminate |].
  intros H. cbv zeta. set (analyzed := analyzed_tickers config TRADABLE_STOCKS tickers).
  assert (Ea : analyzed
               = if (Config.max_stocks_to_analyze config
                     <? Z.of_nat (List.length (f0 :: fs)))%Z
                 then slice_to (f0 :: fs) (Config.max_stocks_to_analyze config)
                 else f0 :: fs).
  { unfold analyzed, analyzed_tickers. rewrite Ef. reflexivity. }
  rewrite <- Ea in H.
  destruct (StockSelection.analyze_each analyze analyzed) as [| r0 rs] eqn:Er;
    [discriminate |].
  change (filter (fun result => Qgeb (a_eps_beat_rate result) 0.3) (r0 :: rs))
    with (filter (fun result => Qgeb (a_eps_beat_rate result) 0.3) (r0 :: rs))
    in H.
  rewrite <- Er in H. fold (quality_results analyze analyzed) in H.
  destruct (quality_results analyze analyzed) as [| q0 qs] eqn:Eq;
    [discriminate |].
  destruct (sorted_desc Qltb a_score (q0 :: qs)) as [| top rest] eqn:Es;
    [discriminate |].
  destruct (Qltb (a_score top) (Config.min_score_threshold config)) eqn:E1;
    [discriminate |].
  destruct (Qltb (a_avg_gain top) (Config.min_avg_gain_percent config / 100))
    eqn:E2; [discriminate |].
  injection H as <-.
  apply Qltb_ge in E1. apply Qltb_ge in E2.
  apply sorted_desc_head in Es.
  destruct (first_maximum_in _ _ _ Es) as [Hin Hmax].
  assert (Hq : forall r, In r (q0 :: qs) <->
                         In r (StockSelection.analyze_each analyze analyzed) /\
                         0.3 <= a_eps_beat_rate r).
  { intro r. rewrite <- Eq. unfold quality_results. rewrite filter_In.
    unfold Qgeb. rewrite Qle_bool_iff. reflexivity. }
  apply Hq in Hin. destruct Hin as [Hin Hbeat].
  destruct (analyze_each_in _ _ _ Hin) as (ticker & Ht & Han).
  apply analyzed_tickers_incl in Ht. destruct Ht as [Ht1 Ht2].
  split; [exists ticker; repeat split; assumption |].
  split; [exact Hbeat |]. split; [exact E1 |]. split; [exact E2 |].
  split; [exact Es |].
  intros ticker' r Hin' Han' Hb'.
  apply Hmax. apply Hq. split; [| exact Hb'].
  clear - Hin' Han'.
  induction analyzed as [| t rest IH]; [destruct Hin' |].
  simpl. destruct Hin' as [<- | Hin'].
  - rewrite Han'. left. reflexivity.
  - destruct (analyze t); [right |]; apply IH; exact Hin'.
Qed.

Lemma find_best_stock_selects_witness :
  match StockSelection.find_best_stock sample_analysis_config
          ["AAA"; "BBB"; "CCC"]%string ["CCC"; "ZZZ"; "BBB"; "AAA"]%string
          sample_analyze with
  | Some best =>
      (exists ticker,
          In ticker ["CCC"; "ZZZ"; "BBB"; "AAA"]%string /\
          In ticker ["AAA"; "BBB"; "CCC"]%string /\
          sample_analyze ticker = Some best) /\
      0.3 <= a_eps_beat_rate best /\
      Config.min_score_threshold sample_analysis_config <= a_score best /\
      Config.min_avg_gain_percent sample_analysis_config / 100 <= a_avg_gain best /\
      first_maximum a_score
        (quality_results sample_analyze
           (analyzed_tickers sample_analysis_config ["AAA"; "BBB"; "CCC"]%string
              ["CCC"; "ZZZ"; "BBB"; "AAA"]%string)) best /\
      (forall ticker r,
          In ticker (analyzed_tickers sample_analysis_config
                       ["AAA"; "BBB"; "CCC"]%string
                       ["CCC"; "ZZZ"; "BBB"; "AAA"]%string) ->
          sample_analyze ticker = Some r ->
          0.3 <= a_eps_beat_rate r -> a_score r <= a_score best)
  | None => False
  end.
Proof.
  destruct (StockSelection.find_best_stock sample_analysis_config
              ["AAA"; "BBB"; "CCC"]%string ["CCC"; "ZZZ"; "BBB"; "AAA"]%string
              sample_analyze) as [best |] eqn:E.
  - exact (find_best_stock_selects _ _ _ _ best E).
  - vm_compute in E. discriminate.
Defined.

End Selection.

(** ** The full backtest *)

Section FullBacktest.

Import Backtester Scoring.

Lemma inject_Z_nonzero (n : Z) : n <> 0%Z -> ~ inject_Z n == 0.
Proof. intros Hn H. apply Hn. unfold Qeq in H. simpl in H. lia. Qed.

Lemma weekday_range (d : date) : (0 <= weekday d < 7)%Z.
Proof. unfold weekday. apply Z.mod_pos_bound. lia. Qed.

Lemma weekday_next (d : date) :
  weekday (d + 1)%Z = (if (weekday d =? 6)%Z then 0 else weekday d + 1)%Z.
Proof.
  unfold weekday.
  pose proof (Z.mod_pos_bound (d + 6) 7 ltac:(lia)) as Hb.
  pose proof (Z.div_mod (d + 6) 7 ltac:(lia)) as Hd.
  destruct (Z.eqb_spec ((d + 6) mod 7) 6) as [E | E].
  - symmetry. apply (Z.mod_unique_pos _ _ ((d + 6) / 7 + 1)); lia.
  - symmetry. apply (Z.mod_unique_pos _ _ ((d + 6) / 7)); lia.
Qed.

(** The analyses of a day are analyses of tickers of that day. *)
Lemma full_analyze_each_in (env : FullBacktester.Env) (tickers : list string)
    (next_day : date) (a : Analysis) :
  In a (FullBacktester.analyze_each env tickers next_day) ->
  exists ticker,
    In ticker tickers /\
    FullBacktester.analyze_stock_history (FullBacktester.alpaca_data env) None
      ticker next_day = Some a.
Proof.
  induction tickers as [| t rest IH]; simpl; [contradiction |].
  destruct (FullBacktester.analyze_stock_history _ None t next_day) as [r |] eqn:E.
  - intros [<- | Hin].
    + exists t. split; [left; reflexivity | exact E].
    + destruct (IH Hin) as (t' & Hin' & E'). exists t'. split; [right |]; assumption.
  - intro Hin. destruct (IH Hin) as (t' & Hin' & E').
    exists t'. split; [right |]; assumption.
Qed.

(** One day of the simulation, for a backtest of at least one day. *)
Lemma simulate_day_step (env : FullBacktester.Env) (current_date : date)
    (day_num total_days : Z) (self : FullBacktester.t) :
  total_days <> 0%Z ->
  simulate_day_unchanged env current_date day_num total_days self \/
  exists best e,
    FullBacktester.simulate_day env current_date day_num total_days self
    = (Return (Some e),
       FullBacktester.mk (FullBacktester.capital self + trade_pnl e)
         (FullBacktester.initial_capital self)
         (FullBacktester.trades self ++ [e])
         (FullBacktester.daily_log self)) /\
    (weekday current_date < 5)%Z /\
    first_maximum a_score
      (FullBacktester.analyze_each env
         (slice_to (FullBacktester.earnings_calendar env (current_date + 1)%Z)
            (Z.min (Z.of_nat (List.length
                                (FullBacktester.earnings_calendar env
                                   (current_date + 1)%Z)))
               (FullBacktester.max_stocks_to_analyze env)))
         (current_date + 1)%Z) best /\
    0.4 <= a_frequency best /\
    0.01 <= a_avg_gain best /\
    simulate_trade (FullBacktester.backtester_alpaca_data env) (a_ticker best)
      (current_date + 1)%Z (a_avg_gain best) (a_avg_drawdown best * 1.5) 5
    = Some (result e) /\
    capital_before e = FullBacktester.capital self /\
    position_size e = FullBacktester.capital self * 0.85 /\
    shares e = position_size e / entry_price (result e) /\
    trade_pnl e = shares e * pnl (result e) /\
    capital_after e = FullBacktester.capital self + trade_pnl e.
Proof.
  intro Ht. unfold simulate_day_unchanged, FullBacktester.simulate_day.
  rewrite py_div_nonzero by (apply inject_Z_nonzero; exact Ht).
  destruct (5 <=? weekday current_date)%Z eqn:Ew; [left; reflexivity |].
  apply Z.leb_gt in Ew.
  destruct (FullBacktester.earnings_calendar env (current_date + 1)%Z)
    as [| s0 ss] eqn:Ec; [left; reflexivity |].
  set (tickers := slice_to (s0 :: ss) _).
  destruct (FullBacktester.analyze_each env tickers (current_date + 1)%Z)
    as [| first others] eqn:Ea; [left; reflexivity |].
  pose proof (max_by_first_maximum a_score first others) as Hmax.
  set (best := max_by a_score first others) in *.
  destruct (Qltb (a_frequency best) 0.4) eqn:Ef; cbn [orb]; [left; reflexivity |].
  destruct (Qltb (a_avg_gain best) 0.01) eqn:Eg; [left; reflexivity |].
  apply Qltb_ge in Ef. apply Qltb_ge in Eg.
  destruct (simulate_trade _ (a_ticker best) _ _ _ 5) as [r |] eqn:Es;
    [| left; reflexivity].
  right. exists best.
  exists (mkExecuted r
            (FullBacktester.capital self * 0.85 / entry_price r)
            (FullBacktester.capital self * 0.85)
            (FullBacktester.capital self * 0.85 / entry_price r * pnl r)
            (FullBacktester.capital self)
            (FullBacktester.capital self
             + FullBacktester.capital self * 0.85 / entry_price r * pnl r)).
  split; [reflexivity |].
  cbn [result capital_before position_size shares trade_pnl capital_after].
  repeat split; try assumption; reflexivity.
Qed.

(** [X26] Days without a trade.  In a backtest of at least one day,
    [simulate_day] returns None and leaves the backtester as it was on a
    Saturday or Sunday and on a day whose next day has no stock reporting
    earnings;
    whenever it returns None the backtester is unchanged; and it raises only
    when [total_days] is 0, when its progress line divides by zero, on any
    day of the week. *)
Theorem days_without_trade :
  (forall env current_date day_num total_days self,
      total_days <> 0%Z ->
      (5 <= weekday current_date)%Z \/
      FullBacktester.earnings_calendar env (current_date + 1)%Z = [] ->
      FullBacktester.simulate_day env current_date day_num total_days self
      = (Return None, self)) /\
  (forall env current_date day_num total_days self self',
      FullBacktester.simulate_day env current_date day_num total_days self
      = (Return None, self') ->
      self' = self) /\
  (forall env current_date day_num total_days self e self',
      FullBacktester.simulate_day env current_date day_num total_days self
      = (Raise e, self') ->
      total_days = 0%Z /\ e = ZeroDivisionError /\ self' = self) /\
  (forall env current_date day_num self,
      FullBacktester.simulate_day env current_date day_num 0 self
      = (Raise ZeroDivisionError, self)).
Proof.
  assert (Hzero : forall env current_date day_num self,
             FullBacktester.simulate_day env current_date day_num 0 self
             = (Raise ZeroDivisionError, self)).
  { intros. reflexivity. }
  split; [| split; [| split; [| exact Hzero]]].
  - intros env d n total self Ht Hskip.
    unfold FullBacktester.simulate_day.
    rewrite py_div_nonzero by (apply inject_Z_nonzero; exact Ht).
    destruct Hskip as [Hw | Hc].
    + apply Z.leb_le in Hw. rewrite Hw. reflexivity.
    + rewrite Hc. destruct (5 <=? weekday d)%Z; reflexivity.
  - intros env d n total self self' H.
    destruct (Z.eq_dec total 0) as [-> | Ht].
    + rewrite Hzero in H. discriminate.
    + destruct (simulate_day_step env d n total self Ht)
        as [Hu | (best & e & He & _)].
      * unfold simulate_day_unchanged in Hu. rewrite Hu in H.
        injection H as <-. reflexivity.
      * rewrite He in H. discriminate.
  - intros env d n total self e self' H.
    destruct (Z.eq_dec total 0) as [-> | Ht].
    + rewrite Hzero in H. injection H as <- <-. auto.
    + destruct (simulate_day_step env d n total self Ht)
        as [Hu | (best & e0 & He & _)].
      * unfold simulate_day_unchanged in Hu. rewrite Hu in H. discriminate.
      * rewrite He in H. discriminate.
Qed.

(** [X27] A day with a trade.  When [simulate_day] returns a trade, the day
    is a weekday; the traded ticker reports earnings on the next day and is
    entered on that day or later; the capital grows by the trade's P&L, the
    trade is appended to the list of trades, and the daily log and the
    initial capital are untouched; the trade stakes 85% of the capital
    before it; and for a positive entry price its stop-loss price is below
    and its take-profit price above the entry price. *)
Theorem day_with_trade (env : FullBacktester.Env) (current_date : date)
    (day_num total_days : Z) (self self' : FullBacktester.t) (e : Executed) :
  FullBacktester.simulate_day env current_date day_num total_days self
  = (Return (Some e), self') ->
  (weekday current_date < 5)%Z /\
  In (ticker (result e))
    (FullBacktester.earnings_calendar env (current_date + 1)%Z) /\
  (current_date + 1 <= entry_date (result e))%Z /\
  FullBacktester.capital self' = FullBacktester.capital self + trade_pnl e /\
  FullBacktester.trades self' = FullBacktester.trades self ++ [e] /\
  FullBacktester.daily_log self' = FullBacktester.daily_log self /\
  FullBacktester.initial_capital self' = FullBacktester.initial_capital self /\
  capital_before e = FullBacktester.capital self /\
  capital_after e = FullBacktester.capital self' /\
  position_size e = FullBacktester.capital self * 0.85 /\
  trade_pnl e = position_size e / entry_price (result e) * pnl (result e) /\
  (0 < entry_price (result e) ->
   stop_loss_price (result e) < entry_price (result e) /\
   entry_price (result e) < take_profit_price (result e)).
Proof.
  intro H.
  destruct (Z.eq_dec total_days 0) as [-> | Ht]; [discriminate |].
  destruct (simulate_day_step env current_date day_num total_days self Ht)
    as [Hu | (best & e0 & He & Hw & Hmax & Hf & Hg & Hs & Hcb & Hps & Hsh
              & Hpnl & Hca)].
  { unfold simulate_day_unchanged in Hu. rewrite Hu in H. discriminate. }
  rewrite He in H. injection H as <- <-.
  cbn [FullBacktester.capital FullBacktester.trades FullBacktester.daily_log
       FullBacktester.initial_capital].
  destruct (first_maximum_in _ _ _ Hmax) as [Hin _].
  apply full_analyze_each_in in Hin. destruct Hin as (tk & Htk & Ha).
  apply slice_to_incl in Htk.
  apply analyze_stock_history_inv in Ha.
  destruct Ha as (bars & df & st & _ & _ & _ & Hst & Hbest).
  apply price_statistics_signs in Hst. destruct Hst as (Hdd & _).
  assert (Hticker : a_ticker best = tk) by (rewrite Hbest; reflexivity).
  assert (Hdd' : a_avg_drawdown best < 0) by (rewrite Hbest; exact Hdd).
  destruct (FullBacktester.backtester_alpaca_data env) as [client |];
    [| discriminate].
  apply simulate_trade_inv in Hs. destruct Hs as (bars' & df' & _ & _ & Hs).
  apply simulate_frame_exit in Hs.
  destruct Hs as (entry_row & found & Hrt & Hre & _ & _ & Htp & Hsl & _).
  apply resolve_entry_spec in Hre. destruct Hre as [Hle _].
  split; [exact Hw |].
  split; [rewrite Hrt, Hticker; exact Htk |].
  split; [exact Hle |].
  split; [reflexivity |]. split; [reflexivity |]. split; [reflexivity |].
  split; [reflexivity |]. split; [exact Hcb |]. split; [exact Hca |].
  split; [exact Hps |]. split; [rewrite Hpnl, Hsh; reflexivity |].
  intro Hpos. rewrite Htp, Hsl.
  assert (H1 : 0 < entry_price (result e0) * a_avg_gain best)
    by (apply Qmult_lt_0_compat; lra).
  assert (H2 : 0 < entry_price (result e0) * - (a_avg_drawdown best * 1.5))
    by (apply Qmult_lt_0_compat; lra).
  split; lra.
Qed.

Lemma sample_day_trades :
  exists e self',
    FullBacktester.simulate_day sample_env 1002%Z 1 22 FullBacktester.init
    = (Return (Some e), self').
Proof.
  unfold FullBacktester.simulate_day.
  rewrite py_div_nonzero by (apply inject_Z_nonzero; lia).
  assert (Hw : (5 <=? weekday 1002)%Z = false) by reflexivity. rewrite Hw.
  assert (Hc : FullBacktester.earnings_calendar sample_env (1002 + 1)%Z
               = ["ACME"%string]) by reflexivity.
  rewrite Hc. cbv zeta.
  assert (Hs : slice_to ["ACME"%string]
                 (Z.min (Z.of_nat (List.length ["ACME"%string]))
                    (FullBacktester.max_stocks_to_analyze sample_env))
               = ["ACME"%string]) by reflexivity.
  rewrite Hs. cbn [FullBacktester.analyze_each].
  destruct (FullBacktester.analyze_stock_history
              (FullBacktester.alpaca_data sample_env) None "ACME" (1002 + 1)%Z)
    as [a |] eqn:Ea.
  - unfold FullBacktester.analyze_stock_history in Ea.
    rewrite past_earnings_dates_eq in Ea.
    vm_compute in Ea. injection Ea as <-.
    do 2 eexists. vm_compute. reflexivity.
  - unfold FullBacktester.analyze_stock_history in Ea.
    rewrite past_earnings_dates_eq in Ea.
    vm_compute in Ea. discriminate.
Qed.

Lemma day_with_trade_witness :
  exists e self',
    FullBacktester.simulate_day sample_env 1002%Z 1 22 FullBacktester.init
    = (Return (Some e), self') /\
    (weekday 1002 < 5)%Z /\
    In (ticker (result e))
      (FullBacktester.earnings_calendar sample_env (1002 + 1)%Z) /\
    (1002 + 1 <= entry_date (result e))%Z /\
    FullBacktester.capital self'
    = FullBacktester.capital FullBacktester.init + trade_pnl e /\
    FullBacktester.trades self'
    = FullBacktester.trades FullBacktester.init ++ [e] /\
    FullBacktester.daily_log self'
    = FullBacktester.daily_log FullBacktester.init /\
    FullBacktester.initial_capital self'
    = FullBacktester.initial_capital FullBacktester.init /\
    capital_before e = FullBacktester.capital FullBacktester.init /\
    capital_after e = FullBacktester.capital self' /\
    position_size e = FullBacktester.capital FullBacktester.init * 0.85 /\
    trade_pnl e = position_size e / entry_price (result e) * pnl (result e) /\
    (0 < entry_price (result e) ->
     stop_loss_price (result e) < entry_price (result e) /\
     entry_price (result e) < take_profit_price (result e)).
Proof.
  destruct sample_day_trades as (e & self' & E).
  exists e, self'. split; [exact E |].
  exact (day_with_trade sample_env 1002%Z 1 22 FullBacktester.init self' e E).
Defined.

Lemma calendar_days_succ (first : date) (n : nat) :
  calendar_days first (S n) = first :: calendar_days (first + 1)%Z n.
Proof.
  unfold calendar_days. rewrite <- cons_seq. cbn [map].
  rewrite Z.add_0_r. f_equal.
  rewrite <- seq_shift, map_map.
  apply map_ext. intro k. lia.
Qed.

(** The loop over the days of a backtest of at least one day: it never
    raises, logs one entry per calendar day, and extends the ledger by at
    most one trade per day. *)
Lemma day_loop_ledger (env : FullBacktester.Env) (remaining : nat)
    (current_date : date) (day_num total_days : Z) (self : FullBacktester.t) :
  total_days <> 0%Z ->
  exists new log,
    let self' :=
      snd (FullBacktester.day_loop env remaining current_date day_num
             total_days self) in
    fst (FullBacktester.day_loop env remaining current_date day_num
           total_days self) = Return tt /\
    FullBacktester.trades self' = FullBacktester.trades self ++ new /\
    FullBacktester.daily_log self' = FullBacktester.daily_log self ++ log /\
    map fst log = calendar_days current_date remaining /\
    (List.length new <= remaining)%nat /\
    ledger_chain (FullBacktester.capital self) new /\
    FullBacktester.capital self'
    = closing_capital (FullBacktester.capital self) new /\
    FullBacktester.initial_capital self' = FullBacktester.initial_capital self /\
    Forall (fun c => c = FullBacktester.capital self \/
                     In c (map capital_after new)) (map snd log).
Proof.
  intro Ht. revert current_date day_num self.
  induction remaining as [| n IH]; intros d num self.
  - exists [], []. cbn. rewrite !app_nil_r.
    repeat split; try reflexivity; constructor.
  - cbn [FullBacktester.day_loop].
    set (self1 := FullBacktester.mk (FullBacktester.capital self)
                    (FullBacktester.initial_capital self)
                    (FullBacktester.trades self)
                    (FullBacktester.daily_log self
                     ++ [(d, FullBacktester.capital self)])).
    destruct (simulate_day_step env d num total_days self1 Ht)
      as [Hu | (best & e & He & _ & _ & _ & _ & _ & Hcb & Hps & Hsh & Hpnl & Hca)].
    + unfold simulate_day_unchanged in Hu. rewrite Hu.
      destruct (IH (d + 1)%Z (num + 1)%Z self1)
        as (new & log & Hfst & Htr & Hlog & Hdays & Hlen & Hch & Hcap & Hini & Hfa).
      exists new, ((d, FullBacktester.capital self) :: log).
      cbv zeta in *. cbn [FullBacktester.capital FullBacktester.trades
        FullBacktester.daily_log FullBacktester.initial_capital self1] in *.
      split; [exact Hfst |]. split; [exact Htr |].
      split; [rewrite Hlog, <- app_assoc; reflexivity |].
      split; [rewrite calendar_days_succ; cbn [map fst]; f_equal; exact Hdays |].
      split; [lia |]. split; [exact Hch |]. split; [exact Hcap |].
      split; [exact Hini |].
      cbn [map snd]. constructor; [left; reflexivity | exact Hfa].
    + rewrite He.
      set (self2 := FullBacktester.mk _ _ _ _).
      destruct (IH (d + 1)%Z (num + 1)%Z self2)
        as (new & log & Hfst & Htr & Hlog & Hdays & Hlen & Hch & Hcap & Hini & Hfa).
      exists (e :: new), ((d, FullBacktester.capital self) :: log).
      cbv zeta in *. cbn [FullBacktester.capital FullBacktester.trades
        FullBacktester.daily_log FullBacktester.initial_capital self1 self2] in *.
      split; [exact Hfst |].
      split; [rewrite Htr, <- app_assoc; reflexivity |].
      split; [rewrite Hlog, <- app_assoc; reflexivity |].
      split; [rewrite calendar_days_succ; cbn [map fst]; f_equal; exact Hdays |].
      split; [simpl; lia |].
      split.
      { cbn [ledger_chain]. rewrite <- Hca in Hch.
        repeat split; assumption. }
      split; [rewrite closing_capital_cons, Hca; exact Hcap |].
      split; [exact Hini |].
      cbn [map snd]. constructor; [left; reflexivity |].
      eapply Forall_impl; [| exact Hfa].
      intros c [Hc | Hc]; right; [left; rewrite Hca; symmetry; exact Hc
                                 | right; exact Hc].
Qed.

Lemma calculate_statistics_returns (self : FullBacktester.t) :
  0 < FullBacktester.initial_capital self ->
  exists rep, FullBacktester.calculate_statistics self = Return rep.
Proof.
  intro Hpos. unfold FullBacktester.calculate_statistics.
  destruct (FullBacktester.trades self) as [| t ts];
    [eexists; reflexivity |].
  rewrite py_div_nonzero by lra. cbn [obind].
  rewrite py_div_len. cbn [obind].
  rewrite win_loss_statistics_returns. cbn [obind].
  destruct (drawdown_loop_returns (map snd (FullBacktester.daily_log self))
              (FullBacktester.initial_capital self) 0 Hpos) as [[mc md] ->].
  cbn [obind]. eexists. reflexivity.
Qed.

(** [X28] A run of the full backtest over [weeks] weeks, whatever the
    providers answer.  The day loop never raises; it appends exactly one
    log entry per calendar day from [today - 7 * weeks] to [today], in
    order, each holding a capital that is the starting capital or the
    capital after one of the new trades; it makes at most one trade per
    day; the new trades form a ledger that starts from the capital before
    the run, and the capital after the run is the capital the ledger ends
    with, the starting capital plus the sum of the trades' P&L; the report
    is the statistics of the backtester after the loop; and with a positive
    initial capital the run returns a report. *)
Theorem full_backtest_run (env : FullBacktester.Env) (today : date) (weeks : Z)
    (self : FullBacktester.t) :
  exists new log,
    let self' := snd (FullBacktester.run_full_backtest env today weeks self) in
    fst (FullBacktester.run_full_backtest env today weeks self)
    = FullBacktester.calculate_statistics self' /\
    FullBacktester.trades self' = FullBacktester.trades self ++ new /\
    FullBacktester.daily_log self' = FullBacktester.daily_log self ++ log /\
    map fst log
    = calendar_days (today - 7 * weeks)%Z (Z.to_nat (7 * weeks + 1)) /\
    (List.length new <= List.length log)%nat /\
    ledger_chain (FullBacktester.capital self) new /\
    FullBacktester.capital self'
    = closing_capital (FullBacktester.capital self) new /\
    FullBacktester.capital self'
    == FullBacktester.capital self + total (map trade_pnl new) /\
    FullBacktester.initial_capital self' = FullBacktester.initial_capital self /\
    Forall (fun c => c = FullBacktester.capital self \/
                     In c (map capital_after new)) (map snd log) /\
    (0 < FullBacktester.initial_capital self ->
     exists rep,
       fst (FullBacktester.run_full_backtest env today weeks self) = Return rep).
Proof.
  unfold FullBacktester.run_full_backtest. cbv zeta.
  replace (today - (today - 7 * weeks) + 1)%Z with (7 * weeks + 1)%Z by lia.
  destruct (day_loop_ledger env (Z.to_nat (7 * weeks + 1)) (today - 7 * weeks)%Z
              1 (7 * weeks + 1)%Z self ltac:(lia))
    as (new & log & Hfst & Htr & Hlog & Hdays & Hlen & Hch & Hcap & Hini & Hfa).
  cbv zeta in *.
  destruct (FullBacktester.day_loop env (Z.to_nat (7 * weeks + 1))
              (today - 7 * weeks)%Z 1 (7 * weeks + 1)%Z self)
    as [[[] | x] self'] eqn:El; cbn [fst snd] in *; [| discriminate].
  exists new, log.
  assert (Hll : List.length log = Z.to_nat (7 * weeks + 1)).
  { rewrite <- (length_map fst log), Hdays. unfold calendar_days.
    rewrite length_map, length_seq. reflexivity. }
  split; [reflexivity |]. split; [exact Htr |]. split; [exact Hlog |].
  split; [exact Hdays |]. split; [lia |]. split; [exact Hch |].
  split; [exact Hcap |].
  split; [rewrite Hcap; apply ledger_chain_total; exact Hch |].
  split; [exact Hini |]. split; [exact Hfa |].
  intro Hpos. apply calculate_statistics_returns. rewrite Hini. exact Hpos.
Qed.

End FullBacktest.
